(** * Ingestion job lifecycle of the document-management backend

    A shallow embedding of [IngestionService] (src/ingestion/ingestion.service.ts),
    the [IngestionJob] entity, the [CreateIngestionJobDto] and the part of
    [DocumentsService] the ingestion service calls, followed by the
    properties of the job lifecycle.

    Conventions of the embedding
    - a TypeORM repository is a finite map from the primary key to the row;
      [save] of an entity that carries an id writes the whole row under it;
    - a nullable column or an optional DTO field is an [option];
    - a [Date] is the number of milliseconds since the epoch, in [Z];
    - a thrown exception is the [Throw] case of [Result]; an [async] method
      is a state transformer over the store returning a [Result];
    - opaque JSON values (configuration, backend response) are carried as
      their JSON text;
    - the store fails in one way only: it refuses the INSERT of a job
      whose [documentId] is the id of no document (the foreign key the
      entity declares); the other exceptions are the ones the code throws
      and the failure of the backend call.
    The bookkeeping columns [createdAt]/[updatedAt] are maintained by the
    store, never read by the service, and are left out of the rows. *)

From Stdlib Require Import ZArith String List Lia QArith Qround.
From stdpp Require Import base option gmap strings list fin_maps.

Open Scope string_scope.
Open Scope Z_scope.

(** ** Exceptions and results *)

Inductive Exception : Type :=
  | BadRequestException (message : string)
  | NotFoundException (message : string)
  | AxiosError (message : string)
  | QueryFailedError (message : string).

Definition message (e : Exception) : string :=
  match e with
  | BadRequestException m => m
  | NotFoundException m => m
  | AxiosError m => m
  | QueryFailedError m => m
  end.

(** The spec's error taxonomy over the exceptions the code throws:
    [ValidationError] and [InvalidStateError] are both a
    [BadRequestException], [NotFoundError] is a [NotFoundException]. *)
Definition isValidationError (e : Exception) : bool :=
  match e with BadRequestException _ => true | _ => false end.
Definition isInvalidStateError (e : Exception) : bool :=
  match e with BadRequestException _ => true | _ => false end.
Definition isNotFoundError (e : Exception) : bool :=
  match e with NotFoundException _ => true | _ => false end.

Inductive Result (A : Type) : Type :=
  | Ok (a : A)
  | Throw (e : Exception).
Arguments Ok {A} a.
Arguments Throw {A} e.

(** State-and-exception monad: the state survives a throw, as the rows
    written before an exception stay written. *)
Definition M (S A : Type) : Type := S -> S * Result A.

Definition ret {S A} (a : A) : M S A := fun s => (s, Ok a).
Definition throw {S A} (e : Exception) : M S A := fun s => (s, Throw e).
Definition bind {S A B} (m : M S A) (k : A -> M S B) : M S B :=
  fun s => match m s with
           | (s', Ok a) => k a s'
           | (s', Throw e) => (s', Throw e)
           end.
Definition gets {S A} (f : S -> A) : M S A := fun s => (s, Ok (f s)).
Definition modify {S} (f : S -> S) : M S unit := fun s => (f s, Ok tt).

Notation "'let*' x ':=' m 'in' k" := (bind m (fun x => k))
  (at level 10, x name, m at level 100, k at level 200).
Notation "m ';;;' k" := (bind m (fun _ => k))
  (at level 100, k at level 200, right associativity).

(** [try { body } catch (e) { handler e }]: the handler starts from the
    state the body left behind. *)
Definition try_catch {S A} (body : M S A) (handler : Exception -> M S A) : M S A :=
  fun s => match body s with
           | (s', Ok a) => (s', Ok a)
           | (s', Throw e) => handler e s'
           end.

(** [try { body } finally { fin }]: [fin] always runs; the outcome is the
    body's unless [fin] itself throws. *)
Definition try_finally {S A} (body : M S A) (fin : M S unit) : M S A :=
  fun s => match body s with
           | (s', r) => match fin s' with
                        | (s'', Ok _) => (s'', r)
                        | (s'', Throw e) => (s'', Throw e)
                        end
           end.

(** JavaScript truthiness of a [string | null | undefined] value. *)
Definition truthy (o : option string) : bool :=
  match o with
  | Some s => negb (String.eqb s "")
  | None => false
  end.

(** ** Entities *)

Inductive IngestionStatus : Type :=
  | PENDING | PROCESSING | COMPLETED | FAILED | CANCELLED.

Inductive IngestionType : Type :=
  | SINGLE_DOCUMENT | BATCH_DOCUMENTS | REPROCESS.

Inductive DocumentStatus : Type :=
  | UPLOADED | DOC_PROCESSING | PROCESSED | ERROR.

#[global] Instance IngestionStatus_eq_dec : EqDecision IngestionStatus.
Proof. solve_decision. Defined.
#[global] Instance IngestionType_eq_dec : EqDecision IngestionType.
Proof. solve_decision. Defined.
#[global] Instance DocumentStatus_eq_dec : EqDecision DocumentStatus.
Proof. solve_decision. Defined.

(** The string values of the [IngestionType] enum. *)
Definition IngestionType_value (t : IngestionType) : string :=
  match t with
  | SINGLE_DOCUMENT => "single_document"
  | BATCH_DOCUMENTS => "batch_documents"
  | REPROCESS => "reprocess"
  end.

Module Document.
Record Document : Type := mk {
  id : string;
  title : string;
  filePath : string;
  mimeType : string;
  fileSize : Z;
  status : DocumentStatus;
  lastProcessedAt : option Z
}.
End Document.
Abbreviation Document := Document.Document.

Module IngestionJob.
Record IngestionJob : Type := mk {
  id : string;
  name : option string;
  description : option string;
  status : IngestionStatus;
  ingestionType : IngestionType;
  configuration : option string;
  result : option string;
  errorMessage : option string;
  logs : option string;
  startedAt : option Z;
  completedAt : option Z;
  progress : Z;
  retryCount : Z;
  maxRetries : Z;
  triggeredById : option string;
  documentId : option string
}.
End IngestionJob.
Abbreviation IngestionJob := IngestionJob.IngestionJob.

Module J := IngestionJob.
Module D := Document.

(** Field assignments [job.f = v] on the in-memory entity. *)
Definition set_status (v : IngestionStatus) (j : IngestionJob) : IngestionJob :=
  J.mk (J.id j) (J.name j) (J.description j) v (J.ingestionType j)
       (J.configuration j) (J.result j) (J.errorMessage j) (J.logs j)
       (J.startedAt j) (J.completedAt j) (J.progress j) (J.retryCount j)
       (J.maxRetries j) (J.triggeredById j) (J.documentId j).
Definition set_result (v : option string) (j : IngestionJob) : IngestionJob :=
  J.mk (J.id j) (J.name j) (J.description j) (J.status j) (J.ingestionType j)
       (J.configuration j) v (J.errorMessage j) (J.logs j)
       (J.startedAt j) (J.completedAt j) (J.progress j) (J.retryCount j)
       (J.maxRetries j) (J.triggeredById j) (J.documentId j).
Definition set_errorMessage (v : option string) (j : IngestionJob) : IngestionJob :=
  J.mk (J.id j) (J.name j) (J.description j) (J.status j) (J.ingestionType j)
       (J.configuration j) (J.result j) v (J.logs j)
       (J.startedAt j) (J.completedAt j) (J.progress j) (J.retryCount j)
       (J.maxRetries j) (J.triggeredById j) (J.documentId j).
Definition set_startedAt (v : option Z) (j : IngestionJob) : IngestionJob :=
  J.mk (J.id j) (J.name j) (J.description j) (J.status j) (J.ingestionType j)
       (J.configuration j) (J.result j) (J.errorMessage j) (J.logs j)
       v (J.completedAt j) (J.progress j) (J.retryCount j)
       (J.maxRetries j) (J.triggeredById j) (J.documentId j).
Definition set_completedAt (v : option Z) (j : IngestionJob) : IngestionJob :=
  J.mk (J.id j) (J.name j) (J.description j) (J.status j) (J.ingestionType j)
       (J.configuration j) (J.result j) (J.errorMessage j) (J.logs j)
       (J.startedAt j) v (J.progress j) (J.retryCount j)
       (J.maxRetries j) (J.triggeredById j) (J.documentId j).
Definition set_progress (v : Z) (j : IngestionJob) : IngestionJob :=
  J.mk (J.id j) (J.name j) (J.description j) (J.status j) (J.ingestionType j)
       (J.configuration j) (J.result j) (J.errorMessage j) (J.logs j)
       (J.startedAt j) (J.completedAt j) v (J.retryCount j)
       (J.maxRetries j) (J.triggeredById j) (J.documentId j).
Definition set_retryCount (v : Z) (j : IngestionJob) : IngestionJob :=
  J.mk (J.id j) (J.name j) (J.description j) (J.status j) (J.ingestionType j)
       (J.configuration j) (J.result j) (J.errorMessage j) (J.logs j)
       (J.startedAt j) (J.completedAt j) (J.progress j) v
       (J.maxRetries j) (J.triggeredById j) (J.documentId j).

(** Computed properties of the entity. *)
Definition isCompleted (j : IngestionJob) : bool := bool_decide (J.status j = COMPLETED).
Definition isFailed (j : IngestionJob) : bool := bool_decide (J.status j = FAILED).
Definition isProcessing (j : IngestionJob) : bool := bool_decide (J.status j = PROCESSING).
Definition isPending (j : IngestionJob) : bool := bool_decide (J.status j = PENDING).
Definition canRetry (j : IngestionJob) : bool :=
  isFailed j && (J.retryCount j <? J.maxRetries j).

Definition duration (j : IngestionJob) : option Z :=
  match J.startedAt j, J.completedAt j with
  | Some s, Some c => Some (c - s)
  | _, _ => None
  end.

(** ** The store *)

Record Db : Type := mkDb {
  ingestionJobRepository : gmap string IngestionJob;
  documentRepository : gmap string Document;
  userRepository : gset string
}.

Definition with_jobs (f : gmap string IngestionJob -> gmap string IngestionJob) (db : Db) : Db :=
  mkDb (f (ingestionJobRepository db)) (documentRepository db) (userRepository db).
Definition with_documents (f : gmap string Document -> gmap string Document) (db : Db) : Db :=
  mkDb (ingestionJobRepository db) (f (documentRepository db)) (userRepository db).

(** [ingestionJobRepository.save(job)] for an entity that has its id: the
    UPDATE of a row loaded by [findById]. The table declares a foreign key
    on [documentId] with ON DELETE CASCADE, so the document of a loaded job
    whose [documentId] is set exists, the [document] relation of the entity
    is loaded with it, and the row is written with [documentId] as it was
    loaded. *)
Definition saveJob (job : IngestionJob) : M Db IngestionJob :=
  modify (with_jobs (insert (J.id job) job)) ;;; ret job.

(** [ingestionJobRepository.save(ingestionJob)] for a new entity: the
    INSERT. The store refuses a row whose [documentId] is set and is the
    id of no document (the foreign key declared by the [document]
    relation): [save] then rejects with typeorm's [QueryFailedError], its
    message the driver's (here that of sqlite, the default), and no row is
    written. *)
Definition insertJob (job : IngestionJob) : M Db IngestionJob :=
  let* referenced :=
    gets (fun db => match J.documentId job with
                    | Some documentId =>
                        bool_decide (is_Some (documentRepository db !! documentId))
                    | None => true
                    end) in
  if negb referenced
  then throw (QueryFailedError "SQLITE_CONSTRAINT: FOREIGN KEY constraint failed")
  else saveJob job.

(** ** DocumentsService, as far as the ingestion service calls it *)

Module DocumentsService.

Definition findById (id : string) : M Db Document :=
  let* found := gets (fun db => documentRepository db !! id) in
  match found with
  | Some document => ret document
  | None => throw (NotFoundException "Document not found")
  end.

(** [document.status = status; if (status === PROCESSED) document.lastProcessedAt = new Date()] *)
Definition assignStatus (status : DocumentStatus) (now : Z) (document : Document) : Document :=
  D.mk (D.id document) (D.title document) (D.filePath document)
       (D.mimeType document) (D.fileSize document) status
       (if bool_decide (status = PROCESSED) then Some now
        else D.lastProcessedAt document).

Definition updateStatus (id : string) (status : DocumentStatus) (now : Z) : M Db Document :=
  let* document := findById id in
  let document := assignStatus status now document in
  modify (with_documents (insert (D.id document) document)) ;;;
  ret document.

End DocumentsService.

(** ** IngestionService: queries, retry, cancel *)

Definition findById (id : string) : M Db IngestionJob :=
  let* found := gets (fun db => ingestionJobRepository db !! id) in
  match found with
  | Some job => ret job
  | None => throw (NotFoundException "Ingestion job not found")
  end.

(** The part of [retry] up to and including the [save]; the dispatch it
    then schedules is [triggerIngestion], below. *)
Definition retry (id : string) : M Db IngestionJob :=
  let* job := findById id in
  if negb (canRetry job) then throw (BadRequestException "Job cannot be retried")
  else
    let job := set_status PENDING job in
    let job := set_retryCount (J.retryCount job + 1) job in
    let job := set_errorMessage None job in
    let job := set_startedAt None job in
    let job := set_completedAt None job in
    saveJob job.

Definition cancel (id : string) (now : Z) : M Db IngestionJob :=
  let* job := findById id in
  if isCompleted job || isFailed job
  then throw (BadRequestException "Cannot cancel completed or failed job")
  else
    let job := set_status CANCELLED job in
    let job := set_completedAt (Some now) job in
    saveJob job.

(** ** CreateIngestionJobDto and the validation of a create request *)

Module CreateIngestionJobDto.
Record CreateIngestionJobDto : Type := mk {
  name : option string;
  description : option string;
  ingestionType : IngestionType;
  documentId : option string;
  documentIds : option (list string);
  configuration : option string
}.
End CreateIngestionJobDto.
Abbreviation CreateIngestionJobDto := CreateIngestionJobDto.CreateIngestionJobDto.
Module Dto := CreateIngestionJobDto.

Fixpoint for_each {S A} (l : list A) (body : A -> M S unit) : M S unit :=
  match l with
  | [] => ret tt
  | x :: rest => body x ;;; for_each rest body
  end.

Definition validateIngestionJobDto (dto : CreateIngestionJobDto) : M Db unit :=
  (if bool_decide (Dto.ingestionType dto = SINGLE_DOCUMENT) then
     if negb (truthy (Dto.documentId dto))
     then throw (BadRequestException "Document ID is required for single document ingestion")
     else DocumentsService.findById (default "" (Dto.documentId dto)) ;;; ret tt
   else ret tt) ;;;
  (if bool_decide (Dto.ingestionType dto = BATCH_DOCUMENTS) then
     match Dto.documentIds dto with
     | None | Some [] =>
         throw (BadRequestException "Document IDs are required for batch ingestion")
     | Some documentIds =>
         for_each documentIds
           (fun documentId => DocumentsService.findById documentId ;;; ret tt)
     end
   else ret tt).

(** The part of [create] up to and including the [save]. [newId] is the
    uuid the store generates for the primary key; the other columns the
    DTO does not carry take their declared defaults
    ([progress] 0, [retryCount] 0, [maxRetries] 3). The configuration
    object is always truthy when present, and its JSON text is what
    [JSON.stringify] stores. *)
Definition create (dto : CreateIngestionJobDto) (userId : string) (newId : string)
  : M Db IngestionJob :=
  validateIngestionJobDto dto ;;;
  let* user := gets (fun db => bool_decide (userId ∈ userRepository db)) in
  if negb user then throw (NotFoundException "User not found")
  else
    let ingestionJob :=
      J.mk newId (Dto.name dto) (Dto.description dto) PENDING
           (Dto.ingestionType dto) (Dto.configuration dto)
           None None None None None 0 0 3 (Some userId) (Dto.documentId dto) in
    insertJob ingestionJob.

(** ** Dispatch: triggerIngestion *)

Record PayloadDocument : Type := mkPayloadDocument {
  pd_id : string;
  pd_title : string;
  file_path : string;
  mime_type : string;
  file_size : Z
}.

Record Payload : Type := mkPayload {
  job_id : string;
  ingestion_type : string;
  payload_configuration : string;
  payload_document : option PayloadDocument;
  payload_documents : option (list PayloadDocument)
}.

Definition prepareIngestionPayload (job : IngestionJob) : M Db Payload :=
  let payload :=
    mkPayload (J.id job) (IngestionType_value (J.ingestionType job))
              (if truthy (J.configuration job)
               then default "" (J.configuration job) else "{}")
              None None in
  if bool_decide (J.ingestionType job = SINGLE_DOCUMENT) && truthy (J.documentId job)
  then
    let* document := DocumentsService.findById (default "" (J.documentId job)) in
    ret (mkPayload (job_id payload) (ingestion_type payload)
                   (payload_configuration payload)
                   (Some (mkPayloadDocument (D.id document) (D.title document)
                            (D.filePath document) (D.mimeType document)
                            (D.fileSize document)))
                   None)
  else if bool_decide (J.ingestionType job = BATCH_DOCUMENTS)
  then ret (mkPayload (job_id payload) (ingestion_type payload)
                      (payload_configuration payload) None (Some []))
  else ret payload.

(** The instants returned by the [new Date()] call sites reached during
    one dispatch. *)
Record Clock : Type := mkClock {
  at_start : Z;       (* job.startedAt = new Date() *)
  at_success : Z;     (* job.completedAt = new Date(), success branch *)
  at_processed : Z;   (* document.lastProcessedAt = new Date() *)
  at_failure : Z      (* job.completedAt = new Date(), catch branch *)
}.

(** Inside [triggerIngestion] the loaded entity [job] is a mutable local
    that the try, catch and finally blocks share: they run over the store
    paired with that in-memory entity. *)
Definition Local : Type := Db * IngestionJob.

Definition liftDb {A} (m : M Db A) : M Local A :=
  fun s => match m (fst s) with (db', r) => ((db', snd s), r) end.
Definition assign (f : IngestionJob -> IngestionJob) : M Local unit :=
  modify (fun s => (fst s, f (snd s))).
Definition this_job : M Local IngestionJob := gets snd.
Definition withLocal {A} (job : IngestionJob) (m : M Local A) : M Db A :=
  fun db => match m (db, job) with (s', r) => (fst s', r) end.

(** [await this.ingestionJobRepository.save(job)] on the entity loaded at
    the start of the dispatch; see [saveJob] for the [document] relation
    loaded with it. *)
Definition saveLocal : M Local unit :=
  let* job := this_job in liftDb (saveJob job) ;;; ret tt.

(** [if (job.documentId) await documentsService.updateStatus(job.documentId, status)] *)
Definition mirror (status : DocumentStatus) (now : Z) : M Local unit :=
  let* job := this_job in
  if truthy (J.documentId job)
  then liftDb (DocumentsService.updateStatus (default "" (J.documentId job)) status now) ;;; ret tt
  else ret tt.

(** The try block up to the call of the processing backend. *)
Definition beforePost (clock : Clock) : M Local Payload :=
  assign (set_status PROCESSING) ;;;
  assign (set_startedAt (Some (at_start clock))) ;;;
  saveLocal ;;;
  mirror DOC_PROCESSING (at_processed clock) ;;;
  let* job := this_job in
  liftDb (prepareIngestionPayload job).

(** The try block after the backend answered with [data]. *)
Definition afterPost (clock : Clock) (data : string) : M Local unit :=
  assign (set_status COMPLETED) ;;;
  assign (set_completedAt (Some (at_success clock))) ;;;
  assign (set_result (Some data)) ;;;
  assign (set_progress 100) ;;;
  mirror PROCESSED (at_processed clock).

(** The catch block. *)
Definition onError (clock : Clock) (error : Exception) : M Local unit :=
  assign (set_status FAILED) ;;;
  assign (set_completedAt (Some (at_failure clock))) ;;;
  assign (set_errorMessage
            (Some (if String.eqb (message error) "" then "Unknown error occurred"
                   else message error))) ;;;
  mirror ERROR (at_processed clock).

(** [axios.post] is the environment: it answers a payload with the JSON
    text of [response.data] or throws. *)
Definition Backend : Type := Payload -> Result string.

Definition post (backend : Backend) (payload : Payload) : M Local string :=
  fun s => (s, backend payload).

Definition triggerIngestion (jobId : string) (backend : Backend) (clock : Clock)
  : M Db unit :=
  let* job := findById jobId in
  withLocal job
    (try_finally
       (try_catch
          (let* payload := beforePost clock in
           let* data := post backend payload in
           afterPost clock data)
          (onError clock))
       saveLocal).

(** *** The two halves of a dispatch

    [triggerIngestion] suspends on the backend call. [startDispatch] is
    the run up to that suspension: it ends either with the in-memory
    entity and the payload waiting for the backend, or with the outcome
    of the whole method when the backend is never reached.
    [completeDispatch] is the rest, resumed with the backend's answer. *)

Definition startDispatch (jobId : string) (clock : Clock) (db : Db)
  : Db * (Result unit + IngestionJob * Payload) :=
  match findById jobId db with
  | (db0, Throw e) => (db0, inl (Throw e))
  | (db0, Ok job) =>
      match beforePost clock (db0, job) with
      | (s1, Ok payload) => (fst s1, inr (snd s1, payload))
      | (s1, Throw e) =>
          match try_finally (onError clock e) saveLocal s1 with
          | (s2, r) => (fst s2, inl r)
          end
      end
  end.

Definition completeDispatch (job : IngestionJob) (answer : Result string) (clock : Clock)
  : M Db unit :=
  withLocal job
    (try_finally
       (try_catch
          (let* data := (fun s => (s, answer)) in afterPost clock data)
          (onError clock))
       saveLocal).

(** ** Statistics *)

Definition rows (db : Db) : list IngestionJob :=
  (map_to_list (ingestionJobRepository db)).*2.

Definition count (where_ : IngestionJob -> bool) (db : Db) : nat :=
  length (List.filter where_ (rows db)).

Record IngestionStats : Type := mkStats {
  total : nat;
  byStatus : IngestionStatus -> nat;
  byType : IngestionType -> nat;
  averageDuration : Z
}.

(** The reducer of [getIngestionStats]; a [Date] is truthy when not null. *)
Definition totalDuration (completedJobs : list IngestionJob) : Z :=
  fold_left
    (fun sum job =>
       match J.startedAt job, J.completedAt job with
       | Some startedAt, Some completedAt => sum + (completedAt - startedAt)
       | _, _ => sum
       end)
    completedJobs 0.

(** [Math.floor(totalDuration / completedJobs.length / 1000)], the
    divisions being exact. *)
Definition averageOf (completedJobs : list IngestionJob) : Z :=
  if (0 <? length completedJobs)%nat
  then Qfloor (inject_Z (totalDuration completedJobs)
               / inject_Z (Z.of_nat (length completedJobs)) / inject_Z 1000)
  else 0.

(** [find({ where: { status: COMPLETED }, select: ['startedAt', 'completedAt'] })]:
    the COMPLETED rows, read through the two selected columns. typeorm
    builds no entity from a row whose selected columns are all null, so a
    COMPLETED row with neither timestamp is not in the result; a row with
    one of them is. *)
Definition completedJobs (db : Db) : list IngestionJob :=
  List.filter
    (fun job => isCompleted job
                && (bool_decide (is_Some (J.startedAt job))
                    || bool_decide (is_Some (J.completedAt job))))
    (rows db).

Definition getIngestionStats (db : Db) : IngestionStats :=
  mkStats
    (length (rows db))
    (fun s => count (fun j => bool_decide (J.status j = s)) db)
    (fun t => count (fun j => bool_decide (J.ingestionType j = t)) db)
    (averageOf (completedJobs db)).

(** The average duration as the specification words it: the mean, in
    seconds, of [completedAt - startedAt] over the COMPLETED jobs that
    have both timestamps; 0 over no job. *)
Definition timedJobs (db : Db) : list IngestionJob :=
  List.filter (fun j => bool_decide (is_Some (duration j))) (completedJobs db).

Definition sumDurations (l : list IngestionJob) : Z :=
  fold_right (fun j acc => default 0 (duration j) + acc) 0 l.

Definition averageDuration_spec (db : Db) : Q :=
  match timedJobs db with
  | [] => 0%Q
  | l => (inject_Z (sumDurations l) / inject_Z (Z.of_nat (length l)) / inject_Z 1000)%Q
  end.

(** ** The create endpoint *)

(** The JSON body of [POST /ingestion/jobs] before it is a DTO. *)
Record CreateJobBody : Type := mkBody {
  body_name : option string;
  body_description : option string;
  body_ingestionType : option string;
  body_documentId : option string;
  body_documentIds : option (list string);
  body_configuration : option string
}.

Definition IngestionType_of_value (v : string) : option IngestionType :=
  if String.eqb v "single_document" then Some SINGLE_DOCUMENT
  else if String.eqb v "batch_documents" then Some BATCH_DOCUMENTS
  else if String.eqb v "reprocess" then Some REPROCESS
  else None.

Module IngestionController.
Section Validation.

(** class-validator's [isUUID(value, 4)]. *)
Variable isUUID : string -> bool.

(** Modelled from the spec: the request validation in front of
    [IngestionService.create] (the application bootstrap that installs it
    is not among the sources). "ingestionType missing or unrecognized →
    reject" with a ValidationError, before the service runs; the checks
    are those the decorators of [CreateIngestionJobDto] declare:
    [IsEnum]/[IsNotEmpty] on [ingestionType], optional [IsUUID] on
    [documentId] and on each of [documentIds]. *)
Definition validateBody (body : CreateJobBody) : Result CreateIngestionJobDto :=
  match body_ingestionType body with
  | None => Throw (BadRequestException "Ingestion type is required")
  | Some v =>
      match IngestionType_of_value v with
      | None => Throw (BadRequestException "Invalid ingestion type")
      | Some ingestionType =>
          if negb (from_option isUUID true (body_documentId body))
          then Throw (BadRequestException "Document ID must be a valid UUID")
          else if negb (from_option (forallb isUUID) true (body_documentIds body))
          then Throw (BadRequestException "Each document ID must be a valid UUID")
          else Ok (Dto.mk (body_name body) (body_description body) ingestionType
                     (body_documentId body) (body_documentIds body)
                     (body_configuration body))
      end
  end.

(** [@Post('jobs') create(@Body() dto, @Request() req)]. *)
Definition create (body : CreateJobBody) (userId newId : string) : M Db IngestionJob :=
  match validateBody body with
  | Throw e => throw e
  | Ok dto => create dto userId newId
  end.

End Validation.
End IngestionController.

(** ** The demo controller

    [IngestionDemoController] serves the same routes from an in-memory
    array, without the service. Its job objects are modelled with the
    entity record. It answers with an object instead of throwing. *)

Inductive DemoResponse : Type :=
  | DemoJob (job : IngestionJob) (message : string)
  | DemoError (message : string) (error : string) (statusCode : Z).

Module IngestionDemoController.

Definition retry (id : string) (demoIngestionJobs : list IngestionJob)
  : list IngestionJob * DemoResponse :=
  match list_find (fun j => J.id j = id) demoIngestionJobs with
  | None => (demoIngestionJobs, DemoError "Ingestion job not found" "Not Found" 404)
  | Some (jobIndex, job) =>
      if negb (bool_decide (J.status job = FAILED)) || (J.maxRetries job <=? J.retryCount job)
      then (demoIngestionJobs, DemoError "Job cannot be retried" "Bad Request" 400)
      else
        (* Reset job for retry *)
        let job' :=
          set_progress 0
            (set_completedAt None
               (set_startedAt None
                  (set_errorMessage None
                     (set_retryCount (J.retryCount job + 1)
                        (set_status PENDING job))))) in
        (<[jobIndex := job']> demoIngestionJobs,
         DemoJob job' "Ingestion job retry initiated successfully (Demo Mode)")
  end.

Definition cancel (id : string) (now : Z) (demoIngestionJobs : list IngestionJob)
  : list IngestionJob * DemoResponse :=
  match list_find (fun j => J.id j = id) demoIngestionJobs with
  | None => (demoIngestionJobs, DemoError "Ingestion job not found" "Not Found" 404)
  | Some (jobIndex, job) =>
      if bool_decide (J.status job = COMPLETED) || bool_decide (J.status job = FAILED)
         || bool_decide (J.status job = CANCELLED)
      then (demoIngestionJobs,
            DemoError "Cannot cancel completed, failed, or already cancelled job"
              "Bad Request" 400)
      else
        let job' := set_completedAt (Some now) (set_status CANCELLED job) in
        (<[jobIndex := job']> demoIngestionJobs,
         DemoJob job' "Ingestion job cancelled successfully (Demo Mode)")
  end.

(** The jobs [getStats] averages over:
    [status === 'completed' && job.startedAt && job.completedAt]. *)
Definition completedJobs (demoIngestionJobs : list IngestionJob) : list IngestionJob :=
  List.filter
    (fun job => bool_decide (J.status job = COMPLETED)
                && bool_decide (is_Some (J.startedAt job))
                && bool_decide (is_Some (J.completedAt job)))
    demoIngestionJobs.

End IngestionDemoController.

(** ** Interleavings of the operations

    [create] and [retry] start [triggerIngestion] without awaiting it, so
    a dispatch runs interleaved with later requests. The system is the
    store together with the dispatches that were started: those not yet
    run ([scheduled], by job id) and those suspended on the backend call
    ([awaiting], each holding its in-memory entity and payload). A
    request, and each half of a dispatch, is one step; the steps
    interleave freely. *)

Record System : Type := mkSystem {
  store : Db;
  scheduled : list string;
  awaiting : list (IngestionJob * Payload)
}.

Inductive Event : Type :=
  | Create (dto : CreateIngestionJobDto) (userId newId : string)
  | Retry (id : string)
  | Cancel (id : string) (now : Z)
  | DispatchStarts (k : nat) (clock : Clock)
  | BackendAnswers (k : nat) (answer : Result string) (clock : Clock).

Definition step (s : System) (ev : Event) : option System :=
  match ev with
  | Create dto userId newId =>
      (* the store generates an id no row has *)
      if bool_decide (is_Some (ingestionJobRepository (store s) !! newId)) then None
      else
        match create dto userId newId (store s) with
        | (db', Ok job) => Some (mkSystem db' (scheduled s ++ [J.id job]) (awaiting s))
        | (db', Throw _) => Some (mkSystem db' (scheduled s) (awaiting s))
        end
  | Retry id =>
      match retry id (store s) with
      | (db', Ok job) => Some (mkSystem db' (scheduled s ++ [J.id job]) (awaiting s))
      | (db', Throw _) => Some (mkSystem db' (scheduled s) (awaiting s))
      end
  | Cancel id now =>
      match cancel id now (store s) with
      | (db', _) => Some (mkSystem db' (scheduled s) (awaiting s))
      end
  | DispatchStarts k clock =>
      match scheduled s !! k with
      | None => None
      | Some jobId =>
          match startDispatch jobId clock (store s) with
          | (db', inl _) => Some (mkSystem db' (delete k (scheduled s)) (awaiting s))
          | (db', inr task) =>
              Some (mkSystem db' (delete k (scheduled s)) (awaiting s ++ [task]))
          end
      end
  | BackendAnswers k answer clock =>
      match awaiting s !! k with
      | None => None
      | Some task =>
          match completeDispatch (fst task) answer clock (store s) with
          | (db', _) => Some (mkSystem db' (scheduled s) (delete k (awaiting s)))
          end
      end
  end.

Fixpoint run (s : System) (evs : list Event) : option System :=
  match evs with
  | [] => Some s
  | ev :: rest =>
      match step s ev with
      | Some s' => run s' rest
      | None => None
      end
  end.

(** The system starts with no job and no dispatch, over any documents
    and users. *)
Definition initial (documents : gmap string Document) (users : gset string) : System :=
  mkSystem (mkDb ∅ documents users) [] [].

Definition reachable (s : System) : Prop :=
  exists documents users evs, run (initial documents users) evs = Some s.

(** A row is stored under its primary key. *)
Definition row (db : Db) (id : string) (job : IngestionJob) : Prop :=
  ingestionJobRepository db !! id = Some job /\ J.id job = id.

Definition primaryKeys (db : Db) : Prop :=
  (forall k job, ingestionJobRepository db !! k = Some job -> J.id job = k) /\
  (forall k doc, documentRepository db !! k = Some doc -> D.id doc = k).

(** Case analysis on the status of a job, keeping the equation. *)
Ltac by_status job :=
  let E := fresh "Estatus" in
  destruct (J.status job) eqn:E.

(** ** Further parts of the entity and of the demo controller *)

(** [get durationInSeconds]: [duration ? Math.floor(duration / 1000) : null];
    a duration of 0 is falsy. *)
Definition durationInSeconds (j : IngestionJob) : option Z :=
  match duration j with
  | Some d => if d =? 0 then None else Some (d / 1000)
  | None => None
  end.

(** The string values of the [IngestionStatus] enum. *)
Definition IngestionStatus_value (s : IngestionStatus) : string :=
  match s with
  | PENDING => "pending"
  | PROCESSING => "processing"
  | COMPLETED => "completed"
  | FAILED => "failed"
  | CANCELLED => "cancelled"
  end.

(** [Array.prototype.slice(start, end)]: a negative index counts from the
    end, an index past the end is the end, and an empty range gives []. *)
Definition js_slice {A} (l : list A) (start end_ : Z) : list A :=
  let len := Z.of_nat (length l) in
  let k := if start <? 0 then Z.max (len + start) 0 else Z.min start len in
  let final := if end_ <? 0 then Z.max (len + end_) 0 else Z.min end_ len in
  take (Z.to_nat (final - k)) (drop (Z.to_nat k) l).

Record DemoPage : Type := mkDemoPage {
  page_jobs : list IngestionJob;
  page_total : nat;
  page_page : Z;
  page_limit : Z
}.

(** The filters of the demo controller's [findAll], applied in turn when
    the query parameter is truthy. *)
Definition demo_filtered (status ingestionType userId : option string)
           (demoIngestionJobs : list IngestionJob) : list IngestionJob :=
  let filteredJobs := demoIngestionJobs in
  let filteredJobs :=
    if truthy status
    then List.filter (fun job => bool_decide (Some (IngestionStatus_value (J.status job)) = status))
           filteredJobs
    else filteredJobs in
  let filteredJobs :=
    if truthy ingestionType
    then List.filter
           (fun job => bool_decide (Some (IngestionType_value (J.ingestionType job)) = ingestionType))
           filteredJobs
    else filteredJobs in
  if truthy userId
  then List.filter (fun job => bool_decide (J.triggeredById job = userId)) filteredJobs
  else filteredJobs.

(** [IngestionDemoController.findAll(page, limit, status, ingestionType, userId)]. *)
Definition demo_findAll (page limit : Z) (status ingestionType userId : option string)
           (demoIngestionJobs : list IngestionJob) : DemoPage :=
  let filteredJobs := demo_filtered status ingestionType userId demoIngestionJobs in
  let skip := (page - 1) * limit in
  let paginatedJobs := js_slice filteredJobs skip (skip + limit) in
  mkDemoPage paginatedJobs (length filteredJobs) page limit.

(** ** Sample data used by the examples *)

Definition sample_job (status : IngestionStatus) (progress retryCount : Z) : IngestionJob :=
  J.mk "job-1" (Some "nightly") None status SINGLE_DOCUMENT None None None None
       (Some 1000) (Some 5000) progress retryCount 3 (Some "user-1") (Some "doc-1").

Definition sample_document (status : DocumentStatus) : Document :=
  D.mk "doc-1" "Report" "/uploads/report.txt" "text/plain" 17 status None.

Definition sample_db (status : IngestionStatus) (progress retryCount : Z) : Db :=
  mkDb {[ "job-1" := sample_job status progress retryCount ]}
       {[ "doc-1" := sample_document DOC_PROCESSING ]}
       {[ "user-1" ]}.

Definition sample_clock : Clock := mkClock 1000 6000 6001 7000.

Definition sample_dto : CreateIngestionJobDto :=
  Dto.mk (Some "nightly") None SINGLE_DOCUMENT (Some "doc-1") None None.

Definition sample_initial : System :=
  initial {[ "doc-1" := sample_document UPLOADED ]} {[ "user-1" ]}.

(** A job is created, dispatched, fails on a backend timeout and is
    retried. *)
Definition sample_failed_then_retried : list Event :=
  [ Create sample_dto "user-1" "job-1";
    DispatchStarts 0 sample_clock;
    BackendAnswers 0 (Throw (AxiosError "timeout of 30000ms exceeded")) sample_clock;
    Retry "job-1" ].

Definition sample_batch_dto : CreateIngestionJobDto :=
  Dto.mk None None BATCH_DOCUMENTS None (Some ["doc-1"; "doc-404"]) None.

Definition sample_reprocess_dto : CreateIngestionJobDto :=
  Dto.mk None None REPROCESS (Some "doc-404") None None.

Definition sample_reprocess_stored_dto : CreateIngestionJobDto :=
  Dto.mk None None REPROCESS (Some "doc-1") None None.

Definition sample_invalid_body : CreateJobBody :=
  mkBody None None (Some "invalid_type") None None None.

(** The in-memory entity after the assignments of each block of
    [triggerIngestion]. *)
Definition started (clock : Clock) (job : IngestionJob) : IngestionJob :=
  set_startedAt (Some (at_start clock)) (set_status PROCESSING job).

Definition completed (clock : Clock) (data : string) (job : IngestionJob) : IngestionJob :=
  set_progress 100
    (set_result (Some data)
       (set_completedAt (Some (at_success clock)) (set_status COMPLETED job))).

Definition failed (clock : Clock) (error : Exception) (job : IngestionJob) : IngestionJob :=
  set_errorMessage
    (Some (if String.eqb (message error) "" then "Unknown error occurred"
           else message error))
    (set_completedAt (Some (at_failure clock)) (set_status FAILED job)).

(** A dispatch is awaiting the backend when the job is cancelled. *)
Definition sample_cancel_during_dispatch : list Event :=
  [ Create sample_dto "user-1" "job-1";
    DispatchStarts 0 sample_clock;
    Cancel "job-1" 3000 ].

Definition timed_job (id : string) (startedAt completedAt : Z) : IngestionJob :=
  J.mk id None None COMPLETED SINGLE_DOCUMENT None (Some "accepted") None None
       (Some startedAt) (Some completedAt) 100 0 3 (Some "user-1") (Some "doc-1").

Definition stats_db (jobs : list IngestionJob) : Db :=
  mkDb (list_to_map (List.map (fun j => (J.id j, j)) jobs)) ∅ ∅.

(** ** Predicates of the invariants *)

(** [m] keeps [P]: whatever it returns or throws, the state it leaves
    satisfies [P] when the state it started from did. *)
Definition preserves {S A} (P : S -> Prop) (m : M S A) : Prop :=
  forall s, P s -> P (fst (m s)).

Definition retriesBounded (job : IngestionJob) : Prop :=
  J.retryCount job <= J.maxRetries job.

Definition boundedDb (db : Db) : Prop :=
  forall id job, ingestionJobRepository db !! id = Some job -> retriesBounded job.

Definition boundedLocal (s : Local) : Prop :=
  boundedDb (fst s) /\ retriesBounded (snd s).

Definition boundedSystem (s : System) : Prop :=
  boundedDb (store s) /\
  forall task, task ∈ awaiting s -> retriesBounded (fst task).

(** The documents differ from [docs0] at most at the key [docId] names,
    the in-memory entity references [docId], and documents are stored
    under their ids. *)
Definition documentsFramed (docs0 : gmap string Document) (docId : option string)
           (s : Local) : Prop :=
  J.documentId (snd s) = docId /\
  (forall k doc, documentRepository (fst s) !! k = Some doc -> D.id doc = k) /\
  (forall d, d <> default "" docId -> documentRepository (fst s) !! d = docs0 !! d) /\
  (truthy docId = false -> documentRepository (fst s) = docs0).

(** The shape of a stored job: the columns fixed at creation and the
    fields each status comes with. *)
Definition jobBase (j : IngestionJob) : Prop :=
  J.maxRetries j = 3 /\ 0 <= J.retryCount j <= 3 /\
  (J.progress j = 0 \/ J.progress j = 100).

Definition jobShape (j : IngestionJob) : Prop :=
  jobBase j /\
  match J.status j with
  | PENDING => J.startedAt j = None /\ J.completedAt j = None /\ J.errorMessage j = None
  | PROCESSING => is_Some (J.startedAt j)
  | COMPLETED =>
      is_Some (J.startedAt j) /\ is_Some (J.completedAt j) /\
      J.progress j = 100 /\ is_Some (J.result j)
  | FAILED =>
      is_Some (J.startedAt j) /\ is_Some (J.completedAt j) /\ is_Some (J.errorMessage j)
  | CANCELLED => is_Some (J.completedAt j)
  end.

(** The in-memory entity of a dispatch awaiting the backend. *)
Definition entityShape (j : IngestionJob) : Prop :=
  jobBase j /\ is_Some (J.startedAt j).

Definition allJobs (P : IngestionJob -> Prop) (db : Db) : Prop :=
  forall k j, ingestionJobRepository db !! k = Some j -> J.id j = k /\ P j.

Definition shapedSystem (s : System) : Prop :=
  allJobs jobShape (store s) /\
  forall task, task ∈ awaiting s -> entityShape (fst task).

(** The entity [create] builds from a DTO. *)
Definition createdJob (dto : CreateIngestionJobDto) (userId newId : string) : IngestionJob :=
  J.mk newId (Dto.name dto) (Dto.description dto) PENDING
       (Dto.ingestionType dto) (Dto.configuration dto)
       None None None None None 0 0 3 (Some userId) (Dto.documentId dto).

(** A job is created, dispatched, and the backend accepts it. *)
Definition sample_completed_run : list Event :=
  [ Create sample_dto "user-1" "job-1";
    DispatchStarts 0 sample_clock;
    BackendAnswers 0 (Ok "accepted") sample_clock ].

(** Two versions of a job agree on the columns no operation assigns. *)
Definition sameIdentity (a b : IngestionJob) : Prop :=
  J.id a = J.id b /\ J.name a = J.name b /\ J.description a = J.description b /\
  J.ingestionType a = J.ingestionType b /\ J.configuration a = J.configuration b /\
  J.maxRetries a = J.maxRetries b /\ J.triggeredById a = J.triggeredById b /\
  J.documentId a = J.documentId b /\ J.logs a = J.logs b.

(** Rows sit under their ids, and every awaiting entity has a row of its
    identity. *)
Definition identifiedSystem (s : System) : Prop :=
  (forall k j, ingestionJobRepository (store s) !! k = Some j -> J.id j = k) /\
  forall task, task ∈ awaiting s ->
    exists stored, ingestionJobRepository (store s) !! J.id (fst task) = Some stored /\
                   sameIdentity stored (fst task).

(** Every job of [s] is still there in [s'], with the same identity. *)
Definition keepsJobs (s s' : System) : Prop :=
  forall id job, ingestionJobRepository (store s) !! id = Some job ->
    exists job', ingestionJobRepository (store s') !! id = Some job' /\
                 sameIdentity job job'.

(** The foreign key of [documentId]: a job whose [documentId] is set
    references a stored document. *)
Definition references (documents : gmap string Document) (job : IngestionJob) : Prop :=
  forall d, J.documentId job = Some d -> is_Some (documents !! d).

Definition referentialIntegrity (db : Db) : Prop :=
  forall k job, ingestionJobRepository db !! k = Some job ->
    references (documentRepository db) job.

Definition integralSystem (s : System) : Prop :=
  referentialIntegrity (store s) /\
  forall task, task ∈ awaiting s -> references (documentRepository (store s)) (fst task).

(** No document of [docs0] is missing from the store. *)
Definition documentsKept (docs0 : gmap string Document) (s : Local) : Prop :=
  forall d, is_Some (docs0 !! d) -> is_Some (documentRepository (fst s) !! d).

(** * Properties *)

(** ** Basic facts about the monad and the store *)

Lemma findById_found (db : Db) (id : string) (job : IngestionJob) :
  ingestionJobRepository db !! id = Some job -> findById id db = (db, Ok job).
Proof. intros H. unfold findById, bind, gets. rewrite H. reflexivity. Qed.

Lemma findById_missing (db : Db) (id : string) :
  ingestionJobRepository db !! id = None ->
  findById id db = (db, Throw (NotFoundException "Ingestion job not found")).
Proof. intros H. unfold findById, bind, gets. rewrite H. reflexivity. Qed.

Lemma findById_inv (db db' : Db) (id : string) (job : IngestionJob) :
  findById id db = (db', Ok job) ->
  db' = db /\ ingestionJobRepository db !! id = Some job.
Proof.
  unfold findById, bind, gets.
  destruct (ingestionJobRepository db !! id) as [j|] eqn:E; cbn; intros H.
  - inversion H. subst. split; reflexivity.
  - discriminate.
Qed.

Lemma saveJob_eq (db : Db) (job : IngestionJob) :
  saveJob job db = (with_jobs (insert (J.id job) job) db, Ok job).
Proof. reflexivity. Qed.

(** The INSERT of a new row either is refused on the foreign key, the
    store staying as it was, or writes the row. *)
Lemma insertJob_cases (job : IngestionJob) (db : Db) :
  (exists d, J.documentId job = Some d /\ documentRepository db !! d = None /\
     insertJob job db
     = (db, Throw (QueryFailedError "SQLITE_CONSTRAINT: FOREIGN KEY constraint failed"))) \/
  ((forall d, J.documentId job = Some d -> is_Some (documentRepository db !! d)) /\
   insertJob job db = (with_jobs (insert (J.id job) job) db, Ok job)).
Proof.
  unfold insertJob, bind, gets.
  destruct (J.documentId job) as [d|] eqn:Ed.
  - destruct (documentRepository db !! d) as [doc|] eqn:Hd.
    + right. split; [intros d' [= <-]; eauto|].
      rewrite bool_decide_eq_true_2 by eauto. reflexivity.
    + left. exists d. split; [reflexivity|]. split; [exact Hd|].
      rewrite bool_decide_eq_false_2; [reflexivity|].
      intros [x Hx]. discriminate Hx.
  - right. split; [discriminate | reflexivity].
Qed.

Lemma row_insert (db : Db) (id : string) (job : IngestionJob) :
  J.id job = id -> row (with_jobs (insert id job) db) id job.
Proof. intros H. split; [apply lookup_insert_eq | exact H]. Qed.

(** ** cancel *)

(** What [cancel] does, status by status: it is refused exactly on a
    COMPLETED or FAILED job, with a [BadRequestException] (the spec's
    InvalidStateError) and the store untouched. On every other status —
    PENDING, PROCESSING and also an already CANCELLED job — it succeeds,
    sets [status = CANCELLED] and [completedAt = now] and persists the
    job. *)
Lemma cancel_outcome (db : Db) (id : string) (job : IngestionJob) (now : Z) :
  row db id job ->
  (J.status job = PENDING \/ J.status job = PROCESSING \/ J.status job = CANCELLED ->
     exists job',
       cancel id now db = (with_jobs (insert id job') db, Ok job') /\
       job' = set_completedAt (Some now) (set_status CANCELLED job) /\
       J.status job' = CANCELLED /\ J.completedAt job' = Some now /\
       row (with_jobs (insert id job') db) id job') /\
  (J.status job = COMPLETED \/ J.status job = FAILED ->
     exists e, cancel id now db = (db, Throw e) /\ isInvalidStateError e = true).
Proof.
  intros [Hfound Hid]. split.
  - intros Hs. eexists. split; [|split; [reflexivity|]].
    + unfold cancel, bind. rewrite (findById_found _ _ _ Hfound).
      unfold isCompleted, isFailed.
      by_status job; cbn; try (rewrite <- Hid; reflexivity);
        destruct Hs as [Hs|[Hs|Hs]]; discriminate.
    + repeat split; try reflexivity. apply lookup_insert_eq. exact Hid.
  - intros Hs. eexists. split.
    + unfold cancel, bind. rewrite (findById_found _ _ _ Hfound).
      unfold isCompleted, isFailed.
      destruct Hs as [Hs|Hs]; rewrite Hs; cbn; reflexivity.
    + reflexivity.
Qed.

Lemma cancel_outcome_witness :
  row (sample_db PROCESSING 0 0) "job-1" (sample_job PROCESSING 0 0) /\
  exists job',
    cancel "job-1" 9000 (sample_db PROCESSING 0 0)
    = (with_jobs (insert "job-1" job') (sample_db PROCESSING 0 0), Ok job') /\
    J.status job' = CANCELLED /\ J.completedAt job' = Some 9000.
Proof.
  assert (Hrow : row (sample_db PROCESSING 0 0) "job-1" (sample_job PROCESSING 0 0))
    by (split; reflexivity).
  split; [exact Hrow|].
  destruct (proj1 (cancel_outcome _ _ _ 9000 Hrow)) as (job' & H1 & _ & H2 & H3 & _).
  - right; left; reflexivity.
  - exists job'. repeat split; assumption.
Defined.

(** The demo controller refuses to cancel a job that is COMPLETED, FAILED
    or already CANCELLED. *)
Lemma demo_cancel_refuses_terminal (id : string) (now : Z) (jobs : list IngestionJob)
      (jobIndex : nat) (job : IngestionJob) :
  list_find (fun j => J.id j = id) jobs = Some (jobIndex, job) ->
  J.status job = COMPLETED \/ J.status job = FAILED \/ J.status job = CANCELLED ->
  IngestionDemoController.cancel id now jobs
  = (jobs, DemoError "Cannot cancel completed, failed, or already cancelled job"
             "Bad Request" 400).
Proof.
  intros Hfind Hs. unfold IngestionDemoController.cancel. rewrite Hfind.
  destruct Hs as [-> | [-> | ->]]; reflexivity.
Qed.

(** C1 does not hold of the service on an already CANCELLED job: the
    guard of [cancel] only names COMPLETED and FAILED, so the second
    [cancel] is not refused and moves [completedAt] from 5000 to 9000.
    The demo controller, on the same job, answers 400 and changes
    nothing, as the claim says. *)
Lemma cancel_on_cancelled_job_succeeds :
  row (sample_db CANCELLED 0 0) "job-1" (sample_job CANCELLED 0 0) /\
  J.status (sample_job CANCELLED 0 0) = CANCELLED /\
  J.completedAt (sample_job CANCELLED 0 0) = Some 5000 /\
  cancel "job-1" 9000 (sample_db CANCELLED 0 0)
  = (with_jobs (insert "job-1" (set_completedAt (Some 9000) (sample_job CANCELLED 0 0)))
       (sample_db CANCELLED 0 0),
     Ok (set_completedAt (Some 9000) (sample_job CANCELLED 0 0))) /\
  ~ (exists e, cancel "job-1" 9000 (sample_db CANCELLED 0 0)
               = (sample_db CANCELLED 0 0, Throw e)) /\
  IngestionDemoController.cancel "job-1" 9000 [sample_job CANCELLED 0 0]
  = ([sample_job CANCELLED 0 0],
     DemoError "Cannot cancel completed, failed, or already cancelled job"
       "Bad Request" 400).
Proof.
  repeat split; try reflexivity.
  intros [e He]. vm_compute in He. discriminate He.
Qed.

(** A successful [cancel], taken apart. *)
Lemma cancel_ok_inv (db db' : Db) (id : string) (now : Z) (job' : IngestionJob) :
  cancel id now db = (db', Ok job') ->
  exists job,
    ingestionJobRepository db !! id = Some job /\
    job' = set_completedAt (Some now) (set_status CANCELLED job) /\
    db' = with_jobs (insert (J.id job) job') db.
Proof.
  unfold cancel, bind. intros H.
  destruct (findById id db) as [db0 [job|e]] eqn:Efind; [|discriminate H].
  apply findById_inv in Efind as [-> Hfound].
  destruct (isCompleted job || isFailed job); [discriminate H|].
  rewrite saveJob_eq in H. inversion H; subst db' job'; clear H.
  exists job. repeat split. exact Hfound.
Qed.

(** C10: [cancel] never touches the documents. When it succeeds, the
    document repository (and the users) are exactly as before — a document
    that a dispatch moved to PROCESSING is still PROCESSING — no other job
    row changes, and on the cancelled job every field other than [status]
    and [completedAt] keeps its value. *)
Theorem cancel_frame (db db' : Db) (id : string) (now : Z) (job' : IngestionJob) :
  cancel id now db = (db', Ok job') ->
  documentRepository db' = documentRepository db /\
  userRepository db' = userRepository db /\
  exists job,
    ingestionJobRepository db !! id = Some job /\
    ingestionJobRepository db' = <[J.id job := job']> (ingestionJobRepository db) /\
    J.status job' = CANCELLED /\ J.completedAt job' = Some now /\
    J.id job' = J.id job /\ J.name job' = J.name job /\
    J.description job' = J.description job /\
    J.ingestionType job' = J.ingestionType job /\
    J.configuration job' = J.configuration job /\
    J.result job' = J.result job /\ J.errorMessage job' = J.errorMessage job /\
    J.logs job' = J.logs job /\ J.startedAt job' = J.startedAt job /\
    J.progress job' = J.progress job /\ J.retryCount job' = J.retryCount job /\
    J.maxRetries job' = J.maxRetries job /\
    J.triggeredById job' = J.triggeredById job /\
    J.documentId job' = J.documentId job.
Proof.
  intros H. destruct (cancel_ok_inv _ _ _ _ _ H) as (job & Hfound & -> & ->).
  split; [reflexivity|]. split; [reflexivity|].
  exists job. repeat split; try reflexivity. exact Hfound.
Qed.

Lemma cancel_frame_witness :
  cancel "job-1" 9000 (sample_db PROCESSING 0 0)
  = (with_jobs (insert "job-1"
                  (set_completedAt (Some 9000)
                     (set_status CANCELLED (sample_job PROCESSING 0 0))))
       (sample_db PROCESSING 0 0),
     Ok (set_completedAt (Some 9000)
           (set_status CANCELLED (sample_job PROCESSING 0 0)))) /\
  documentRepository
    (with_jobs (insert "job-1"
                  (set_completedAt (Some 9000)
                     (set_status CANCELLED (sample_job PROCESSING 0 0))))
       (sample_db PROCESSING 0 0))
  = documentRepository (sample_db PROCESSING 0 0) /\
  documentRepository (sample_db PROCESSING 0 0) !! "doc-1"
  = Some (sample_document DOC_PROCESSING).
Proof.
  assert (H : cancel "job-1" 9000 (sample_db PROCESSING 0 0)
    = (with_jobs (insert "job-1"
                    (set_completedAt (Some 9000)
                       (set_status CANCELLED (sample_job PROCESSING 0 0))))
         (sample_db PROCESSING 0 0),
       Ok (set_completedAt (Some 9000)
             (set_status CANCELLED (sample_job PROCESSING 0 0)))))
    by reflexivity.
  split; [exact H|]. split; [|reflexivity].
  exact (proj1 (cancel_frame _ _ _ _ _ H)).
Defined.

(** ** retry *)

(** What a successful [retry] does: it persists the job with
    [status = PENDING], [errorMessage], [startedAt] and [completedAt]
    cleared and [retryCount] one higher. It assigns nothing else:
    [progress] keeps the value it had, and so do [id], [ingestionType],
    [documentId], [configuration], [maxRetries], [triggeredBy], [name],
    [description], [result] and [logs]. *)
Lemma retry_effect (db db' : Db) (id : string) (job job' : IngestionJob) :
  row db id job ->
  retry id db = (db', Ok job') ->
  db' = with_jobs (insert id job') db /\ row db' id job' /\
  J.status job' = PENDING /\ J.errorMessage job' = None /\
  J.startedAt job' = None /\ J.completedAt job' = None /\
  J.retryCount job' = J.retryCount job + 1 /\
  J.progress job' = J.progress job /\
  J.id job' = J.id job /\ J.ingestionType job' = J.ingestionType job /\
  J.documentId job' = J.documentId job /\
  J.configuration job' = J.configuration job /\
  J.maxRetries job' = J.maxRetries job /\
  J.triggeredById job' = J.triggeredById job /\
  J.name job' = J.name job /\ J.description job' = J.description job /\
  J.result job' = J.result job /\ J.logs job' = J.logs job.
Proof.
  intros [Hfound Hid] H. unfold retry, bind in H.
  rewrite (findById_found _ _ _ Hfound) in H.
  destruct (negb (canRetry job)); [discriminate H|].
  rewrite saveJob_eq in H. cbn in H. rewrite Hid in H.
  inversion H; subst db' job'; clear H.
  split; [reflexivity|]. split; [apply row_insert; exact Hid|].
  repeat split; reflexivity.
Qed.

Lemma retry_effect_witness :
  row (sample_db FAILED 0 1) "job-1" (sample_job FAILED 0 1) /\
  J.status (sample_job PENDING 0 2) = PENDING /\
  J.retryCount (set_startedAt None (set_completedAt None (sample_job PENDING 0 2)))
  = J.retryCount (sample_job FAILED 0 1) + 1 /\
  J.progress (set_startedAt None (set_completedAt None (sample_job PENDING 0 2)))
  = J.progress (sample_job FAILED 0 1).
Proof.
  assert (Hrow : row (sample_db FAILED 0 1) "job-1" (sample_job FAILED 0 1))
    by (split; reflexivity).
  assert (H : retry "job-1" (sample_db FAILED 0 1)
              = (with_jobs (insert "job-1"
                   (set_startedAt None (set_completedAt None (sample_job PENDING 0 2))))
                   (sample_db FAILED 0 1),
                 Ok (set_startedAt None (set_completedAt None (sample_job PENDING 0 2)))))
    by reflexivity.
  destruct (retry_effect _ _ _ _ _ Hrow H)
    as (_ & _ & _ & _ & _ & _ & Hrc & Hpr & _).
  split; [exact Hrow|]. split; [reflexivity|]. split; [exact Hrc | exact Hpr].
Defined.

(** The demo controller's retry resets [progress] to 0. *)
Lemma demo_retry_resets_progress (id : string) (jobs jobs' : list IngestionJob)
      (job' : IngestionJob) (msg : string) :
  IngestionDemoController.retry id jobs = (jobs', DemoJob job' msg) ->
  J.status job' = PENDING /\ J.progress job' = 0.
Proof.
  unfold IngestionDemoController.retry.
  destruct (list_find (fun j => J.id j = id) jobs) as [[i job]|]; [|discriminate].
  destruct (negb (bool_decide (J.status job = FAILED)) || (J.maxRetries job <=? J.retryCount job));
    [discriminate|].
  intros H. inversion H; subst. split; reflexivity.
Qed.

(** C2 does not hold of the service on a FAILED job whose [progress] is
    not 0: [retry] succeeds and every field the claim lists is as it says,
    except that the persisted job still has [progress = 100] — [retry]
    never assigns [progress]. The demo controller's retry, on the same
    job, resets it to 0. *)
Lemma retry_keeps_progress :
  row (sample_db FAILED 100 0) "job-1" (sample_job FAILED 100 0) /\
  retry "job-1" (sample_db FAILED 100 0)
  = (with_jobs (insert "job-1"
                  (set_startedAt None (set_completedAt None (sample_job PENDING 100 1))))
       (sample_db FAILED 100 0),
     Ok (set_startedAt None (set_completedAt None (sample_job PENDING 100 1)))) /\
  J.progress (set_startedAt None (set_completedAt None (sample_job PENDING 100 1))) = 100 /\
  J.progress (set_startedAt None (set_completedAt None (sample_job PENDING 100 1))) <> 0 /\
  IngestionDemoController.retry "job-1" [sample_job FAILED 100 0]
  = ([set_startedAt None (set_completedAt None (sample_job PENDING 0 1))],
     DemoJob (set_startedAt None (set_completedAt None (sample_job PENDING 0 1)))
       "Ingestion job retry initiated successfully (Demo Mode)").
Proof.
  split; [split; reflexivity|].
  split; [reflexivity|]. split; [reflexivity|]. split; [discriminate | reflexivity].
Qed.

(** Such a row is what the completion of a dispatch writes when the
    backend has answered but the document is gone by the time its status
    is mirrored: the success assignments stay on the entity and the catch
    block only overwrites [status], [completedAt] and [errorMessage]. *)
Lemma failure_after_backend_answer_keeps_progress :
  exists job',
    ingestionJobRepository
      (fst (completeDispatch (sample_job PROCESSING 0 0) (Ok "accepted") sample_clock
              (mkDb {[ "job-1" := sample_job PROCESSING 0 0 ]} ∅ {[ "user-1" ]})))
      !! "job-1" = Some job' /\
    J.status job' = FAILED /\ J.progress job' = 100 /\
    J.result job' = Some "accepted" /\
    J.errorMessage job' = Some "Document not found".
Proof. eexists. split; [vm_compute; reflexivity|]. repeat split; reflexivity. Qed.

(** ** Preservation of a state predicate by the monad's combinators *)

Section Preserves.
Context {S : Type} (P : S -> Prop).

Lemma preserves_ret {A} (a : A) : preserves P (ret a).
Proof. intros s H. exact H. Qed.

Lemma preserves_throw {A} (e : Exception) : preserves P (@throw S A e).
Proof. intros s H. exact H. Qed.

Lemma preserves_gets {A} (f : S -> A) : preserves P (gets f).
Proof. intros s H. exact H. Qed.

Lemma preserves_modify (f : S -> S) :
  (forall s, P s -> P (f s)) -> preserves P (modify f).
Proof. intros Hf s H. apply Hf, H. Qed.

Lemma preserves_bind {A B} (m : M S A) (k : A -> M S B) :
  preserves P m -> (forall a, preserves P (k a)) -> preserves P (bind m k).
Proof.
  intros Hm Hk s H. unfold bind. specialize (Hm s H).
  destruct (m s) as [s' [a|e]]; cbn in *.
  - apply Hk, Hm.
  - exact Hm.
Qed.

Lemma preserves_try_catch {A} (body : M S A) (handler : Exception -> M S A) :
  preserves P body -> (forall e, preserves P (handler e)) ->
  preserves P (try_catch body handler).
Proof.
  intros Hb Hh s H. unfold try_catch. specialize (Hb s H).
  destruct (body s) as [s' [a|e]]; cbn in *.
  - exact Hb.
  - apply Hh, Hb.
Qed.

Lemma preserves_try_finally {A} (body : M S A) (fin : M S unit) :
  preserves P body -> preserves P fin -> preserves P (try_finally body fin).
Proof.
  intros Hb Hf s H. unfold try_finally. specialize (Hb s H).
  destruct (body s) as [s' r]; cbn in *. specialize (Hf s' Hb).
  destruct (fin s') as [s'' [u|e]]; cbn in *; exact Hf.
Qed.

Lemma preserves_if {A} (b : bool) (m1 m2 : M S A) :
  preserves P m1 -> preserves P m2 -> preserves P (if b then m1 else m2).
Proof. destruct b; auto. Qed.

Lemma preserves_for_each {A} (l : list A) (body : A -> M S unit) :
  (forall a, preserves P (body a)) -> preserves P (for_each l body).
Proof.
  intros Hb. induction l as [|x rest IH]; cbn.
  - apply preserves_ret.
  - apply preserves_bind; [apply Hb | intros _; exact IH].
Qed.
End Preserves.

(** ** The documents service only touches documents *)

Lemma documents_findById_state (id : string) (db : Db) :
  fst (DocumentsService.findById id db) = db.
Proof.
  unfold DocumentsService.findById, bind, gets.
  destruct (documentRepository db !! id); reflexivity.
Qed.

Lemma documents_updateStatus_jobs (id : string) (status : DocumentStatus) (now : Z) (db : Db) :
  ingestionJobRepository (fst (DocumentsService.updateStatus id status now db))
  = ingestionJobRepository db.
Proof.
  unfold DocumentsService.updateStatus, DocumentsService.findById, bind, gets.
  destruct (documentRepository db !! id); reflexivity.
Qed.

Lemma prepareIngestionPayload_state (job : IngestionJob) (db : Db) :
  fst (prepareIngestionPayload job db) = db.
Proof.
  unfold prepareIngestionPayload.
  destruct (bool_decide (J.ingestionType job = SINGLE_DOCUMENT) && truthy (J.documentId job)).
  - unfold bind. pose proof (documents_findById_state (default "" (J.documentId job)) db) as H.
    destruct (DocumentsService.findById (default "" (J.documentId job)) db) as [db' [d|e]];
      cbn in *; exact H.
  - destruct (bool_decide (J.ingestionType job = BATCH_DOCUMENTS)); reflexivity.
Qed.

Lemma validateIngestionJobDto_state (dto : CreateIngestionJobDto) (db : Db) :
  fst (validateIngestionJobDto dto db) = db.
Proof.
  assert (Hfind : forall id, preserves (fun s => s = db)
                    (DocumentsService.findById id ;;; ret tt)).
  { intros id s ->. unfold bind.
    pose proof (documents_findById_state id db) as H.
    destruct (DocumentsService.findById id db) as [db' [d|e]]; cbn in *; exact H. }
  enough (preserves (fun s => s = db) (validateIngestionJobDto dto)) as H
    by (apply H; reflexivity).
  unfold validateIngestionJobDto.
  apply preserves_bind.
  - apply preserves_if; [apply preserves_if|]; auto using preserves_throw, preserves_ret.
  - intros _. apply preserves_if; [|apply preserves_ret].
    destruct (Dto.documentIds dto) as [[|d ids]|]; try apply preserves_throw.
    apply preserves_for_each. exact Hfind.
Qed.

(** ** retryCount never exceeds maxRetries *)

Lemma boundedDb_insert (db : Db) (k : string) (job : IngestionJob) :
  boundedDb db -> retriesBounded job -> boundedDb (with_jobs (insert k job) db).
Proof.
  intros Hdb Hjob id j. cbn. rewrite lookup_insert.
  case_decide; [intros [= <-]; exact Hjob | apply Hdb].
Qed.

Lemma boundedDb_same_jobs (db db' : Db) :
  ingestionJobRepository db' = ingestionJobRepository db -> boundedDb db -> boundedDb db'.
Proof. intros E H id j. rewrite E. apply H. Qed.

Lemma assign_bounded (f : IngestionJob -> IngestionJob) :
  (forall j, J.retryCount (f j) = J.retryCount j /\ J.maxRetries (f j) = J.maxRetries j) ->
  preserves boundedLocal (assign f).
Proof.
  intros Hf [db job] [Hdb Hjob]. split; [exact Hdb|]. cbn.
  unfold retriesBounded in *. destruct (Hf job) as [-> ->]. exact Hjob.
Qed.

Lemma liftDb_bounded {A} (m : M Db A) :
  (forall db, ingestionJobRepository (fst (m db)) = ingestionJobRepository db) ->
  preserves boundedLocal (liftDb m).
Proof.
  intros Hm [db job] [Hdb Hjob]. unfold liftDb. cbn. specialize (Hm db).
  destruct (m db) as [db' r]. cbn in *. split; [|exact Hjob].
  eapply boundedDb_same_jobs; eauto.
Qed.

Lemma saveLocal_bounded : preserves boundedLocal saveLocal.
Proof.
  intros [db job] [Hdb Hjob]. cbn. split; [|exact Hjob].
  apply boundedDb_insert; assumption.
Qed.

Lemma mirror_bounded (status : DocumentStatus) (now : Z) :
  preserves boundedLocal (mirror status now).
Proof.
  unfold mirror. apply preserves_bind; [apply preserves_gets|]. intros job.
  apply preserves_if; [|apply preserves_ret].
  apply preserves_bind; [|intros _; apply preserves_ret].
  apply liftDb_bounded. intros db. apply documents_updateStatus_jobs.
Qed.

Create HintDb bounded.
#[local] Hint Resolve saveLocal_bounded mirror_bounded : bounded.
#[local] Hint Extern 1 (preserves boundedLocal (assign _)) =>
  (apply assign_bounded; intros; split; reflexivity) : bounded.

Lemma beforePost_bounded (clock : Clock) : preserves boundedLocal (beforePost clock).
Proof.
  unfold beforePost.
  repeat (apply preserves_bind; [auto with bounded | intros _]).
  apply preserves_bind; [apply preserves_gets|]. intros job.
  apply liftDb_bounded. intros db. rewrite prepareIngestionPayload_state. reflexivity.
Qed.

Lemma afterPost_bounded (clock : Clock) (data : string) :
  preserves boundedLocal (afterPost clock data).
Proof.
  unfold afterPost.
  repeat (apply preserves_bind; [auto with bounded | intros _]).
  auto with bounded.
Qed.

Lemma onError_bounded (clock : Clock) (e : Exception) :
  preserves boundedLocal (onError clock e).
Proof.
  unfold onError.
  repeat (apply preserves_bind; [auto with bounded | intros _]).
  auto with bounded.
Qed.

Lemma startDispatch_bounded (jobId : string) (clock : Clock) (db : Db) :
  boundedDb db ->
  boundedDb (fst (startDispatch jobId clock db)) /\
  forall task, snd (startDispatch jobId clock db) = inr task -> retriesBounded (fst task).
Proof.
  intros Hdb. unfold startDispatch.
  destruct (findById jobId db) as [db0 [job|e]] eqn:Efind.
  2:{ unfold findById, bind, gets in Efind.
      destruct (ingestionJobRepository db !! jobId); inversion Efind; subst.
      split; [exact Hdb | discriminate]. }
  apply findById_inv in Efind as [-> Hfound].
  assert (Hlocal : boundedLocal (db, job)) by (split; [exact Hdb | eapply Hdb; eauto]).
  pose proof (beforePost_bounded clock _ Hlocal) as H1.
  destruct (beforePost clock (db, job)) as [s1 [payload|e]]; cbn [fst snd] in *.
  - split; [apply H1|]. intros task [= <-]. apply H1.
  - assert (H2 : preserves boundedLocal (try_finally (onError clock e) saveLocal))
      by (apply preserves_try_finally; [apply onError_bounded | apply saveLocal_bounded]).
    specialize (H2 s1 H1).
    destruct (try_finally (onError clock e) saveLocal s1) as [s2 r]; cbn [fst snd] in *.
    split; [apply H2 | discriminate].
Qed.

Lemma completeDispatch_bounded (job : IngestionJob) (answer : Result string)
      (clock : Clock) (db : Db) :
  boundedDb db -> retriesBounded job ->
  boundedDb (fst (completeDispatch job answer clock db)).
Proof.
  intros Hdb Hjob. unfold completeDispatch, withLocal.
  assert (H : preserves boundedLocal
                (try_finally
                   (try_catch
                      (let* data := (fun s : Local => (s, answer)) in afterPost clock data)
                      (onError clock))
                   saveLocal)).
  { apply preserves_try_finally; [|apply saveLocal_bounded].
    apply preserves_try_catch; [|apply onError_bounded].
    apply preserves_bind; [intros s Hs; exact Hs | apply afterPost_bounded]. }
  specialize (H (db, job) (conj Hdb Hjob)).
  match goal with |- context [match ?m with _ => _ end] => destruct m as [s' r] end.
  apply H.
Qed.

Lemma create_bounded (dto : CreateIngestionJobDto) (userId newId : string) (db : Db) :
  boundedDb db -> boundedDb (fst (create dto userId newId db)).
Proof.
  intros Hdb. unfold create, bind.
  pose proof (validateIngestionJobDto_state dto db) as Hv.
  destruct (validateIngestionJobDto dto db) as [db0 [u|e]]; cbn in Hv; subst db0;
    [|exact Hdb].
  unfold gets. destruct (negb (bool_decide (userId ∈ userRepository db))); [exact Hdb|].
  match goal with |- context [insertJob ?j db] =>
    destruct (insertJob_cases j db) as [(d & _ & _ & ->) | [_ ->]] end; [exact Hdb|].
  cbn. apply boundedDb_insert; [exact Hdb|]. unfold retriesBounded. cbn. lia.
Qed.

Lemma retry_bounded (id : string) (db : Db) :
  boundedDb db -> boundedDb (fst (retry id db)).
Proof.
  intros Hdb. unfold retry, bind.
  destruct (findById id db) as [db0 [job|e]] eqn:Efind.
  2:{ unfold findById, bind, gets in Efind.
      destruct (ingestionJobRepository db !! id); inversion Efind; subst. exact Hdb. }
  apply findById_inv in Efind as [-> Hfound].
  destruct (canRetry job) eqn:Ecan; cbn; [|exact Hdb].
  apply boundedDb_insert; [exact Hdb|].
  unfold canRetry in Ecan. apply andb_prop in Ecan as [_ Hlt].
  apply Z.ltb_lt in Hlt. unfold retriesBounded. cbn. lia.
Qed.

Lemma cancel_bounded (id : string) (now : Z) (db : Db) :
  boundedDb db -> boundedDb (fst (cancel id now db)).
Proof.
  intros Hdb. unfold cancel, bind.
  destruct (findById id db) as [db0 [job|e]] eqn:Efind.
  2:{ unfold findById, bind, gets in Efind.
      destruct (ingestionJobRepository db !! id); inversion Efind; subst. exact Hdb. }
  apply findById_inv in Efind as [-> Hfound].
  destruct (isCompleted job || isFailed job); cbn; [exact Hdb|].
  apply boundedDb_insert; [exact Hdb|]. exact (Hdb _ _ Hfound).
Qed.

Lemma step_bounded (s s' : System) (ev : Event) :
  boundedSystem s -> step s ev = Some s' -> boundedSystem s'.
Proof.
  intros [Hdb Haw] Hstep. destruct ev as [dto u newId|id|id now|k clock|k answer clock];
    cbn in Hstep.
  - case_bool_decide; [discriminate|].
    pose proof (create_bounded dto u newId _ Hdb) as Hc.
    destruct (create dto u newId (store s)) as [db' [job|e]];
      inversion Hstep; subst; split; assumption.
  - pose proof (retry_bounded id _ Hdb) as H.
    destruct (retry id (store s)) as [db' [job|e]];
      inversion Hstep; subst; split; assumption.
  - pose proof (cancel_bounded id now _ Hdb) as H.
    destruct (cancel id now (store s)) as [db' r].
    inversion Hstep; subst; split; assumption.
  - destruct (scheduled s !! k) as [jobId|]; [|discriminate].
    destruct (startDispatch_bounded jobId clock _ Hdb) as [H1 H2].
    destruct (startDispatch jobId clock (store s)) as [db' [r|task]];
      inversion Hstep; subst; split; cbn in *; try assumption.
    intros t Ht. apply elem_of_app in Ht as [Ht|Ht]; [apply Haw, Ht|].
    apply list_elem_of_singleton in Ht as ->. apply H2. reflexivity.
  - destruct (awaiting s !! k) as [task|] eqn:Ek; [|discriminate].
    assert (Htask : retriesBounded (fst task)).
    { apply Haw. eapply list_elem_of_lookup_2; eauto. }
    pose proof (completeDispatch_bounded (fst task) answer clock _ Hdb Htask) as H.
    destruct (completeDispatch (fst task) answer clock (store s)) as [db' r].
    inversion Hstep; subst; split; cbn in *; [assumption|].
    intros t Ht. apply Haw. eapply list_elem_of_delete_inv; eauto.
Qed.

Lemma run_bounded (evs : list Event) (s s' : System) :
  boundedSystem s -> run s evs = Some s' -> boundedSystem s'.
Proof.
  revert s. induction evs as [|ev rest IH]; intros s Hs Hrun; cbn in Hrun.
  - inversion Hrun; subst. exact Hs.
  - destruct (step s ev) as [s1|] eqn:Estep; [|discriminate].
    eapply IH; [|exact Hrun]. eapply step_bounded; eauto.
Qed.

Lemma initial_bounded (documents : gmap string Document) (users : gset string) :
  boundedSystem (initial documents users).
Proof.
  split.
  - intros id job H. cbn in H. rewrite lookup_empty in H. discriminate.
  - intros task H. cbn in H. apply elem_of_nil in H. contradiction.
Qed.

Lemma retry_permitted (db : Db) (id : string) (job : IngestionJob) :
  ingestionJobRepository db !! id = Some job ->
  J.status job = FAILED -> J.retryCount job < J.maxRetries job ->
  retry id db
  = (with_jobs
       (insert (J.id job)
          (set_completedAt None (set_startedAt None (set_errorMessage None
             (set_retryCount (J.retryCount job + 1) (set_status PENDING job))))))
       db,
     Ok (set_completedAt None (set_startedAt None (set_errorMessage None
           (set_retryCount (J.retryCount job + 1) (set_status PENDING job)))))).
Proof.
  intros Hfound Hs Hlt. unfold retry, bind. rewrite (findById_found _ _ _ Hfound).
  unfold canRetry, isFailed. rewrite Hs. apply Z.ltb_lt in Hlt. rewrite Hlt.
  reflexivity.
Qed.

Lemma retry_refused (db : Db) (id : string) (job : IngestionJob) :
  ingestionJobRepository db !! id = Some job ->
  ~ (J.status job = FAILED /\ J.retryCount job < J.maxRetries job) ->
  retry id db = (db, Throw (BadRequestException "Job cannot be retried")).
Proof.
  intros Hfound Hnot. unfold retry, bind. rewrite (findById_found _ _ _ Hfound).
  destruct (canRetry job) eqn:Ecan; [|reflexivity].
  exfalso. apply Hnot. unfold canRetry, isFailed in Ecan.
  apply andb_prop in Ecan as [Hs Hlt].
  apply bool_decide_eq_true in Hs. apply Z.ltb_lt in Hlt. split; assumption.
Qed.

(** C3: [retry] on a stored job is permitted exactly when the job is
    FAILED with [retryCount < maxRetries]; otherwise it throws a
    [BadRequestException] (the spec's InvalidStateError) and leaves the
    store as it was. Consequently [retryCount <= maxRetries] holds for
    every job of every system reachable from the empty job table through
    create, retry, cancel and the two halves of a dispatch, in any
    interleaving. *)
Theorem retry_guard_and_bound :
  (forall db id job,
     ingestionJobRepository db !! id = Some job ->
     (J.status job = FAILED /\ J.retryCount job < J.maxRetries job ->
        exists job', retry id db = (with_jobs (insert (J.id job) job') db, Ok job')) /\
     (~ (J.status job = FAILED /\ J.retryCount job < J.maxRetries job) ->
        exists e, retry id db = (db, Throw e) /\ isInvalidStateError e = true)) /\
  (forall s, reachable s ->
     forall id job, ingestionJobRepository (store s) !! id = Some job ->
       J.retryCount job <= J.maxRetries job).
Proof.
  split.
  - intros db id job Hfound. split.
    + intros [Hs Hlt]. eexists. apply retry_permitted; assumption.
    + intros Hnot. eexists. split; [apply retry_refused with (job := job); assumption|].
      reflexivity.
  - intros s (documents & users & evs & Hrun) id job Hfound.
    pose proof (run_bounded evs _ _ (initial_bounded documents users) Hrun) as [Hdb _].
    exact (Hdb _ _ Hfound).
Qed.

Lemma retry_guard_and_bound_witness :
  exists s job,
    run sample_initial sample_failed_then_retried = Some s /\
    ingestionJobRepository (store s) !! "job-1" = Some job /\
    J.status job = PENDING /\ J.retryCount job = 1 /\
    J.retryCount job <= J.maxRetries job.
Proof.
  destruct (run sample_initial sample_failed_then_retried) as [s|] eqn:Erun;
    [|vm_compute in Erun; discriminate Erun].
  destruct (ingestionJobRepository (store s) !! "job-1") as [job|] eqn:Ejob.
  2:{ vm_compute in Erun. inversion Erun; subst s. vm_compute in Ejob. discriminate Ejob. }
  exists s, job. split; [reflexivity|]. split; [exact Ejob|].
  assert (Hfields : J.status job = PENDING /\ J.retryCount job = 1).
  { vm_compute in Erun. inversion Erun; subst s. vm_compute in Ejob.
    inversion Ejob; subst job. split; reflexivity. }
  destruct Hfields as [Hs Hrc]. split; [exact Hs|]. split; [exact Hrc|].
  refine (proj2 retry_guard_and_bound s _ "job-1" job Ejob).
  exists {[ "doc-1" := sample_document UPLOADED ]}, {[ "user-1" ]},
    sample_failed_then_retried.
  exact Erun.
Defined.

(** ** create *)

Lemma documents_findById_found (id : string) (doc : Document) (db : Db) :
  documentRepository db !! id = Some doc ->
  DocumentsService.findById id db = (db, Ok doc).
Proof.
  intros H. unfold DocumentsService.findById, bind, gets. rewrite H. reflexivity.
Qed.

Lemma documents_findById_missing (id : string) (db : Db) :
  documentRepository db !! id = None ->
  DocumentsService.findById id db = (db, Throw (NotFoundException "Document not found")).
Proof.
  intros H. unfold DocumentsService.findById, bind, gets. rewrite H. reflexivity.
Qed.

(** The loop that verifies the documents of a batch: it goes through when
    every id resolves, and throws [NotFoundException] at the first id that
    does not. *)
Lemma verify_all_resolve (ids : list string) (db : Db) :
  (forall d, d ∈ ids -> is_Some (documentRepository db !! d)) ->
  for_each ids (fun documentId => DocumentsService.findById documentId ;;; ret tt) db
  = (db, Ok tt).
Proof.
  induction ids as [|d rest IH]; intros Hall; cbn; [reflexivity|].
  destruct (Hall d) as [doc Hdoc]; [left|].
  unfold bind at 1. unfold bind at 1.
  rewrite (documents_findById_found _ _ _ Hdoc). cbn.
  apply IH. intros d' Hd'. apply Hall. right. exact Hd'.
Qed.

Lemma verify_some_missing (ids : list string) (db : Db) :
  (exists d, d ∈ ids /\ documentRepository db !! d = None) ->
  for_each ids (fun documentId => DocumentsService.findById documentId ;;; ret tt) db
  = (db, Throw (NotFoundException "Document not found")).
Proof.
  induction ids as [|d rest IH]; intros (d0 & Hin & Hmiss).
  - apply elem_of_nil in Hin. contradiction.
  - cbn. unfold bind at 1. unfold bind at 1.
    destruct (documentRepository db !! d) as [doc|] eqn:Hd.
    + rewrite (documents_findById_found _ _ _ Hd). cbn.
      apply IH. exists d0. split; [|exact Hmiss].
      apply elem_of_cons in Hin as [->|Hin]; [congruence | exact Hin].
    + rewrite (documents_findById_missing _ _ Hd). reflexivity.
Qed.

(** [create] persists nothing when it throws. *)
Lemma create_throw_unchanged (dto : CreateIngestionJobDto) (userId newId : string)
      (db db' : Db) (e : Exception) :
  create dto userId newId db = (db', Throw e) -> db' = db.
Proof.
  unfold create, bind. pose proof (validateIngestionJobDto_state dto db) as Hv.
  destruct (validateIngestionJobDto dto db) as [db0 [u|e0]]; cbn in Hv; subst db0.
  - unfold gets. destruct (negb (bool_decide (userId ∈ userRepository db))).
    + intros [= <- _]. reflexivity.
    + match goal with |- context [insertJob ?j db] =>
        destruct (insertJob_cases j db) as [(d & _ & _ & ->) | [_ ->]] end.
      * intros [= <- _]. reflexivity.
      * discriminate.
  - intros [= <- _]. reflexivity.
Qed.

Lemma validate_batch (dto : CreateIngestionJobDto) (db : Db) :
  Dto.ingestionType dto = BATCH_DOCUMENTS ->
  validateIngestionJobDto dto db
  = match Dto.documentIds dto with
    | None | Some [] =>
        (db, Throw (BadRequestException "Document IDs are required for batch ingestion"))
    | Some ids =>
        for_each ids (fun documentId => DocumentsService.findById documentId ;;; ret tt) db
    end.
Proof.
  intros Ht. unfold validateIngestionJobDto. rewrite Ht. cbn.
  destruct (Dto.documentIds dto) as [[|d ids]|]; reflexivity.
Qed.

(** C7: for a BATCH_DOCUMENTS request, [create] throws a
    [BadRequestException] (ValidationError) when [documentIds] is missing
    or empty, and a [NotFoundException] (NotFoundError) when some id of
    [documentIds] resolves to no document; whenever [create] throws, the
    store is exactly as before (no job row), and a job is created only
    when [documentIds] is non-empty and every id resolves. *)
Theorem create_batch_all_or_nothing
        (dto : CreateIngestionJobDto) (userId newId : string) (db : Db) :
  Dto.ingestionType dto = BATCH_DOCUMENTS ->
  (Dto.documentIds dto = None \/ Dto.documentIds dto = Some [] ->
     exists e, create dto userId newId db = (db, Throw e) /\ isValidationError e = true) /\
  (forall ids, Dto.documentIds dto = Some ids ->
     (exists d, d ∈ ids /\ documentRepository db !! d = None) ->
     exists e, create dto userId newId db = (db, Throw e) /\ isNotFoundError e = true) /\
  (forall db' e, create dto userId newId db = (db', Throw e) -> db' = db) /\
  (forall db' job, create dto userId newId db = (db', Ok job) ->
     exists ids, Dto.documentIds dto = Some ids /\ ids <> [] /\
                 forall d, d ∈ ids -> is_Some (documentRepository db !! d)).
Proof.
  intros Ht. repeat split.
  - intros Hids.
    exists (BadRequestException "Document IDs are required for batch ingestion").
    split; [|reflexivity].
    unfold create, bind. rewrite (validate_batch _ _ Ht).
    destruct Hids as [-> | ->]; reflexivity.
  - intros ids Hids Hmiss. exists (NotFoundException "Document not found").
    split; [|reflexivity].
    unfold create, bind. rewrite (validate_batch _ _ Ht), Hids.
    destruct ids as [|d0 rest].
    + destruct Hmiss as (d & Hin & _). apply elem_of_nil in Hin. contradiction.
    + rewrite (verify_some_missing _ _ Hmiss). reflexivity.
  - intros db' e. apply create_throw_unchanged.
  - intros db' job Hok. unfold create, bind in Hok.
    rewrite (validate_batch _ _ Ht) in Hok.
    destruct (Dto.documentIds dto) as [[|d0 rest]|]; try discriminate Hok.
    exists (d0 :: rest). split; [reflexivity|]. split; [discriminate|].
    intros d Hin. destruct (documentRepository db !! d) as [doc|] eqn:Hd; [eauto|].
    rewrite verify_some_missing in Hok by eauto. discriminate Hok.
Qed.

Lemma create_batch_all_or_nothing_witness :
  Dto.ingestionType sample_batch_dto = BATCH_DOCUMENTS /\
  documentRepository (sample_db PENDING 0 0) !! "doc-404" = None /\
  exists e,
    create sample_batch_dto "user-1" "job-2" (sample_db PENDING 0 0)
    = (sample_db PENDING 0 0, Throw e) /\ isNotFoundError e = true.
Proof.
  split; [reflexivity|]. split; [reflexivity|].
  apply (proj1 (proj2 (create_batch_all_or_nothing
                         sample_batch_dto "user-1" "job-2" (sample_db PENDING 0 0)
                         eq_refl))
           ["doc-1"; "doc-404"] eq_refl).
  exists "doc-404". split; [right; left | reflexivity].
Defined.

Lemma validate_reprocess (dto : CreateIngestionJobDto) (db : Db) :
  Dto.ingestionType dto = REPROCESS -> validateIngestionJobDto dto db = (db, Ok tt).
Proof. intros Ht. unfold validateIngestionJobDto. rewrite Ht. reflexivity. Qed.

Lemma create_reprocess_known (dto : CreateIngestionJobDto) (userId newId : string) (db : Db) :
  Dto.ingestionType dto = REPROCESS ->
  userId ∈ userRepository db ->
  create dto userId newId db
  = insertJob (J.mk newId (Dto.name dto) (Dto.description dto) PENDING
                 (Dto.ingestionType dto) (Dto.configuration dto)
                 None None None None None 0 0 3 (Some userId) (Dto.documentId dto)) db.
Proof.
  intros Ht Hin. unfold create, bind. rewrite (validate_reprocess _ _ Ht).
  unfold gets. rewrite bool_decide_eq_true_2 by exact Hin. reflexivity.
Qed.

Lemma create_reprocess_unknown (dto : CreateIngestionJobDto) (userId newId : string) (db : Db) :
  Dto.ingestionType dto = REPROCESS ->
  userId ∉ userRepository db ->
  create dto userId newId db = (db, Throw (NotFoundException "User not found")).
Proof.
  intros Ht Hout. unfold create, bind. rewrite (validate_reprocess _ _ Ht).
  unfold gets. rewrite bool_decide_eq_false_2 by exact Hout. reflexivity.
Qed.

(** A REPROCESS request of a known caller whose [documentId] names no
    document: the INSERT is refused. *)
Lemma create_reprocess_dangling
      (dto : CreateIngestionJobDto) (userId newId d : string) (db : Db) :
  Dto.ingestionType dto = REPROCESS ->
  userId ∈ userRepository db ->
  Dto.documentId dto = Some d -> documentRepository db !! d = None ->
  create dto userId newId db
  = (db, Throw (QueryFailedError "SQLITE_CONSTRAINT: FOREIGN KEY constraint failed")).
Proof.
  intros Ht Hin Hd Hmiss. rewrite (create_reprocess_known _ _ _ _ Ht Hin).
  match goal with |- insertJob ?j db = _ =>
    destruct (insertJob_cases j db) as [(d' & _ & _ & ->) | [Href _]] end;
    [reflexivity|].
  destruct (Href d Hd) as [doc Hdoc]. congruence.
Qed.

(** C9, as the code has it: for a REPROCESS request [create] validates no
    document reference itself: [validateIngestionJobDto] accepts the DTO
    whatever its [documentId] and whatever documents exist, [create] never
    throws a [BadRequestException], and its only [NotFoundException] is the
    one for an unknown caller. For a known caller it persists a PENDING
    job carrying the DTO's [documentId] when that is absent or names an
    existing document; when it names no document the store refuses the
    row on the foreign key of [documentId]: [create] throws a
    [QueryFailedError] and persists nothing. *)
Theorem create_reprocess_unvalidated
        (dto : CreateIngestionJobDto) (userId newId : string) (db : Db) :
  Dto.ingestionType dto = REPROCESS ->
  validateIngestionJobDto dto db = (db, Ok tt) /\
  (userId ∈ userRepository db ->
   (forall d, Dto.documentId dto = Some d -> is_Some (documentRepository db !! d)) ->
     exists job,
       create dto userId newId db = (with_jobs (insert newId job) db, Ok job) /\
       J.id job = newId /\ J.status job = PENDING /\ J.retryCount job = 0 /\
       J.ingestionType job = REPROCESS /\ J.documentId job = Dto.documentId dto /\
       J.triggeredById job = Some userId) /\
  (userId ∈ userRepository db ->
   forall d, Dto.documentId dto = Some d -> documentRepository db !! d = None ->
     exists detail,
       create dto userId newId db = (db, Throw (QueryFailedError detail))) /\
  (userId ∉ userRepository db ->
     create dto userId newId db = (db, Throw (NotFoundException "User not found"))) /\
  (forall db' e, create dto userId newId db = (db', Throw e) ->
     db' = db /\ isValidationError e = false /\
     (isNotFoundError e = true ->
        e = NotFoundException "User not found" /\ userId ∉ userRepository db)).
Proof.
  intros Ht.
  split; [apply validate_reprocess; exact Ht|].
  split; [|split; [|split; [apply create_reprocess_unknown; exact Ht|]]].
  - intros Hin Href. rewrite (create_reprocess_known _ _ _ _ Ht Hin).
    match goal with |- context [insertJob ?j db] =>
      destruct (insertJob_cases j db) as [(d & Hd & Hmiss & _) | [_ ->]] end.
    + cbn in Hd. destruct (Href d Hd) as [doc Hdoc]. congruence.
    + eexists. split; [reflexivity|]. repeat split; try reflexivity. exact Ht.
  - intros Hin d Hd Hmiss. eexists.
    apply (create_reprocess_dangling dto userId newId d db Ht Hin Hd Hmiss).
  - intros db' e He. destruct (decide (userId ∈ userRepository db)) as [Hin|Hout].
    + rewrite (create_reprocess_known _ _ _ _ Ht Hin) in He. revert He.
      match goal with |- context [insertJob ?j db] =>
        destruct (insertJob_cases j db) as [(d & _ & _ & ->) | [_ ->]] end;
        intros He; inversion He; subst.
      split; [reflexivity|]. split; [reflexivity|]. discriminate.
    + rewrite (create_reprocess_unknown _ _ _ _ Ht Hout) in He. inversion He; subst.
      split; [reflexivity|]. split; [reflexivity|]. intros _.
      split; [reflexivity | assumption].
Qed.

Lemma create_reprocess_unvalidated_witness :
  Dto.ingestionType sample_reprocess_stored_dto = REPROCESS /\
  is_Some (documentRepository (sample_db PENDING 0 0) !! "doc-1") /\
  exists job,
    create sample_reprocess_stored_dto "user-1" "job-2" (sample_db PENDING 0 0)
    = (with_jobs (insert "job-2" job) (sample_db PENDING 0 0), Ok job) /\
    J.status job = PENDING /\ J.documentId job = Some "doc-1".
Proof.
  assert (Hdoc : is_Some (documentRepository (sample_db PENDING 0 0) !! "doc-1"))
    by (vm_compute; eauto).
  split; [reflexivity|]. split; [exact Hdoc|].
  destruct (proj1 (proj2 (create_reprocess_unvalidated
                            sample_reprocess_stored_dto "user-1" "job-2"
                            (sample_db PENDING 0 0) eq_refl)))
    as (job & Hc & _ & Hs & _ & _ & Hd & _).
  - vm_compute. reflexivity.
  - intros d [= <-]. exact Hdoc.
  - exists job. split; [exact Hc|]. split; [exact Hs | exact Hd].
Defined.

(** C9, as it is worded, fails: a REPROCESS request of a known caller
    whose [documentId] names no existing document persists no job. The
    store refuses the row and [create] throws. *)
Lemma create_reprocess_dangling_not_persisted :
  Dto.ingestionType sample_reprocess_dto = REPROCESS /\
  Dto.documentId sample_reprocess_dto = Some "doc-404" /\
  documentRepository (sample_db PENDING 0 0) !! "doc-404" = None /\
  create sample_reprocess_dto "user-1" "job-2" (sample_db PENDING 0 0)
  = (sample_db PENDING 0 0,
     Throw (QueryFailedError "SQLITE_CONSTRAINT: FOREIGN KEY constraint failed")) /\
  ~ (exists db' job,
       create sample_reprocess_dto "user-1" "job-2" (sample_db PENDING 0 0)
       = (db', Ok job)).
Proof.
  assert (E : create sample_reprocess_dto "user-1" "job-2" (sample_db PENDING 0 0)
              = (sample_db PENDING 0 0,
                 Throw (QueryFailedError
                          "SQLITE_CONSTRAINT: FOREIGN KEY constraint failed"))).
  { apply (create_reprocess_dangling sample_reprocess_dto "user-1" "job-2" "doc-404");
      [reflexivity | vm_compute; reflexivity | reflexivity | reflexivity]. }
  split; [reflexivity|]. split; [reflexivity|]. split; [reflexivity|].
  split; [exact E|].
  intros (db' & job & H). rewrite E in H. discriminate H.
Qed.

Lemma IngestionType_of_value_unrecognized (v : string) :
  v <> "single_document" -> v <> "batch_documents" -> v <> "reprocess" ->
  IngestionType_of_value v = None.
Proof.
  intros H1 H2 H3. unfold IngestionType_of_value.
  apply String.eqb_neq in H1, H2, H3. rewrite H1, H2, H3. reflexivity.
Qed.

(** C4: a create request whose [ingestionType] is missing, or is not one
    of the values of the enum (single_document, batch_documents,
    reprocess), is rejected with a [BadRequestException]
    (ValidationError) before the service is entered: the store is
    exactly as before, so no job row is created. *)
Theorem create_rejects_unrecognized_type
        (isUUID : string -> bool) (body : CreateJobBody) (userId newId : string) (db : Db) :
  (body_ingestionType body = None \/
   exists v, body_ingestionType body = Some v /\
             v <> IngestionType_value SINGLE_DOCUMENT /\
             v <> IngestionType_value BATCH_DOCUMENTS /\
             v <> IngestionType_value REPROCESS) ->
  exists e,
    IngestionController.create isUUID body userId newId db = (db, Throw e) /\
    isValidationError e = true.
Proof.
  intros [Hmissing | (v & Hv & H1 & H2 & H3)];
    unfold IngestionController.create, IngestionController.validateBody.
  - rewrite Hmissing. eexists. split; reflexivity.
  - rewrite Hv, (IngestionType_of_value_unrecognized v H1 H2 H3).
    eexists. split; reflexivity.
Qed.

Lemma create_rejects_unrecognized_type_witness :
  exists e,
    IngestionController.create (fun _ => true) sample_invalid_body "user-1" "job-2"
      (sample_db PENDING 0 0)
    = (sample_db PENDING 0 0, Throw e) /\
    isValidationError e = true.
Proof.
  apply (create_rejects_unrecognized_type (fun _ => true) sample_invalid_body).
  right. exists "invalid_type". split; [reflexivity|].
  repeat split; discriminate.
Defined.

(** ** Dispatch *)

Lemma updateStatus_found (id : string) (status : DocumentStatus) (now : Z)
      (doc : Document) (db : Db) :
  documentRepository db !! id = Some doc ->
  DocumentsService.updateStatus id status now db
  = (with_documents (insert (D.id doc) (DocumentsService.assignStatus status now doc)) db,
     Ok (DocumentsService.assignStatus status now doc)).
Proof.
  intros H. unfold DocumentsService.updateStatus, bind.
  rewrite (documents_findById_found _ _ _ H). reflexivity.
Qed.

Lemma updateStatus_missing (id : string) (status : DocumentStatus) (now : Z) (db : Db) :
  documentRepository db !! id = None ->
  DocumentsService.updateStatus id status now db
  = (db, Throw (NotFoundException "Document not found")).
Proof.
  intros H. unfold DocumentsService.updateStatus, bind.
  rewrite (documents_findById_missing _ _ H). reflexivity.
Qed.

Lemma mirror_no_document (status : DocumentStatus) (now : Z) (db : Db) (job : IngestionJob) :
  truthy (J.documentId job) = false ->
  mirror status now (db, job) = ((db, job), Ok tt).
Proof. intros H. unfold mirror, bind, this_job, gets. cbn. rewrite H. reflexivity. Qed.

Lemma mirror_found (status : DocumentStatus) (now : Z) (db : Db) (job : IngestionJob)
      (doc : Document) :
  truthy (J.documentId job) = true ->
  documentRepository db !! default "" (J.documentId job) = Some doc ->
  mirror status now (db, job)
  = ((with_documents (insert (D.id doc) (DocumentsService.assignStatus status now doc)) db,
      job), Ok tt).
Proof.
  intros Ht Hdoc. unfold mirror, bind, this_job, gets, liftDb. cbn. rewrite Ht.
  rewrite (updateStatus_found _ _ _ _ _ Hdoc). reflexivity.
Qed.

Lemma mirror_missing (status : DocumentStatus) (now : Z) (db : Db) (job : IngestionJob) :
  truthy (J.documentId job) = true ->
  documentRepository db !! default "" (J.documentId job) = None ->
  mirror status now (db, job)
  = ((db, job), Throw (NotFoundException "Document not found")).
Proof.
  intros Ht Hdoc. unfold mirror, bind, this_job, gets, liftDb. cbn. rewrite Ht.
  rewrite (updateStatus_missing _ _ _ _ Hdoc). reflexivity.
Qed.

(** [triggerIngestion] is its two halves run back to back. *)
Lemma triggerIngestion_split (jobId : string) (backend : Backend) (clock : Clock) (db : Db) :
  triggerIngestion jobId backend clock db
  = match startDispatch jobId clock db with
    | (db1, inl r) => (db1, r)
    | (db1, inr (job1, payload)) => completeDispatch job1 (backend payload) clock db1
    end.
Proof.
  unfold triggerIngestion, startDispatch, completeDispatch, bind at 1.
  destruct (findById jobId db) as [db0 [job|e]]; [|reflexivity].
  unfold withLocal, try_finally, try_catch, bind at 1.
  destruct (beforePost clock (db0, job)) as [[db1 job1] [payload|e]]; cbn [fst snd].
  - unfold bind, post. reflexivity.
  - destruct (onError clock e (db1, job1)) as [s2 r2].
    destruct (saveLocal s2) as [s3 [u|e3]]; reflexivity.
Qed.

Lemma beforePost_eq (clock : Clock) (db : Db) (job : IngestionJob) :
  beforePost clock (db, job)
  = match mirror DOC_PROCESSING (at_processed clock)
            (with_jobs (insert (J.id job) (started clock job)) db, started clock job) with
    | (s, Ok _) => liftDb (prepareIngestionPayload (snd s)) s
    | (s, Throw e) => (s, Throw e)
    end.
Proof.
  unfold beforePost, started, bind, assign, modify, saveLocal, this_job, gets,
    liftDb, saveJob, ret.
  cbn -[mirror prepareIngestionPayload].
  match goal with |- context [mirror ?a ?b ?c] => destruct (mirror a b c) as [s [u|e]] end;
    reflexivity.
Qed.

Lemma afterPost_eq (clock : Clock) (data : string) (db : Db) (job : IngestionJob) :
  afterPost clock data (db, job)
  = mirror PROCESSED (at_processed clock) (db, completed clock data job).
Proof. reflexivity. Qed.

Lemma onError_eq (clock : Clock) (e : Exception) (db : Db) (job : IngestionJob) :
  onError clock e (db, job)
  = mirror ERROR (at_processed clock) (db, failed clock e job).
Proof. reflexivity. Qed.

Lemma saveLocal_eq (db : Db) (job : IngestionJob) :
  saveLocal (db, job) = ((with_jobs (insert (J.id job) job) db, job), Ok tt).
Proof. reflexivity. Qed.

(** What is known when a dispatch has reached the backend call. *)
Lemma startDispatch_awaiting_inv (db db1 : Db) (jobId : string) (clock : Clock)
      (job1 : IngestionJob) (payload : Payload) :
  startDispatch jobId clock db = (db1, inr (job1, payload)) ->
  exists job,
    ingestionJobRepository db !! jobId = Some job /\
    job1 = started clock job /\
    ingestionJobRepository db1 = <[J.id job := job1]> (ingestionJobRepository db) /\
    (truthy (J.documentId job) = true ->
       exists doc,
         documentRepository db !! default "" (J.documentId job) = Some doc /\
         documentRepository db1
         = <[D.id doc := DocumentsService.assignStatus DOC_PROCESSING (at_processed clock) doc]>
             (documentRepository db)) /\
    (truthy (J.documentId job) = false -> documentRepository db1 = documentRepository db).
Proof.
  unfold startDispatch. intros H.
  destruct (findById jobId db) as [db0 [job|e]] eqn:Efind; [|discriminate H].
  apply findById_inv in Efind as [-> Hfound].
  rewrite beforePost_eq in H. exists job. split; [exact Hfound|].
  assert (Hprep : forall s : Local,
            fst (fst (liftDb (prepareIngestionPayload (snd s)) s)) = fst s /\
            snd (fst (liftDb (prepareIngestionPayload (snd s)) s)) = snd s).
  { intros [d j]. unfold liftDb. cbn [fst snd].
    pose proof (prepareIngestionPayload_state j d) as Hp.
    destruct (prepareIngestionPayload j d) as [d' r]. cbn in *. subst. split; reflexivity. }
  destruct (truthy (J.documentId job)) eqn:Ht.
  - destruct (documentRepository db !! default "" (J.documentId job)) as [doc|] eqn:Hdoc.
    + rewrite (mirror_found _ _ _ _ doc) in H by (cbn; assumption).
      match type of H with context [liftDb ?m ?s] =>
        destruct (Hprep s) as [H1 H2]; destruct (liftDb m s) as [s1 [p|e]] end;
        [|destruct (try_finally _ _ _); discriminate H].
      cbn [fst snd] in *. inversion H; subst db1 job1 p; clear H.
      rewrite H1, H2. cbn. split; [reflexivity|]. split; [reflexivity|].
      split; [|discriminate]. intros _. exists doc. split; reflexivity.
    + rewrite mirror_missing in H by (cbn; assumption).
      destruct (try_finally _ _ _); discriminate H.
  - rewrite mirror_no_document in H by (cbn; assumption).
    match type of H with context [liftDb ?m ?s] =>
      destruct (Hprep s) as [H1 H2]; destruct (liftDb m s) as [s1 [p|e]] end;
      [|destruct (try_finally _ _ _); discriminate H].
    cbn [fst snd] in *. inversion H; subst db1 job1 p; clear H.
    rewrite H1, H2. cbn. split; [reflexivity|]. split; [reflexivity|].
    split; [discriminate|]. intros _. reflexivity.
Qed.

(** The completion of a dispatch whose backend call succeeded, when the
    referenced document (if any) is still there. *)
Lemma completeDispatch_success (db1 : Db) (job1 : IngestionJob) (data : string) (clock : Clock) :
  (truthy (J.documentId job1) = true ->
     is_Some (documentRepository db1 !! default "" (J.documentId job1))) ->
  exists db2,
    completeDispatch job1 (Ok data) clock db1
    = (with_jobs (insert (J.id job1) (completed clock data job1)) db2, Ok tt) /\
    ingestionJobRepository db2 = ingestionJobRepository db1 /\
    (truthy (J.documentId job1) = false -> db2 = db1) /\
    (forall doc, truthy (J.documentId job1) = true ->
       documentRepository db1 !! default "" (J.documentId job1) = Some doc ->
       db2 = with_documents
               (insert (D.id doc)
                  (DocumentsService.assignStatus PROCESSED (at_processed clock) doc)) db1).
Proof.
  intros Hdoc. unfold completeDispatch, withLocal, try_finally, try_catch, bind.
  rewrite afterPost_eq.
  destruct (truthy (J.documentId job1)) eqn:Ht.
  - destruct (Hdoc eq_refl) as [doc Hd].
    rewrite (mirror_found _ _ _ _ doc) by (cbn; assumption).
    rewrite saveLocal_eq. cbn [fst snd].
    eexists. split; [reflexivity|]. split; [reflexivity|]. split; [discriminate|].
    intros doc' _ Hd'. rewrite Hd in Hd'. inversion Hd'. reflexivity.
  - rewrite mirror_no_document by (cbn; assumption).
    rewrite saveLocal_eq. cbn [fst snd].
    exists db1. split; [reflexivity|]. split; [reflexivity|]. split; [reflexivity|].
    intros doc Hcontra. discriminate Hcontra.
Qed.

(** C5: when the dispatch of a job reaches the call of the processing
    backend and that call succeeds with [data], [triggerIngestion] ends
    normally and the job is persisted with [status = COMPLETED],
    [completedAt] set (to the instant of the success), [progress = 100]
    and [result] the backend response; the document the job references is
    then stored with status PROCESSED. *)
Theorem dispatch_success
        (db db1 : Db) (jobId : string) (backend : Backend) (clock : Clock)
        (job1 : IngestionJob) (payload : Payload) (data : string) :
  primaryKeys db ->
  startDispatch jobId clock db = (db1, inr (job1, payload)) ->
  backend payload = Ok data ->
  exists db' job',
    triggerIngestion jobId backend clock db = (db', Ok tt) /\
    row db' jobId job' /\
    J.status job' = COMPLETED /\
    J.completedAt job' = Some (at_success clock) /\
    J.progress job' = 100 /\
    J.result job' = Some data /\
    (truthy (J.documentId job') = true ->
       exists doc,
         documentRepository db' !! default "" (J.documentId job') = Some doc /\
         D.status doc = PROCESSED).
Proof.
  intros [Hjobs Hdocs] Hstart Hback.
  rewrite triggerIngestion_split, Hstart, Hback.
  destruct (startDispatch_awaiting_inv _ _ _ _ _ _ Hstart)
    as (job & Hfound & -> & Hjobs1 & Hdoc_yes & Hdoc_no).
  pose proof (Hjobs _ _ Hfound) as Hid.
  destruct (completeDispatch_success db1 (started clock job) data clock)
    as (db2 & Hdone & Hjobs2 & Hno & Hyes).
  { intros Ht. destruct (Hdoc_yes Ht) as (doc & Hd & Hd1).
    rewrite Hd1. rewrite (Hdocs _ _ Hd). cbn. rewrite lookup_insert_eq. eauto. }
  change (J.id (started clock job)) with (J.id job) in Hdone. rewrite Hid in Hdone.
  exists (with_jobs (insert jobId (completed clock data (started clock job))) db2),
         (completed clock data (started clock job)).
  split; [exact Hdone|].
  split; [apply row_insert; exact Hid|].
  repeat (split; [reflexivity|]).
  intros Ht. cbn in Ht. destruct (Hdoc_yes Ht) as (doc & Hd & Hd1).
  pose proof (Hdocs _ _ Hd) as Hdid.
  assert (Hd1' : documentRepository db1 !! default "" (J.documentId (started clock job))
                 = Some (DocumentsService.assignStatus DOC_PROCESSING (at_processed clock) doc)).
  { rewrite Hd1, Hdid. cbn. apply lookup_insert_eq. }
  rewrite (Hyes _ Ht Hd1').
  exists (DocumentsService.assignStatus PROCESSED (at_processed clock)
            (DocumentsService.assignStatus DOC_PROCESSING (at_processed clock) doc)).
  split; [|reflexivity]. cbn. rewrite Hdid. apply lookup_insert_eq.
Qed.

Lemma sample_db_primaryKeys (status : IngestionStatus) (progress retryCount : Z) :
  primaryKeys (sample_db status progress retryCount).
Proof.
  split; intros k x H; cbn in H; apply lookup_singleton_Some in H as [<- <-]; reflexivity.
Qed.

Lemma dispatch_success_witness :
  exists db' job',
    triggerIngestion "job-1" (fun _ => Ok "accepted") sample_clock (sample_db PENDING 0 0)
    = (db', Ok tt) /\
    row db' "job-1" job' /\
    J.status job' = COMPLETED /\ J.progress job' = 100 /\ J.result job' = Some "accepted" /\
    exists doc, documentRepository db' !! "doc-1" = Some doc /\ D.status doc = PROCESSED.
Proof.
  destruct (startDispatch "job-1" sample_clock (sample_db PENDING 0 0))
    as [db1 [r|[job1 payload]]] eqn:Estart; [vm_compute in Estart; discriminate Estart|].
  destruct (dispatch_success (sample_db PENDING 0 0) db1 "job-1" (fun _ => Ok "accepted")
              sample_clock job1 payload "accepted"
              (sample_db_primaryKeys PENDING 0 0) Estart eq_refl)
    as (db' & job' & Hrun & Hrow & Hs & _ & Hp & Hr & Hdoc).
  exists db', job'. repeat (split; [assumption|]).
  assert (Hd : J.documentId job' = Some "doc-1").
  { vm_compute in Hrun. inversion Hrun; subst db'. destruct Hrow as [Hrow _].
    vm_compute in Hrow. inversion Hrow. reflexivity. }
  rewrite Hd in Hdoc. apply Hdoc. reflexivity.
Defined.

(** ** The race between cancel and the completion of a dispatch *)

(** Whatever the store holds, the completion of a dispatch ends by writing
    its in-memory entity, whose status it has set to COMPLETED or FAILED. *)
Lemma completeDispatch_writes (db : Db) (job : IngestionJob) (answer : Result string)
      (clock : Clock) :
  exists job',
    ingestionJobRepository (fst (completeDispatch job answer clock db)) !! J.id job
    = Some job' /\
    (J.status job' = COMPLETED \/ J.status job' = FAILED).
Proof.
  unfold completeDispatch, withLocal, try_finally, try_catch, bind.
  assert (Hmirror : forall status now d j,
            exists d', fst (mirror status now (d, j)) = (d', j)).
  { intros status now d j. destruct (truthy (J.documentId j)) eqn:Ht.
    - destruct (documentRepository d !! default "" (J.documentId j)) as [doc|] eqn:Hd.
      + rewrite (mirror_found _ _ _ _ doc) by assumption. eauto.
      + rewrite mirror_missing by assumption. eauto.
    - rewrite mirror_no_document by assumption. eauto. }
  destruct answer as [data|e].
  - rewrite afterPost_eq.
    destruct (Hmirror PROCESSED (at_processed clock) db (completed clock data job))
      as [d1 H1].
    destruct (mirror PROCESSED (at_processed clock) (db, completed clock data job))
      as [s1 [u|e]]; cbn [fst] in H1; subst s1.
    + rewrite saveLocal_eq. cbn. rewrite lookup_insert_eq. eauto.
    + rewrite onError_eq.
      destruct (Hmirror ERROR (at_processed clock) d1 (failed clock e (completed clock data job)))
        as [d2 H2].
      destruct (mirror ERROR (at_processed clock) (d1, failed clock e (completed clock data job)))
        as [s2 r2]; cbn [fst] in H2; subst s2.
      rewrite saveLocal_eq. cbn. rewrite lookup_insert_eq. eauto.
  - rewrite onError_eq.
    destruct (Hmirror ERROR (at_processed clock) db (failed clock e job)) as [d2 H2].
    destruct (mirror ERROR (at_processed clock) (db, failed clock e job))
      as [s2 r2]; cbn [fst] in H2; subst s2.
    rewrite saveLocal_eq. cbn. rewrite lookup_insert_eq. eauto.
Qed.

(** C8, as the code has it: only [cancel] looks at the stored status
    before it writes. When [cancel] succeeds while a dispatch of the same
    job awaits the backend, the row is CANCELLED, and the completion of
    that dispatch then writes its in-memory entity without reading the
    row: the job ends COMPLETED or FAILED, never CANCELLED. A [cancel] that
    comes after the completion is refused with a [BadRequestException]
    and changes nothing. So the last completion write wins, not the first
    terminal state. *)
Theorem completion_overwrites_cancelled
        (db dbc : Db) (job jobc : IngestionJob) (answer : Result string)
        (clock : Clock) (now later : Z) :
  primaryKeys db ->
  cancel (J.id job) now db = (dbc, Ok jobc) ->
  ingestionJobRepository dbc !! J.id job = Some jobc /\ J.status jobc = CANCELLED /\
  exists job',
    ingestionJobRepository (fst (completeDispatch job answer clock dbc)) !! J.id job
    = Some job' /\
    (J.status job' = COMPLETED \/ J.status job' = FAILED) /\
    exists e,
      cancel (J.id job) later (fst (completeDispatch job answer clock dbc))
      = (fst (completeDispatch job answer clock dbc), Throw e) /\
      isInvalidStateError e = true.
Proof.
  intros [Hjobs _] Hcancel.
  destruct (cancel_ok_inv _ _ _ _ _ Hcancel) as (job0 & Hfound & Hjobc & Hdbc).
  rewrite (Hjobs _ _ Hfound) in Hdbc.
  split; [rewrite Hdbc; apply lookup_insert_eq|]. split; [rewrite Hjobc; reflexivity|].
  destruct (completeDispatch_writes dbc job answer clock) as (job' & Hrow & Hst).
  exists job'. split; [exact Hrow|]. split; [exact Hst|].
  unfold cancel, bind. rewrite (findById_found _ _ _ Hrow).
  unfold isCompleted, isFailed.
  exists (BadRequestException "Cannot cancel completed or failed job").
  destruct Hst as [-> | ->]; split; reflexivity.
Qed.

Lemma completion_overwrites_cancelled_witness :
  exists job',
    ingestionJobRepository
      (fst (completeDispatch (sample_job PROCESSING 0 0) (Ok "accepted") sample_clock
              (fst (cancel "job-1" 3000 (sample_db PROCESSING 0 0))))) !! "job-1"
    = Some job' /\
    (J.status job' = COMPLETED \/ J.status job' = FAILED).
Proof.
  destruct (completion_overwrites_cancelled
              (sample_db PROCESSING 0 0)
              (fst (cancel "job-1" 3000 (sample_db PROCESSING 0 0)))
              (sample_job PROCESSING 0 0)
              (set_completedAt (Some 3000) (set_status CANCELLED (sample_job PROCESSING 0 0)))
              (Ok "accepted") sample_clock 3000 9000
              (sample_db_primaryKeys PROCESSING 0 0) eq_refl)
    as (_ & _ & job' & Hrow & Hst & _).
  exists job'. split; [exact Hrow | exact Hst].
Defined.

(** C8, as the spec words it, fails: a job is created and its dispatch
    reaches the backend call; [cancel] then succeeds and the row is
    CANCELLED; the backend answers and the completion write turns the row
    into COMPLETED. The write after the terminal state was no no-op. *)
Lemma completion_write_after_cancel :
  exists s3 s4 cancelled overwritten,
    run sample_initial sample_cancel_during_dispatch = Some s3 /\
    ingestionJobRepository (store s3) !! "job-1" = Some cancelled /\
    J.status cancelled = CANCELLED /\
    step s3 (BackendAnswers 0 (Ok "accepted") sample_clock) = Some s4 /\
    ingestionJobRepository (store s4) !! "job-1" = Some overwritten /\
    J.status overwritten = COMPLETED /\
    ingestionJobRepository (store s4) <> ingestionJobRepository (store s3).
Proof.
  destruct (run sample_initial sample_cancel_during_dispatch) as [s3|] eqn:E3;
    [|vm_compute in E3; discriminate E3].
  destruct (step s3 (BackendAnswers 0 (Ok "accepted") sample_clock)) as [s4|] eqn:E4.
  2:{ vm_compute in E3. inversion E3; subst s3. vm_compute in E4. discriminate E4. }
  vm_compute in E3. inversion E3; subst s3; clear E3.
  vm_compute in E4. inversion E4; subst s4; clear E4.
  do 4 eexists. split; [reflexivity|].
  split; [vm_compute; reflexivity|]. split; [reflexivity|].
  split; [reflexivity|].
  split; [vm_compute; reflexivity|]. split; [reflexivity|].
  vm_compute. discriminate.
Qed.

(** ** Statistics *)

Lemma totalDuration_from (l : list IngestionJob) (acc : Z) :
  fold_left
    (fun sum job =>
       match J.startedAt job, J.completedAt job with
       | Some startedAt, Some completedAt => sum + (completedAt - startedAt)
       | _, _ => sum
       end) l acc
  = acc + sumDurations l.
Proof.
  revert acc. induction l as [|j rest IH]; intros acc.
  - cbn. lia.
  - cbn [fold_left]. rewrite IH.
    change (sumDurations (j :: rest)) with (default 0 (duration j) + sumDurations rest).
    unfold duration.
    destruct (J.startedAt j), (J.completedAt j); cbn -[sumDurations]; lia.
Qed.

Lemma totalDuration_sum (l : list IngestionJob) : totalDuration l = sumDurations l.
Proof. unfold totalDuration. rewrite totalDuration_from. lia. Qed.

Lemma filter_all (f : IngestionJob -> bool) (l : list IngestionJob) :
  (forall j, j ∈ l -> f j = true) -> List.filter f l = l.
Proof.
  induction l as [|j rest IH]; intros H; cbn; [reflexivity|].
  rewrite (H j) by left. f_equal. apply IH. intros j' Hj'. apply H. right. exact Hj'.
Qed.

(** What [getIngestionStats] computes in general: the jobs without both
    timestamps add nothing to the sum, and the divisor is the number of
    all the COMPLETED jobs the query returns. *)
Lemma averageDuration_general (db : Db) :
  averageDuration (getIngestionStats db)
  = if (0 <? length (completedJobs db))%nat
    then Qfloor (inject_Z (sumDurations (completedJobs db))
                 / inject_Z (Z.of_nat (length (completedJobs db))) / inject_Z 1000)
    else 0.
Proof. cbn. unfold averageOf. rewrite totalDuration_sum. reflexivity. Qed.

(** C6, as the code has it: [averageDuration] is a whole number of
    seconds. It is 0 when there is no COMPLETED job; when every COMPLETED
    job has both timestamps it is the floor of the mean, in seconds, of
    [completedAt - startedAt] over the COMPLETED jobs; and with a single
    COMPLETED job whose [completedAt] is 5000 ms after its [startedAt] it
    is 5. *)
Theorem averageDuration_floor_of_mean (db : Db) :
  (completedJobs db = [] -> averageDuration (getIngestionStats db) = 0) /\
  ((forall j, j ∈ completedJobs db -> is_Some (J.startedAt j) /\ is_Some (J.completedAt j)) ->
     averageDuration (getIngestionStats db) = Qfloor (averageDuration_spec db)) /\
  (forall j t, completedJobs db = [j] ->
     J.startedAt j = Some t -> J.completedAt j = Some (t + 5000) ->
     averageDuration (getIngestionStats db) = 5).
Proof.
  split; [|split].
  - intros Hnone. rewrite averageDuration_general, Hnone. reflexivity.
  - intros Hall. rewrite averageDuration_general. unfold averageDuration_spec, timedJobs.
    rewrite filter_all.
    2:{ intros j Hj. destruct (Hall j Hj) as [[s Hs] [c Hc]].
        apply bool_decide_eq_true. unfold duration. rewrite Hs, Hc. eauto. }
    destruct (completedJobs db) as [|j rest]; reflexivity.
  - intros j t Hone Hs Hc. rewrite averageDuration_general, Hone. cbn.
    unfold duration. rewrite Hs, Hc. cbn.
    replace (t + 5000 - t + 0) with 5000 by lia. reflexivity.
Qed.

Lemma averageDuration_floor_of_mean_witness :
  averageDuration
    (getIngestionStats (stats_db [timed_job "job-1" 1000 2500; timed_job "job-2" 0 4000]))
  = Qfloor (averageDuration_spec
              (stats_db [timed_job "job-1" 1000 2500; timed_job "job-2" 0 4000])) /\
  Qfloor (averageDuration_spec
            (stats_db [timed_job "job-1" 1000 2500; timed_job "job-2" 0 4000])) = 2.
Proof.
  split; [|vm_compute; reflexivity].
  apply (proj1 (proj2 (averageDuration_floor_of_mean
                         (stats_db [timed_job "job-1" 1000 2500; timed_job "job-2" 0 4000])))).
  intros j Hj. vm_compute in Hj.
  apply elem_of_cons in Hj as [->|Hj]; [split; eauto|].
  apply elem_of_cons in Hj as [->|Hj]; [split; eauto|].
  apply elem_of_nil in Hj. contradiction.
Defined.

(** C6, as the spec words it, fails: over a single COMPLETED job that took
    1500 ms the mean is 3/2 seconds, and [averageDuration] is 1. *)
Lemma averageDuration_is_not_the_mean :
  completedJobs (stats_db [timed_job "job-1" 1000 2500]) = [timed_job "job-1" 1000 2500] /\
  averageDuration (getIngestionStats (stats_db [timed_job "job-1" 1000 2500])) = 1 /\
  (averageDuration_spec (stats_db [timed_job "job-1" 1000 2500]) == 3 # 2)%Q /\
  ~ (inject_Z (averageDuration (getIngestionStats (stats_db [timed_job "job-1" 1000 2500])))
     == averageDuration_spec (stats_db [timed_job "job-1" 1000 2500]))%Q.
Proof.
  split; [vm_compute; reflexivity|]. split; [vm_compute; reflexivity|].
  split; [vm_compute; reflexivity|].
  vm_compute. discriminate.
Qed.

(** The divisor counts a COMPLETED job that has only one of its two
    timestamps: one job of 10 s and one COMPLETED job without
    [completedAt] average to 5. A COMPLETED row with neither timestamp is
    not returned by the query, and is left out of the sum and of the
    divisor alike. The demo controller averages over the jobs that have
    both timestamps only. *)
Lemma averageDuration_divisor_counts_untimed :
  averageDuration
    (getIngestionStats
       (stats_db [timed_job "job-1" 0 10000;
                  set_completedAt None (timed_job "job-2" 0 0)]))
  = 5 /\
  averageDuration
    (getIngestionStats
       (stats_db [timed_job "job-1" 0 10000;
                  set_startedAt None (set_completedAt None (timed_job "job-2" 0 0))]))
  = 10 /\
  IngestionDemoController.completedJobs
    [timed_job "job-1" 0 10000; set_completedAt None (timed_job "job-2" 0 0)]
  = [timed_job "job-1" 0 10000].
Proof. repeat split; vm_compute; reflexivity. Qed.

(** * Further properties of the service *)

(** ** The first half of a dispatch *)

Lemma prepareIngestionPayload_resolves (job : IngestionJob) (db : Db) :
  (truthy (J.documentId job) = true ->
   is_Some (documentRepository db !! default "" (J.documentId job))) ->
  exists payload, prepareIngestionPayload job db = (db, Ok payload).
Proof.
  intros Hdoc. unfold prepareIngestionPayload.
  destruct (bool_decide (J.ingestionType job = SINGLE_DOCUMENT)); cbn [andb].
  - destruct (truthy (J.documentId job)) eqn:Ht.
    + destruct (Hdoc eq_refl) as [doc Hd]. unfold bind.
      rewrite (documents_findById_found _ _ _ Hd). eexists. reflexivity.
    + destruct (bool_decide (J.ingestionType job = BATCH_DOCUMENTS)); eexists; reflexivity.
  - destruct (bool_decide (J.ingestionType job = BATCH_DOCUMENTS)); eexists; reflexivity.
Qed.

(** The first half of a dispatch reaches the backend call whenever the
    job references no document, or one that exists. *)
Lemma startDispatch_reaches
        (db : Db) (jobId : string) (job : IngestionJob) (clock : Clock) :
  ingestionJobRepository db !! jobId = Some job ->
  (truthy (J.documentId job) = true ->
   is_Some (documentRepository db !! default "" (J.documentId job))) ->
  exists db1 payload,
    startDispatch jobId clock db = (db1, inr (started clock job, payload)) /\
    ingestionJobRepository db1
    = <[J.id job := started clock job]> (ingestionJobRepository db) /\
    J.status (started clock job) = PROCESSING /\
    J.startedAt (started clock job) = Some (at_start clock).
Proof.
  intros Hfound Hdoc. unfold startDispatch.
  rewrite (findById_found _ _ _ Hfound), beforePost_eq.
  destruct (truthy (J.documentId job)) eqn:Ht.
  - destruct (Hdoc eq_refl) as [doc Hd].
    rewrite (mirror_found _ _ _ _ doc) by (cbn; assumption).
    cbn [snd]. unfold liftDb. cbn [fst snd].
    destruct (prepareIngestionPayload_resolves (started clock job)
                (with_documents
                   (insert (D.id doc)
                      (DocumentsService.assignStatus DOC_PROCESSING (at_processed clock) doc))
                   (with_jobs (insert (J.id job) (started clock job)) db)))
      as [payload Hp].
    { intros _. cbn. rewrite lookup_insert. case_decide; eauto. }
    rewrite Hp. cbn [fst snd]. do 2 eexists. split; [reflexivity|].
    repeat split; reflexivity.
  - rewrite mirror_no_document by (cbn; assumption).
    cbn [snd]. unfold liftDb. cbn [fst snd].
    destruct (prepareIngestionPayload_resolves (started clock job)
                (with_jobs (insert (J.id job) (started clock job)) db))
      as [payload Hp].
    { cbn. rewrite Ht. discriminate. }
    rewrite Hp. cbn [fst snd]. do 2 eexists. split; [reflexivity|].
    repeat split; reflexivity.
Qed.

(** X1. A dispatch never looks at the status of the job it loads: whatever
    the status — also CANCELLED or COMPLETED — when the job references no
    document, or one that exists, the first half stores the job as
    PROCESSING with [startedAt] set and goes on to the backend call. *)
Theorem startDispatch_ignores_status
        (db : Db) (jobId : string) (job : IngestionJob) (clock : Clock) :
  ingestionJobRepository db !! jobId = Some job ->
  (truthy (J.documentId job) = true ->
   is_Some (documentRepository db !! default "" (J.documentId job))) ->
  exists db1 payload,
    startDispatch jobId clock db = (db1, inr (started clock job, payload)) /\
    ingestionJobRepository db1
    = <[J.id job := started clock job]> (ingestionJobRepository db) /\
    J.status (started clock job) = PROCESSING /\
    J.startedAt (started clock job) = Some (at_start clock) /\
    (J.status job = CANCELLED \/ J.status job = COMPLETED ->
     J.status (started clock job) <> J.status job).
Proof.
  intros Hfound Hdoc.
  destruct (startDispatch_reaches db jobId job clock Hfound Hdoc)
    as (db1 & payload & H & Hj & Hs & Hst).
  exists db1, payload. repeat (split; [assumption|]).
  intros [Hc | Hc]; rewrite Hc; discriminate.
Qed.

Lemma startDispatch_ignores_status_witness :
  J.status (sample_job CANCELLED 0 0) = CANCELLED /\
  exists db1 payload,
    startDispatch "job-1" sample_clock (sample_db CANCELLED 0 0)
    = (db1, inr (started sample_clock (sample_job CANCELLED 0 0), payload)) /\
    J.status (started sample_clock (sample_job CANCELLED 0 0)) = PROCESSING.
Proof.
  split; [reflexivity|].
  destruct (startDispatch_ignores_status (sample_db CANCELLED 0 0) "job-1"
              (sample_job CANCELLED 0 0) sample_clock eq_refl)
    as (db1 & payload & H & _ & Hs & _ & _).
  - intros _. vm_compute. eauto.
  - exists db1, payload. split; assumption.
Defined.

(** ** The failure of the backend call *)

Lemma completeDispatch_failure (db1 : Db) (job1 : IngestionJob) (e : Exception) (clock : Clock) :
  (truthy (J.documentId job1) = true ->
     is_Some (documentRepository db1 !! default "" (J.documentId job1))) ->
  exists db2,
    completeDispatch job1 (Throw e) clock db1
    = (with_jobs (insert (J.id job1) (failed clock e job1)) db2, Ok tt) /\
    (truthy (J.documentId job1) = false -> db2 = db1) /\
    (forall doc, truthy (J.documentId job1) = true ->
       documentRepository db1 !! default "" (J.documentId job1) = Some doc ->
       db2 = with_documents
               (insert (D.id doc)
                  (DocumentsService.assignStatus ERROR (at_processed clock) doc)) db1).
Proof.
  intros Hdoc. unfold completeDispatch, withLocal, try_finally, try_catch, bind.
  rewrite onError_eq.
  destruct (truthy (J.documentId job1)) eqn:Ht.
  - destruct (Hdoc eq_refl) as [doc Hd].
    rewrite (mirror_found _ _ _ _ doc) by (cbn; assumption).
    rewrite saveLocal_eq. cbn [fst snd].
    eexists. split; [reflexivity|]. split; [discriminate|].
    intros doc' _ Hd'. rewrite Hd in Hd'. inversion Hd'. reflexivity.
  - rewrite mirror_no_document by (cbn; assumption).
    rewrite saveLocal_eq. cbn [fst snd].
    exists db1. split; [reflexivity|]. split; [reflexivity|].
    intros doc Hcontra. discriminate Hcontra.
Qed.

(** X3. When the backend call of a dispatch throws, [triggerIngestion]
    swallows the error and ends normally; the job is stored as FAILED with
    [completedAt] set and [errorMessage] the message of the error (or
    'Unknown error occurred' when that is empty), its [progress], [result]
    and [retryCount] as they were, and the referenced document is stored
    with status ERROR. Nothing is retried. *)
Theorem dispatch_backend_failure
        (db db1 : Db) (jobId : string) (backend : Backend) (clock : Clock)
        (job1 : IngestionJob) (payload : Payload) (e : Exception) :
  primaryKeys db ->
  startDispatch jobId clock db = (db1, inr (job1, payload)) ->
  backend payload = Throw e ->
  exists db' job',
    triggerIngestion jobId backend clock db = (db', Ok tt) /\
    row db' jobId job' /\
    J.status job' = FAILED /\
    J.completedAt job' = Some (at_failure clock) /\
    J.errorMessage job'
    = Some (if String.eqb (message e) "" then "Unknown error occurred" else message e) /\
    J.progress job' = J.progress job1 /\ J.result job' = J.result job1 /\
    J.retryCount job' = J.retryCount job1 /\
    (truthy (J.documentId job') = true ->
       exists doc,
         documentRepository db' !! default "" (J.documentId job') = Some doc /\
         D.status doc = ERROR).
Proof.
  intros [Hjobs Hdocs] Hstart Hback.
  rewrite triggerIngestion_split, Hstart, Hback.
  destruct (startDispatch_awaiting_inv _ _ _ _ _ _ Hstart)
    as (job & Hfound & -> & Hjobs1 & Hdoc_yes & Hdoc_no).
  pose proof (Hjobs _ _ Hfound) as Hid.
  destruct (completeDispatch_failure db1 (started clock job) e clock)
    as (db2 & Hdone & Hno & Hyes).
  { intros Ht. destruct (Hdoc_yes Ht) as (doc & Hd & Hd1).
    rewrite Hd1. rewrite (Hdocs _ _ Hd). cbn. rewrite lookup_insert_eq. eauto. }
  change (J.id (started clock job)) with (J.id job) in Hdone. rewrite Hid in Hdone.
  exists (with_jobs (insert jobId (failed clock e (started clock job))) db2),
         (failed clock e (started clock job)).
  split; [exact Hdone|].
  split; [apply row_insert; exact Hid|].
  repeat (split; [reflexivity|]).
  intros Ht. cbn in Ht. destruct (Hdoc_yes Ht) as (doc & Hd & Hd1).
  pose proof (Hdocs _ _ Hd) as Hdid.
  assert (Hd1' : documentRepository db1 !! default "" (J.documentId (started clock job))
                 = Some (DocumentsService.assignStatus DOC_PROCESSING (at_processed clock) doc)).
  { rewrite Hd1, Hdid. cbn. apply lookup_insert_eq. }
  rewrite (Hyes _ Ht Hd1').
  exists (DocumentsService.assignStatus ERROR (at_processed clock)
            (DocumentsService.assignStatus DOC_PROCESSING (at_processed clock) doc)).
  split; [|reflexivity]. cbn. rewrite Hdid. apply lookup_insert_eq.
Qed.

Lemma dispatch_backend_failure_witness :
  exists db' job',
    triggerIngestion "job-1" (fun _ => Throw (AxiosError "timeout of 30000ms exceeded"))
      sample_clock (sample_db PENDING 0 0)
    = (db', Ok tt) /\
    row db' "job-1" job' /\
    J.status job' = FAILED /\
    J.errorMessage job' = Some "timeout of 30000ms exceeded".
Proof.
  destruct (startDispatch "job-1" sample_clock (sample_db PENDING 0 0))
    as [db1 [r|[job1 payload]]] eqn:Estart; [vm_compute in Estart; discriminate Estart|].
  destruct (dispatch_backend_failure (sample_db PENDING 0 0) db1 "job-1"
              (fun _ => Throw (AxiosError "timeout of 30000ms exceeded"))
              sample_clock job1 payload (AxiosError "timeout of 30000ms exceeded")
              (sample_db_primaryKeys PENDING 0 0) Estart eq_refl)
    as (db' & job' & Hrun & Hrow & Hs & _ & He & _).
  exists db', job'. repeat (split; [assumption|]). exact He.
Defined.

(** ** A dispatch always settles the job *)

Lemma mirror_jobs (status : DocumentStatus) (now : Z) (d : Db) (j : IngestionJob) :
  exists d',
    fst (mirror status now (d, j)) = (d', j) /\
    ingestionJobRepository d' = ingestionJobRepository d /\
    userRepository d' = userRepository d.
Proof.
  destruct (truthy (J.documentId j)) eqn:Ht.
  - destruct (documentRepository d !! default "" (J.documentId j)) as [doc|] eqn:Hd.
    + rewrite (mirror_found _ _ _ _ doc) by assumption. eexists. repeat split.
    + rewrite mirror_missing by assumption. eexists. repeat split.
  - rewrite mirror_no_document by assumption. eexists. repeat split.
Qed.

(** The row a completion writes, and nothing else in the job table. *)
Lemma completeDispatch_written (db : Db) (job : IngestionJob) (answer : Result string)
      (clock : Clock) :
  exists job',
    ingestionJobRepository (fst (completeDispatch job answer clock db))
    = <[J.id job := job']> (ingestionJobRepository db) /\
    userRepository (fst (completeDispatch job answer clock db)) = userRepository db /\
    ((exists data, job' = completed clock data job) \/
     (exists e, job' = failed clock e job) \/
     (exists data e, job' = failed clock e (completed clock data job))).
Proof.
  unfold completeDispatch, withLocal, try_finally, try_catch, bind.
  destruct answer as [data|e].
  - rewrite afterPost_eq.
    destruct (mirror_jobs PROCESSED (at_processed clock) db (completed clock data job))
      as (d1 & H1 & Hj1 & Hu1).
    destruct (mirror PROCESSED (at_processed clock) (db, completed clock data job))
      as [s1 [u|e]]; cbn [fst] in H1; subst s1.
    + rewrite saveLocal_eq. cbn [fst snd]. eexists. cbn.
      rewrite Hj1, Hu1. split; [reflexivity|]. split; [reflexivity|]. left. eauto.
    + rewrite onError_eq.
      destruct (mirror_jobs ERROR (at_processed clock) d1 (failed clock e (completed clock data job)))
        as (d2 & H2 & Hj2 & Hu2).
      destruct (mirror ERROR (at_processed clock) (d1, failed clock e (completed clock data job)))
        as [s2 r2]; cbn [fst] in H2; subst s2.
      rewrite saveLocal_eq. cbn [fst snd]. eexists. cbn.
      rewrite Hj2, Hj1, Hu2, Hu1. split; [reflexivity|]. split; [reflexivity|].
      right. right. eauto.
  - rewrite onError_eq.
    destruct (mirror_jobs ERROR (at_processed clock) db (failed clock e job))
      as (d2 & H2 & Hj2 & Hu2).
    destruct (mirror ERROR (at_processed clock) (db, failed clock e job))
      as [s2 r2]; cbn [fst] in H2; subst s2.
    rewrite saveLocal_eq. cbn [fst snd]. eexists. cbn.
    rewrite Hj2, Hu2. split; [reflexivity|]. split; [reflexivity|]. right. left. eauto.
Qed.

(** The catch and finally blocks, run from an in-memory entity. *)
Lemma handler_written (clock : Clock) (e : Exception) (d : Db) (j : IngestionJob) :
  ingestionJobRepository (fst (fst (try_finally (onError clock e) saveLocal (d, j))))
  = <[J.id j := failed clock e j]> (ingestionJobRepository d) /\
  userRepository (fst (fst (try_finally (onError clock e) saveLocal (d, j))))
  = userRepository d.
Proof.
  unfold try_finally. rewrite onError_eq.
  destruct (mirror_jobs ERROR (at_processed clock) d (failed clock e j))
    as (d2 & H2 & Hj2 & Hu2).
  destruct (mirror ERROR (at_processed clock) (d, failed clock e j))
    as [s2 r2]; cbn [fst] in H2; subst s2.
  rewrite saveLocal_eq. cbn. rewrite Hj2, Hu2. split; reflexivity.
Qed.

(** The row the first half of a dispatch writes: the started entity when
    the backend call is reached, the failed one when it is not. *)
Lemma startDispatch_written (db : Db) (jobId : string) (job : IngestionJob) (clock : Clock) :
  ingestionJobRepository db !! jobId = Some job ->
  userRepository (fst (startDispatch jobId clock db)) = userRepository db /\
  ((exists payload,
      snd (startDispatch jobId clock db) = inr (started clock job, payload) /\
      ingestionJobRepository (fst (startDispatch jobId clock db))
      = <[J.id job := started clock job]> (ingestionJobRepository db)) \/
   (exists r e,
      snd (startDispatch jobId clock db) = inl r /\
      ingestionJobRepository (fst (startDispatch jobId clock db))
      = <[J.id job := failed clock e (started clock job)]> (ingestionJobRepository db))).
Proof.
  intros Hfound. unfold startDispatch.
  rewrite (findById_found _ _ _ Hfound), beforePost_eq.
  destruct (mirror_jobs DOC_PROCESSING (at_processed clock)
              (with_jobs (insert (J.id job) (started clock job)) db) (started clock job))
    as (d1 & H1 & Hj1 & Hu1).
  destruct (mirror DOC_PROCESSING (at_processed clock)
              (with_jobs (insert (J.id job) (started clock job)) db, started clock job))
    as [s1 [u|e]]; cbn [fst] in H1; subst s1.
  - cbn [snd]. unfold liftDb. cbn [fst snd].
    pose proof (prepareIngestionPayload_state (started clock job) d1) as Hp.
    destruct (prepareIngestionPayload (started clock job) d1) as [d' [p|e]];
      cbn [fst snd] in *; subst d'.
    + rewrite Hj1, Hu1. split; [reflexivity|]. left. eauto.
    + destruct (handler_written clock e d1 (started clock job)) as [Hj Hu].
      destruct (try_finally (onError clock e) saveLocal (d1, started clock job))
        as [s2 r]; cbn [fst snd] in *.
      rewrite Hj, Hu, Hj1, Hu1. cbn. rewrite insert_insert_eq.
      split; [reflexivity|]. right. eauto.
  - destruct (handler_written clock e d1 (started clock job)) as [Hj Hu].
    destruct (try_finally (onError clock e) saveLocal (d1, started clock job))
      as [s2 r]; cbn [fst snd] in *.
    rewrite Hj, Hu, Hj1, Hu1. cbn. rewrite insert_insert_eq.
    split; [reflexivity|]. right. eauto.
Qed.

(** X4. Whatever the backend does and whether or not the document
    resolves, after [triggerIngestion] on a stored job the job is stored
    as COMPLETED or FAILED, with [startedAt] the start of this dispatch and
    [completedAt] set: the finally block always writes, so no dispatch
    that runs to its end leaves the job PENDING or PROCESSING. No other job
    row and no user is touched, and [retryCount] and [maxRetries] stay. *)
Theorem triggerIngestion_settles
        (db : Db) (jobId : string) (job : IngestionJob) (backend : Backend) (clock : Clock) :
  row db jobId job ->
  exists job',
    ingestionJobRepository (fst (triggerIngestion jobId backend clock db))
    = <[jobId := job']> (ingestionJobRepository db) /\
    userRepository (fst (triggerIngestion jobId backend clock db)) = userRepository db /\
    (J.status job' = COMPLETED \/ J.status job' = FAILED) /\
    J.startedAt job' = Some (at_start clock) /\
    is_Some (J.completedAt job') /\
    J.id job' = jobId /\
    J.retryCount job' = J.retryCount job /\ J.maxRetries job' = J.maxRetries job /\
    J.ingestionType job' = J.ingestionType job /\ J.documentId job' = J.documentId job.
Proof.
  intros [Hfound Hid]. rewrite triggerIngestion_split.
  destruct (startDispatch_written db jobId job clock Hfound) as [Hu [Hreach | Hfail]].
  - destruct Hreach as (payload & Hsnd & Hj).
    destruct (startDispatch jobId clock db) as [db1 x]; cbn [fst snd] in *; subst x.
    destruct (completeDispatch_written db1 (started clock job) (backend payload) clock)
      as (job' & Hj' & Hu' & Hcases).
    exists job'. rewrite Hj', Hu', Hj, Hu. cbn. rewrite Hid, insert_insert_eq.
    split; [reflexivity|]. split; [reflexivity|].
    destruct Hcases as [[data ->] | [[e ->] | (data & e & ->)]]; cbn;
      repeat split; eauto.
  - destruct Hfail as (r & e & Hsnd & Hj).
    destruct (startDispatch jobId clock db) as [db1 x]; cbn [fst snd] in *; subst x.
    exists (failed clock e (started clock job)). cbn [fst]. rewrite Hj, Hu, Hid.
    split; [reflexivity|]. split; [reflexivity|]. cbn. repeat split; eauto.
Qed.

Lemma triggerIngestion_settles_witness :
  exists job',
    ingestionJobRepository
      (fst (triggerIngestion "job-1" (fun _ => Ok "accepted") sample_clock
              (sample_db PENDING 0 0)))
    = <["job-1" := job']> (ingestionJobRepository (sample_db PENDING 0 0)) /\
    (J.status job' = COMPLETED \/ J.status job' = FAILED).
Proof.
  destruct (triggerIngestion_settles (sample_db PENDING 0 0) "job-1" (sample_job PENDING 0 0)
              (fun _ => Ok "accepted") sample_clock)
    as (job' & H & _ & Hs & _).
  - split; reflexivity.
  - exists job'. split; assumption.
Defined.

(** ** A dispatch touches one document only *)

Section DocumentsFrame.
Variable docs0 : gmap string Document.
Variable docId : option string.


Lemma assign_framed (f : IngestionJob -> IngestionJob) :
  (forall j, J.documentId (f j) = J.documentId j) -> preserves (documentsFramed docs0 docId) (assign f).
Proof.
  intros Hf [db job] (Hd & Hpk & Hother & Hnone). cbn.
  repeat split; try assumption. cbn. rewrite Hf. exact Hd.
Qed.

Lemma saveLocal_framed : preserves (documentsFramed docs0 docId) saveLocal.
Proof. intros [db job] H. exact H. Qed.

Lemma mirror_framed (status : DocumentStatus) (now : Z) :
  preserves (documentsFramed docs0 docId) (mirror status now).
Proof.
  intros [db job] (Hd & Hpk & Hother & Hnone). cbn [fst snd] in *.
  destruct (truthy (J.documentId job)) eqn:Ht.
  - destruct (documentRepository db !! default "" (J.documentId job)) as [doc|] eqn:Hdoc.
    + rewrite (mirror_found _ _ _ _ doc) by assumption. cbn [fst snd].
      pose proof (Hpk _ _ Hdoc) as Hid. rewrite Hd in Hid, Ht.
      split; [exact Hd|]. cbn. rewrite Hid. repeat split.
      * intros k doc'. rewrite lookup_insert. case_decide.
        -- intros [= <-]. subst k. exact Hid.
        -- apply Hpk.
      * intros d Hne. rewrite lookup_insert_ne by congruence. apply Hother, Hne.
      * intros Hf. rewrite Hf in Ht. discriminate.
    + rewrite mirror_missing by assumption. repeat split; assumption.
  - rewrite mirror_no_document by assumption. repeat split; assumption.
Qed.

Lemma prepare_framed : preserves (documentsFramed docs0 docId) (let* job := this_job in liftDb (prepareIngestionPayload job)).
Proof.
  intros [db job] H. unfold bind, this_job, gets, liftDb. cbn [fst snd].
  pose proof (prepareIngestionPayload_state job db) as Hp.
  destruct (prepareIngestionPayload job db) as [d' r]. cbn in *. subst d'. exact H.
Qed.

Lemma dispatch_blocks_framed (backend : Backend) (clock : Clock) :
  preserves (documentsFramed docs0 docId)
    (try_finally
       (try_catch
          (let* payload := beforePost clock in
           let* data := post backend payload in
           afterPost clock data)
          (onError clock))
       saveLocal).
Proof.
  assert (Hassign : forall f, (forall j, J.documentId (f j) = J.documentId j) ->
                              preserves (documentsFramed docs0 docId) (assign f)) by apply assign_framed.
  apply preserves_try_finally; [|apply saveLocal_framed].
  apply preserves_try_catch.
  - apply preserves_bind.
    + unfold beforePost.
      repeat (apply preserves_bind;
              [first [apply Hassign; reflexivity | apply saveLocal_framed | apply mirror_framed]
              | intros _]).
      apply prepare_framed.
    + intros payload. apply preserves_bind; [intros s Hs; exact Hs|]. intros data.
      unfold afterPost.
      repeat (apply preserves_bind; [apply Hassign; reflexivity | intros _]).
      apply mirror_framed.
  - intros e. unfold onError.
    repeat (apply preserves_bind; [apply Hassign; reflexivity | intros _]).
    apply mirror_framed.
Qed.

End DocumentsFrame.

(** X5. A dispatch changes no document other than the one the job
    references, and none at all when the job references none. *)
Theorem triggerIngestion_documents_frame
        (db : Db) (jobId : string) (job : IngestionJob) (backend : Backend) (clock : Clock) :
  primaryKeys db ->
  ingestionJobRepository db !! jobId = Some job ->
  (forall d, d <> default "" (J.documentId job) ->
     documentRepository (fst (triggerIngestion jobId backend clock db)) !! d
     = documentRepository db !! d) /\
  (truthy (J.documentId job) = false ->
     documentRepository (fst (triggerIngestion jobId backend clock db))
     = documentRepository db).
Proof.
  intros [_ Hdocs] Hfound.
  assert (E : triggerIngestion jobId backend clock db
              = withLocal job
                  (try_finally
                     (try_catch
                        (let* payload := beforePost clock in
                         let* data := post backend payload in
                         afterPost clock data)
                        (onError clock))
                     saveLocal) db).
  { unfold triggerIngestion, bind at 1. rewrite (findById_found _ _ _ Hfound). reflexivity. }
  rewrite E. unfold withLocal.
  pose proof (dispatch_blocks_framed (documentRepository db) (J.documentId job)
                backend clock (db, job)) as H.
  destruct H as (_ & _ & Hother & Hnone).
  { split; [reflexivity|]. split; [exact Hdocs|]. split; reflexivity. }
  match goal with |- context [match ?m with _ => _ end] => destruct m as [s' r] end.
  cbn [fst] in *. split; assumption.
Qed.

Lemma triggerIngestion_documents_frame_witness :
  documentRepository
    (fst (triggerIngestion "job-1" (fun _ => Ok "accepted") sample_clock
            (sample_db PENDING 0 0))) !! "doc-2"
  = documentRepository (sample_db PENDING 0 0) !! "doc-2".
Proof.
  apply (proj1 (triggerIngestion_documents_frame (sample_db PENDING 0 0) "job-1"
                  (sample_job PENDING 0 0) (fun _ => Ok "accepted") sample_clock
                  (sample_db_primaryKeys PENDING 0 0) eq_refl)).
  discriminate.
Defined.

(** ** More on create *)

Lemma validate_single (dto : CreateIngestionJobDto) (db : Db) :
  Dto.ingestionType dto = SINGLE_DOCUMENT ->
  validateIngestionJobDto dto db
  = if negb (truthy (Dto.documentId dto))
    then (db, Throw (BadRequestException "Document ID is required for single document ingestion"))
    else match documentRepository db !! default "" (Dto.documentId dto) with
         | Some _ => (db, Ok tt)
         | None => (db, Throw (NotFoundException "Document not found"))
         end.
Proof.
  intros Ht. unfold validateIngestionJobDto. rewrite Ht.
  rewrite bool_decide_eq_true_2 by reflexivity.
  rewrite bool_decide_eq_false_2 by discriminate.
  destruct (negb (truthy (Dto.documentId dto))); [reflexivity|].
  unfold bind. cbv beta iota.
  destruct (documentRepository db !! default "" (Dto.documentId dto)) as [doc|] eqn:Hd.
  - rewrite (documents_findById_found _ _ _ Hd). reflexivity.
  - rewrite (documents_findById_missing _ _ Hd). reflexivity.
Qed.

(** X6. For a SINGLE_DOCUMENT request, [create] throws a
    [BadRequestException] when [documentId] is absent or the empty string,
    and a [NotFoundException] when it names no document; in both cases
    nothing is stored. A job is created only for a non-empty [documentId]
    that resolves. *)
Theorem create_single_document_validation
        (dto : CreateIngestionJobDto) (userId newId : string) (db : Db) :
  Dto.ingestionType dto = SINGLE_DOCUMENT ->
  (Dto.documentId dto = None \/ Dto.documentId dto = Some "" ->
     create dto userId newId db
     = (db, Throw (BadRequestException
                     "Document ID is required for single document ingestion"))) /\
  (forall d, Dto.documentId dto = Some d -> d <> "" ->
     documentRepository db !! d = None ->
     create dto userId newId db = (db, Throw (NotFoundException "Document not found"))) /\
  (forall db' job, create dto userId newId db = (db', Ok job) ->
     exists d, Dto.documentId dto = Some d /\ d <> "" /\
               is_Some (documentRepository db !! d) /\ J.documentId job = Some d).
Proof.
  intros Ht. split; [|split].
  - intros Hd. unfold create, bind. rewrite (validate_single _ _ Ht).
    destruct Hd as [-> | ->]; reflexivity.
  - intros d Hd Hne Hmiss. unfold create, bind. rewrite (validate_single _ _ Ht), Hd.
    cbn. apply String.eqb_neq in Hne. rewrite Hne. cbn. rewrite Hmiss. reflexivity.
  - intros db' job Hok. unfold create, bind in Hok.
    rewrite (validate_single _ _ Ht) in Hok.
    destruct (Dto.documentId dto) as [d|] eqn:Hd; [|discriminate Hok].
    cbn in Hok. destruct (String.eqb d "") eqn:Hempty; [discriminate Hok|].
    cbn in Hok.
    destruct (documentRepository db !! d) as [doc|] eqn:Hdoc; [|discriminate Hok].
    exists d. split; [reflexivity|]. split; [apply String.eqb_neq; exact Hempty|].
    split; [eauto|].
    unfold gets in Hok. destruct (negb (bool_decide (userId ∈ userRepository db)));
      [discriminate Hok|].
    revert Hok.
    match goal with |- context [insertJob ?j db] =>
      destruct (insertJob_cases j db) as [(d' & _ & _ & ->) | [_ ->]] end;
      intros Hok; inversion Hok; subst. reflexivity.
Qed.

Lemma create_single_document_validation_witness :
  create (Dto.mk None None SINGLE_DOCUMENT (Some "") None None) "user-1" "job-2"
    (sample_db PENDING 0 0)
  = (sample_db PENDING 0 0,
     Throw (BadRequestException "Document ID is required for single document ingestion")).
Proof.
  apply (proj1 (create_single_document_validation
                  (Dto.mk None None SINGLE_DOCUMENT (Some "") None None)
                  "user-1" "job-2" (sample_db PENDING 0 0) eq_refl)).
  right. reflexivity.
Defined.

Lemma create_valid (dto : CreateIngestionJobDto) (userId newId : string) (db : Db) :
  validateIngestionJobDto dto db = (db, Ok tt) ->
  userId ∈ userRepository db ->
  (forall d, Dto.documentId dto = Some d -> is_Some (documentRepository db !! d)) ->
  create dto userId newId db
  = (with_jobs
       (insert newId
          (J.mk newId (Dto.name dto) (Dto.description dto) PENDING
             (Dto.ingestionType dto) (Dto.configuration dto)
             None None None None None 0 0 3 (Some userId) (Dto.documentId dto))) db,
     Ok (J.mk newId (Dto.name dto) (Dto.description dto) PENDING
           (Dto.ingestionType dto) (Dto.configuration dto)
           None None None None None 0 0 3 (Some userId) (Dto.documentId dto))).
Proof.
  intros Hv Hin Href. unfold create, bind. rewrite Hv. unfold gets.
  rewrite bool_decide_eq_true_2 by exact Hin. cbv beta iota. cbn [negb].
  match goal with |- insertJob ?j db = _ =>
    destruct (insertJob_cases j db) as [(d & Hd & Hmiss & _) | [_ ->]] end;
    [|reflexivity].
  cbn in Hd. destruct (Href d Hd) as [doc Hdoc]. congruence.
Qed.

Lemma create_dangling (dto : CreateIngestionJobDto) (userId newId d : string) (db : Db) :
  validateIngestionJobDto dto db = (db, Ok tt) ->
  userId ∈ userRepository db ->
  Dto.documentId dto = Some d -> documentRepository db !! d = None ->
  create dto userId newId db
  = (db, Throw (QueryFailedError "SQLITE_CONSTRAINT: FOREIGN KEY constraint failed")).
Proof.
  intros Hv Hin Hd Hmiss. unfold create, bind. rewrite Hv. unfold gets.
  rewrite bool_decide_eq_true_2 by exact Hin. cbv beta iota. cbn [negb].
  match goal with |- insertJob ?j db = _ =>
    destruct (insertJob_cases j db) as [(d' & _ & _ & ->) | [Href _]] end;
    [reflexivity|].
  destruct (Href d Hd) as [doc Hdoc]. congruence.
Qed.

Lemma rows_length (db : Db) : length (rows db) = size (ingestionJobRepository db).
Proof. unfold rows. rewrite length_fmap. apply length_map_to_list. Qed.

(** X7. When the request passes validation and the generated id is
    unused, [create] for a known caller whose [documentId] is absent or
    names an existing document stores exactly one new row: a PENDING job
    with [retryCount = 0], [maxRetries = 3], [progress = 0], no
    timestamps, no result and no error, stamped with the caller;
    [findById] of the new id then returns it, every other row, the
    documents and the users are as before, and the job count grows by
    one. When [documentId] names no document (a REPROCESS or
    BATCH_DOCUMENTS request, which validation does not check for it), the
    store refuses the row on its foreign key: [create] throws a
    [QueryFailedError] and nothing is stored. An unknown caller gets a
    [NotFoundException] and nothing is stored. *)
Theorem create_stores_pending_job
        (dto : CreateIngestionJobDto) (userId newId : string) (db : Db) :
  validateIngestionJobDto dto db = (db, Ok tt) ->
  ingestionJobRepository db !! newId = None ->
  (userId ∈ userRepository db ->
   (forall d, Dto.documentId dto = Some d -> is_Some (documentRepository db !! d)) ->
     exists db' job,
       create dto userId newId db = (db', Ok job) /\
       findById newId db' = (db', Ok job) /\
       J.id job = newId /\ J.status job = PENDING /\
       J.retryCount job = 0 /\ J.maxRetries job = 3 /\ J.progress job = 0 /\
       J.startedAt job = None /\ J.completedAt job = None /\
       J.result job = None /\ J.errorMessage job = None /\
       J.triggeredById job = Some userId /\
       J.ingestionType job = Dto.ingestionType dto /\
       J.documentId job = Dto.documentId dto /\
       (forall k, k <> newId ->
          ingestionJobRepository db' !! k = ingestionJobRepository db !! k) /\
       documentRepository db' = documentRepository db /\
       userRepository db' = userRepository db /\
       total (getIngestionStats db') = S (total (getIngestionStats db))) /\
  (userId ∈ userRepository db ->
   forall d, Dto.documentId dto = Some d -> documentRepository db !! d = None ->
     exists detail,
       create dto userId newId db = (db, Throw (QueryFailedError detail))) /\
  (userId ∉ userRepository db ->
     create dto userId newId db = (db, Throw (NotFoundException "User not found"))).
Proof.
  intros Hv Hfresh. split; [|split].
  - intros Hin Href. do 2 eexists. split; [apply create_valid; assumption|].
    split; [apply findById_found; cbn; apply lookup_insert_eq|].
    repeat (split; [reflexivity|]).
    split; [intros k Hk; cbn; apply lookup_insert_ne; congruence|].
    split; [reflexivity|]. split; [reflexivity|].
    cbn. rewrite !rows_length. cbn. apply map_size_insert_None. exact Hfresh.
  - intros Hin d Hd Hmiss. eexists.
    apply (create_dangling dto userId newId d db Hv Hin Hd Hmiss).
  - intros Hout. unfold create, bind. rewrite Hv. unfold gets.
    rewrite bool_decide_eq_false_2 by exact Hout. reflexivity.
Qed.

Lemma create_stores_pending_job_witness :
  (exists db' job,
     create sample_dto "user-1" "job-2" (sample_db PENDING 0 0) = (db', Ok job) /\
     findById "job-2" db' = (db', Ok job) /\
     J.status job = PENDING /\
     total (getIngestionStats db') = 2%nat) /\
  (exists detail,
     create sample_reprocess_dto "user-1" "job-2" (sample_db PENDING 0 0)
     = (sample_db PENDING 0 0, Throw (QueryFailedError detail))).
Proof.
  assert (Huser : "user-1" ∈ userRepository (sample_db PENDING 0 0))
    by (vm_compute; reflexivity).
  split.
  - destruct (proj1 (create_stores_pending_job sample_dto "user-1" "job-2"
                       (sample_db PENDING 0 0) eq_refl eq_refl) Huser)
      as (db' & job & Hc & Hf & _ & Hs & H).
    + intros d [= <-]. vm_compute. eauto.
    + exists db', job. repeat (split; [assumption|]).
      destruct H as (_ & _ & _ & _ & _ & _ & _ & _ & _ & _ & _ & _ & _ & Ht).
      rewrite Ht. vm_compute. reflexivity.
  - apply (proj1 (proj2 (create_stores_pending_job sample_reprocess_dto "user-1" "job-2"
                           (sample_db PENDING 0 0) eq_refl eq_refl))
             Huser "doc-404" eq_refl eq_refl).
Defined.

(** ** More on the statistics *)




Lemma Qfloor_div_div (t n : Z) :
  0 < n -> Qfloor (inject_Z t / inject_Z n / inject_Z 1000) = t / (n * 1000).
Proof.
  intros Hn. rewrite Zdiv_Qdiv. apply Qfloor_comp.
  rewrite inject_Z_mult. field.
  intros H. apply (inject_Z_injective n 0) in H. lia.
Qed.

Lemma averageOf_div (l : list IngestionJob) :
  averageOf l = sumDurations l / (Z.of_nat (length l) * 1000).
Proof.
  unfold averageOf. rewrite totalDuration_sum.
  destruct l as [|j rest]; [reflexivity|].
  cbn [length Nat.ltb Nat.leb]. apply Qfloor_div_div. lia.
Qed.

(** X9. [averageDuration] is an integer division over the jobs the
    query of [getIngestionStats] returns: the COMPLETED rows that have at
    least one of their two timestamps (a COMPLETED row with neither is not
    returned, and counts neither in the sum nor in the divisor). It is
    the sum, in ms, of the durations of those jobs (0 for a job with one
    timestamp missing) divided, rounding down, by 1000 times their
    number. So it is never negative when none of them ends before it
    starts, and never more than the longest of their durations in
    seconds. *)
Theorem averageDuration_bounds (db : Db) (longest : Z) :
  0 <= longest ->
  (forall j, j ∈ completedJobs db -> 0 <= default 0 (duration j) <= longest) ->
  (forall j, j ∈ completedJobs db <->
     j ∈ rows db /\ J.status j = COMPLETED /\
     (is_Some (J.startedAt j) \/ is_Some (J.completedAt j))) /\
  averageDuration (getIngestionStats db)
  = sumDurations (completedJobs db) / (Z.of_nat (length (completedJobs db)) * 1000) /\
  0 <= averageDuration (getIngestionStats db) <= longest / 1000.
Proof.
  intros Hlongest Hall. split.
  { intros j. unfold completedJobs. rewrite list_elem_of_In, filter_In, <- list_elem_of_In.
    unfold isCompleted. rewrite andb_true_iff, orb_true_iff, !bool_decide_eq_true.
    reflexivity. }
  cbn [averageDuration getIngestionStats]. rewrite averageOf_div.
  split; [reflexivity|].
  assert (Hsum : 0 <= sumDurations (completedJobs db)
                 <= Z.of_nat (length (completedJobs db)) * longest).
  { induction (completedJobs db) as [|j rest IH]; [cbn; lia|].
    assert (Hj : 0 <= default 0 (duration j) <= longest) by (apply Hall; left).
    assert (Hrest : 0 <= sumDurations rest <= Z.of_nat (length rest) * longest).
    { apply IH. intros j' Hj'. apply Hall. right. exact Hj'. }
    change (sumDurations (j :: rest)) with (default 0 (duration j) + sumDurations rest).
    cbn [length]. lia. }
  destruct (completedJobs db) as [|j rest].
  - change (sumDurations [] / (Z.of_nat (length (@nil IngestionJob)) * 1000)) with 0.
    split; [lia|]. apply Z.div_pos; lia.
  - set (n := Z.of_nat (length (j :: rest))) in *.
    assert (Hn : 0 < n) by (unfold n; cbn [length]; lia).
    split; [apply Z.div_pos; lia|].
    rewrite <- (Z.div_mul_cancel_l longest 1000 n) by lia.
    apply Z.div_le_mono; lia.
Qed.

Lemma averageDuration_bounds_witness :
  averageDuration
    (getIngestionStats
       (stats_db [timed_job "job-1" 0 10000;
                  set_startedAt None (set_completedAt None (timed_job "job-2" 0 0))]))
  = 10 /\
  0 <= averageDuration
         (getIngestionStats (stats_db [timed_job "job-1" 1000 2500; timed_job "job-2" 0 4000]))
    <= 4000 / 1000.
Proof.
  split.
  - destruct (averageDuration_bounds
                (stats_db [timed_job "job-1" 0 10000;
                           set_startedAt None (set_completedAt None (timed_job "job-2" 0 0))])
                10000 ltac:(lia)
                ltac:(intros j Hj; vm_compute in Hj;
                      apply elem_of_cons in Hj as [->|Hj]; [vm_compute; split; discriminate|];
                      apply elem_of_nil in Hj; contradiction))
      as (_ & E & _).
    rewrite E. vm_compute. reflexivity.
  - apply (proj2 (proj2 (averageDuration_bounds
                  (stats_db [timed_job "job-1" 1000 2500; timed_job "job-2" 0 4000])
                  4000 ltac:(lia)
                  ltac:(intros j Hj; vm_compute in Hj;
                        apply elem_of_cons in Hj as [->|Hj]; [vm_compute; split; discriminate|];
                        apply elem_of_cons in Hj as [->|Hj]; [vm_compute; split; discriminate|];
                        apply elem_of_nil in Hj; contradiction)))).
Defined.

(** X10. Over a single COMPLETED job the average duration is that job's
    [durationInSeconds], read as 0 when the getter gives null — which it
    does not only for a missing timestamp but also for a job whose two
    timestamps are equal. *)
Theorem averageDuration_single_job (db : Db) (j : IngestionJob) :
  completedJobs db = [j] ->
  averageDuration (getIngestionStats db) = default 0 (durationInSeconds j) /\
  (durationInSeconds j = None <->
   J.startedAt j = None \/ J.completedAt j = None \/ J.startedAt j = J.completedAt j).
Proof.
  intros Hone. cbn [averageDuration getIngestionStats]. rewrite averageOf_div, Hone.
  unfold durationInSeconds, sumDurations, duration. cbn [fold_right length].
  destruct (J.startedAt j) as [s|], (J.completedAt j) as [c|]; cbn.
  - destruct (Z.eqb_spec (c - s) 0) as [E|E]; cbn.
    + rewrite E. split; [reflexivity|]. split; [intros _|reflexivity].
      right. right. f_equal. lia.
    + rewrite Z.add_0_r. split; [reflexivity|]. split; [discriminate|].
      intros [H|[H|H]]; try discriminate. inversion H. lia.
  - split; [reflexivity|]. split; [eauto | reflexivity].
  - split; [reflexivity|]. split; [eauto | reflexivity].
  - split; [reflexivity|]. split; [eauto | reflexivity].
Qed.

Lemma averageDuration_single_job_witness :
  averageDuration (getIngestionStats (stats_db [timed_job "job-1" 1000 6000]))
  = default 0 (durationInSeconds (timed_job "job-1" 1000 6000)) /\
  durationInSeconds (timed_job "job-1" 1000 6000) = Some 5 /\
  durationInSeconds (timed_job "job-1" 1000 1000) = None.
Proof.
  split; [|split; reflexivity].
  apply (proj1 (averageDuration_single_job (stats_db [timed_job "job-1" 1000 6000])
                  (timed_job "job-1" 1000 6000) eq_refl)).
Defined.

(** ** The documents service *)

(** X11. [updateStatus] on an unknown id throws [NotFoundException] and
    changes nothing. On a stored document, two updates in a row leave the
    status of the second and touch no other field but [lastProcessedAt],
    which is the time of the last update to PROCESSED: a later ERROR or
    PROCESSING does not clear it. No other document and no job changes. *)
Theorem updateStatus_twice
        (db : Db) (id : string) (s1 s2 : DocumentStatus) (t1 t2 : Z) :
  (documentRepository db !! id = None ->
     DocumentsService.updateStatus id s1 t1 db
     = (db, Throw (NotFoundException "Document not found"))) /\
  (forall doc, documentRepository db !! id = Some doc -> D.id doc = id ->
     exists db2 doc2,
       (DocumentsService.updateStatus id s1 t1 ;;; DocumentsService.updateStatus id s2 t2) db
       = (db2, Ok doc2) /\
       documentRepository db2 = <[id := doc2]> (documentRepository db) /\
       ingestionJobRepository db2 = ingestionJobRepository db /\
       D.status doc2 = s2 /\
       D.lastProcessedAt doc2
       = (if bool_decide (s2 = PROCESSED) then Some t2
          else if bool_decide (s1 = PROCESSED) then Some t1
          else D.lastProcessedAt doc) /\
       D.id doc2 = id /\ D.title doc2 = D.title doc /\ D.filePath doc2 = D.filePath doc /\
       D.mimeType doc2 = D.mimeType doc /\ D.fileSize doc2 = D.fileSize doc).
Proof.
  split; [apply updateStatus_missing|].
  intros doc Hd Hid. unfold bind.
  rewrite (updateStatus_found _ _ _ _ _ Hd).
  assert (Hd1 : documentRepository
                  (with_documents
                     (insert (D.id doc) (DocumentsService.assignStatus s1 t1 doc)) db) !! id
                = Some (DocumentsService.assignStatus s1 t1 doc)).
  { cbn. rewrite Hid. apply lookup_insert_eq. }
  rewrite (updateStatus_found _ _ _ _ _ Hd1).
  do 2 eexists. split; [reflexivity|].
  split; [cbn; rewrite Hid; apply insert_insert_eq|].
  split; [reflexivity|]. split; [reflexivity|].
  split; [cbn; destruct (bool_decide (s2 = PROCESSED)); reflexivity|].
  split; [exact Hid|]. repeat split; reflexivity.
Qed.

Lemma updateStatus_twice_witness :
  exists db2 doc2,
    (DocumentsService.updateStatus "doc-1" PROCESSED 6001 ;;;
     DocumentsService.updateStatus "doc-1" ERROR 9000) (sample_db PENDING 0 0)
    = (db2, Ok doc2) /\
    D.status doc2 = ERROR /\ D.lastProcessedAt doc2 = Some 6001.
Proof.
  destruct (proj2 (updateStatus_twice (sample_db PENDING 0 0) "doc-1" PROCESSED ERROR 6001 9000)
              (sample_document DOC_PROCESSING) eq_refl eq_refl)
    as (db2 & doc2 & H & _ & _ & Hs & Hl & _).
  exists db2, doc2. split; [exact H|]. split; [exact Hs | exact Hl].
Defined.

(** ** The payload a dispatch posts *)

(** X12. The payload a dispatch hands to the backend carries the job's id,
    the string value of its type and its configuration ('{}' when it has
    none). For a SINGLE_DOCUMENT job it carries the metadata (id, title,
    path, mime type, size) of the referenced document as stored before the
    dispatch; for a BATCH_DOCUMENTS job its list of documents is always
    empty; for a REPROCESS job it carries no document, whatever
    [documentId] says. *)
Theorem dispatch_payload
        (db db1 : Db) (jobId : string) (clock : Clock)
        (job1 : IngestionJob) (payload : Payload) :
  primaryKeys db ->
  startDispatch jobId clock db = (db1, inr (job1, payload)) ->
  exists job,
    row db jobId job /\
    job_id payload = jobId /\
    ingestion_type payload = IngestionType_value (J.ingestionType job) /\
    payload_configuration payload
    = (if truthy (J.configuration job) then default "" (J.configuration job) else "{}") /\
    (J.ingestionType job = SINGLE_DOCUMENT -> truthy (J.documentId job) = true ->
       exists doc,
         documentRepository db !! default "" (J.documentId job) = Some doc /\
         payload_document payload
         = Some (mkPayloadDocument (D.id doc) (D.title doc) (D.filePath doc)
                   (D.mimeType doc) (D.fileSize doc)) /\
         payload_documents payload = None) /\
    (J.ingestionType job = BATCH_DOCUMENTS ->
       payload_document payload = None /\ payload_documents payload = Some []) /\
    (J.ingestionType job = REPROCESS ->
       payload_document payload = None /\ payload_documents payload = None).
Proof.
  intros [Hjobs Hdocs] H. unfold startDispatch in H.
  destruct (findById jobId db) as [db0 [job|e]] eqn:Efind; [|discriminate H].
  apply findById_inv in Efind as [-> Hfound].
  pose proof (Hjobs _ _ Hfound) as Hid.
  exists job. split; [split; assumption|].
  rewrite beforePost_eq in H.
  destruct (truthy (J.documentId job)) eqn:Ht;
    [destruct (documentRepository db !! default "" (J.documentId job)) as [doc|] eqn:Hd|].
  - rewrite (mirror_found _ _ _ _ doc) in H by (cbn; assumption).
    cbn [snd] in H. unfold liftDb, prepareIngestionPayload in H. cbn [fst snd] in H.
    change (J.documentId (started clock job)) with (J.documentId job) in H.
    change (J.ingestionType (started clock job)) with (J.ingestionType job) in H.
    change (J.configuration (started clock job)) with (J.configuration job) in H.
    change (J.id (started clock job)) with (J.id job) in H.
    rewrite Ht in H. pose proof (Hdocs _ _ Hd) as Hdid.
    destruct (J.ingestionType job) eqn:Etype; cbn [bool_decide decide_rel andb] in H.
    + rewrite bool_decide_eq_true_2 in H by reflexivity. cbn [andb] in H.
      unfold bind in H.
      rewrite (documents_findById_found _
                 (DocumentsService.assignStatus DOC_PROCESSING (at_processed clock) doc)) in H
        by (cbn; rewrite Hdid; apply lookup_insert_eq).
      cbn in H. inversion H; subst; clear H. cbn.
      repeat split; try discriminate; try reflexivity.
      intros _ _. exists doc. repeat split; reflexivity.
    + rewrite bool_decide_eq_false_2 in H by discriminate. cbn [andb] in H.
      rewrite bool_decide_eq_true_2 in H by reflexivity.
      cbn in H. inversion H; subst; clear H. cbn.
      repeat split; try discriminate; reflexivity.
    + rewrite !bool_decide_eq_false_2 in H by discriminate. cbn [andb] in H.
      cbn in H. inversion H; subst; clear H. cbn.
      repeat split; try discriminate; reflexivity.
  - rewrite mirror_missing in H by (cbn; assumption).
    destruct (try_finally _ _ _); discriminate H.
  - rewrite mirror_no_document in H by (cbn; assumption).
    cbn [snd] in H. unfold liftDb, prepareIngestionPayload in H. cbn [fst snd] in H.
    change (J.documentId (started clock job)) with (J.documentId job) in H.
    change (J.ingestionType (started clock job)) with (J.ingestionType job) in H.
    change (J.configuration (started clock job)) with (J.configuration job) in H.
    change (J.id (started clock job)) with (J.id job) in H.
    rewrite Ht, andb_false_r in H.
    destruct (J.ingestionType job) eqn:Etype.
    + rewrite bool_decide_eq_false_2 in H by discriminate.
      cbn in H. inversion H; subst; clear H. cbn.
      repeat split; try discriminate; reflexivity.
    + rewrite bool_decide_eq_true_2 in H by reflexivity.
      cbn in H. inversion H; subst; clear H. cbn.
      repeat split; try discriminate; reflexivity.
    + rewrite bool_decide_eq_false_2 in H by discriminate.
      cbn in H. inversion H; subst; clear H. cbn.
      repeat split; try discriminate; reflexivity.
Qed.

Lemma dispatch_payload_witness :
  exists db1 job1 payload,
    startDispatch "job-1" sample_clock (sample_db PENDING 0 0) = (db1, inr (job1, payload)) /\
    job_id payload = "job-1" /\
    ingestion_type payload = "single_document" /\
    payload_configuration payload = "{}" /\
    payload_document payload
    = Some (mkPayloadDocument "doc-1" "Report" "/uploads/report.txt" "text/plain" 17).
Proof.
  destruct (startDispatch "job-1" sample_clock (sample_db PENDING 0 0))
    as [db1 [r|[job1 payload]]] eqn:Estart; [vm_compute in Estart; discriminate Estart|].
  destruct (dispatch_payload (sample_db PENDING 0 0) db1 "job-1" sample_clock job1 payload
              (sample_db_primaryKeys PENDING 0 0) Estart)
    as (job & [Hfound _] & Hid & Hty & Hcfg & Hsingle & _).
  vm_compute in Hfound. inversion Hfound; subst job; clear Hfound.
  exists db1, job1, payload. split; [reflexivity|]. split; [exact Hid|].
  split; [exact Hty|]. split; [exact Hcfg|].
  destruct (Hsingle eq_refl eq_refl) as (doc & Hd & Hp & _).
  vm_compute in Hd. inversion Hd; subst doc. exact Hp.
Defined.

(** ** The shape of the jobs of a reachable system *)

Lemma allJobs_insert (P : IngestionJob -> Prop) (db db' : Db) (k : string)
      (j : IngestionJob) :
  allJobs P db -> P j -> J.id j = k ->
  ingestionJobRepository db' = <[k := j]> (ingestionJobRepository db) ->
  allJobs P db'.
Proof.
  intros Hall Hj Hk E k' x. rewrite E, lookup_insert.
  case_decide; [intros [= <-]; split; [congruence | exact Hj] | apply Hall].
Qed.

Lemma allJobs_same (P : IngestionJob -> Prop) (db db' : Db) :
  allJobs P db -> ingestionJobRepository db' = ingestionJobRepository db -> allJobs P db'.
Proof. intros Hall E k x. rewrite E. apply Hall. Qed.

Lemma started_entityShape (clock : Clock) (j : IngestionJob) :
  jobShape j -> entityShape (started clock j).
Proof. intros [Hbase _]. split; [exact Hbase | cbn; eauto]. Qed.

Lemma completed_entityShape (clock : Clock) (data : string) (j : IngestionJob) :
  entityShape j -> entityShape (completed clock data j).
Proof.
  intros [(Hm & Hr & Hp) Hs]. split; [|exact Hs].
  split; [exact Hm|]. split; [exact Hr|]. right. reflexivity.
Qed.

Lemma completed_jobShape (clock : Clock) (data : string) (j : IngestionJob) :
  entityShape j -> jobShape (completed clock data j).
Proof.
  intros H. destruct (completed_entityShape clock data j H) as [Hbase Hs].
  split; [exact Hbase|]. cbn. repeat split; eauto.
Qed.

Lemma failed_jobShape (clock : Clock) (e : Exception) (j : IngestionJob) :
  entityShape j -> jobShape (failed clock e j).
Proof. intros [Hbase Hs]. split; [exact Hbase|]. cbn. repeat split; eauto. Qed.

Lemma create_cases (dto : CreateIngestionJobDto) (userId newId : string) (db : Db) :
  fst (create dto userId newId db) = db \/
  exists job,
    create dto userId newId db = (with_jobs (insert newId job) db, Ok job) /\
    J.id job = newId /\ jobShape job.
Proof.
  unfold create, bind. pose proof (validateIngestionJobDto_state dto db) as Hv.
  destruct (validateIngestionJobDto dto db) as [db0 [u|e0]]; cbn in Hv; subst db0;
    [|left; reflexivity].
  unfold gets. destruct (negb (bool_decide (userId ∈ userRepository db)));
    [left; reflexivity|].
  match goal with |- context [insertJob ?j db] =>
    destruct (insertJob_cases j db) as [(d & _ & _ & ->) | [_ ->]] end;
    [left; reflexivity|].
  right. eexists. split; [reflexivity|]. split; [reflexivity|].
  split; [split; [reflexivity|]; split; [cbn; lia | left; reflexivity]|].
  cbn. repeat split.
Qed.

Lemma retry_cases (id : string) (db : Db) :
  fst (retry id db) = db \/
  exists job job',
    ingestionJobRepository db !! id = Some job /\
    J.status job = FAILED /\ J.retryCount job < J.maxRetries job /\
    job' = set_completedAt None (set_startedAt None (set_errorMessage None
             (set_retryCount (J.retryCount job + 1) (set_status PENDING job)))) /\
    retry id db = (with_jobs (insert (J.id job) job') db, Ok job').
Proof.
  destruct (ingestionJobRepository db !! id) as [job|] eqn:Hfound.
  - destruct (decide (J.status job = FAILED /\ J.retryCount job < J.maxRetries job))
      as [[Hs Hlt]|Hnot].
    + right. exists job. eexists. repeat split; try eassumption.
      apply retry_permitted; assumption.
    + left. rewrite (retry_refused _ _ _ Hfound Hnot). reflexivity.
  - left. unfold retry, bind. rewrite (findById_missing _ _ Hfound). reflexivity.
Qed.

Lemma cancel_cases (id : string) (now : Z) (db : Db) :
  fst (cancel id now db) = db \/
  exists job,
    ingestionJobRepository db !! id = Some job /\
    cancel id now db
    = (with_jobs (insert (J.id job) (set_completedAt (Some now) (set_status CANCELLED job))) db,
       Ok (set_completedAt (Some now) (set_status CANCELLED job))).
Proof.
  destruct (cancel id now db) as [db' [job'|e]] eqn:E.
  - right. destruct (cancel_ok_inv _ _ _ _ _ E) as (job & Hfound & -> & ->).
    exists job. split; [exact Hfound | reflexivity].
  - left. revert E. unfold cancel, bind.
    destruct (findById id db) as [db0 [job|e0]] eqn:Efind.
    + apply findById_inv in Efind as [-> _].
      destruct (isCompleted job || isFailed job); [|rewrite saveJob_eq; discriminate].
      intros [= <- _]. reflexivity.
    + unfold findById, bind, gets in Efind.
      destruct (ingestionJobRepository db !! id); inversion Efind; subst.
      intros [= <- _]. reflexivity.
Qed.

Lemma step_shaped (s s' : System) (ev : Event) :
  shapedSystem s -> step s ev = Some s' -> shapedSystem s'.
Proof.
  intros [Hdb Haw] Hstep. destruct ev as [dto u newId|id|id now|k clock|k answer clock];
    cbn in Hstep.
  - case_bool_decide; [discriminate|].
    destruct (create_cases dto u newId (store s)) as [Hsame | (job & Hc & Hid & Hshape)].
    + destruct (create dto u newId (store s)) as [db' [job|e]]; cbn in Hsame; subst db';
        inversion Hstep; subst; split; assumption.
    + rewrite Hc in Hstep. inversion Hstep; subst s'. split; [|exact Haw].
      eapply allJobs_insert; [exact Hdb | exact Hshape | exact Hid | reflexivity].
  - destruct (retry_cases id (store s))
      as [Hsame | (job & job' & Hfound & Hs & Hlt & Hjob' & Hr)].
    + destruct (retry id (store s)) as [db' [job|e]]; cbn in Hsame; subst db';
        inversion Hstep; subst; split; assumption.
    + rewrite Hr in Hstep. inversion Hstep; subst s'. split; [|exact Haw].
      destruct (Hdb _ _ Hfound) as [_ [(Hm & Hrc & Hp) _]].
      eapply allJobs_insert; [exact Hdb | | | reflexivity]; subst job'.
      * split; [split; [exact Hm|]; split; [cbn; lia | exact Hp]|].
        cbn. repeat split.
      * reflexivity.
  - destruct (cancel_cases id now (store s)) as [Hsame | (job & Hfound & Hc)].
    + destruct (cancel id now (store s)) as [db' r]; cbn in Hsame; subst db'.
      inversion Hstep; subst; split; assumption.
    + rewrite Hc in Hstep. inversion Hstep; subst s'. split; [|exact Haw].
      destruct (Hdb _ _ Hfound) as [_ [Hbase _]].
      eapply allJobs_insert; [exact Hdb | | | reflexivity].
      * split; [exact Hbase | cbn; eauto].
      * reflexivity.
  - destruct (scheduled s !! k) as [jobId|]; [|discriminate].
    destruct (ingestionJobRepository (store s) !! jobId) as [job|] eqn:Hfound.
    + destruct (Hdb _ _ Hfound) as [_ Hshape].
      pose proof (started_entityShape clock job Hshape) as Hent.
      destruct (startDispatch_written (store s) jobId job clock Hfound)
        as [_ [(payload & Hsnd & Hj) | (r & e & Hsnd & Hj)]];
        destruct (startDispatch jobId clock (store s)) as [db' x];
        cbn [fst snd] in *; subst x; inversion Hstep; subst s'; split; cbn [store awaiting].
      * eapply allJobs_insert; [exact Hdb | | | exact Hj].
        -- split; [apply Hent | cbn; eauto].
        -- reflexivity.
      * intros t Ht. apply elem_of_app in Ht as [Ht|Ht]; [apply Haw, Ht|].
        apply list_elem_of_singleton in Ht as ->. exact Hent.
      * eapply allJobs_insert; [exact Hdb | | | exact Hj].
        -- apply failed_jobShape, Hent.
        -- reflexivity.
      * exact Haw.
    + unfold startDispatch in Hstep. rewrite (findById_missing _ _ Hfound) in Hstep.
      inversion Hstep; subst. split; assumption.
  - destruct (awaiting s !! k) as [task|] eqn:Ek; [|discriminate].
    assert (Hent : entityShape (fst task)).
    { apply Haw. eapply list_elem_of_lookup_2; eauto. }
    destruct (completeDispatch_written (store s) (fst task) answer clock)
      as (job' & Hj & _ & Hcases).
    destruct (completeDispatch (fst task) answer clock (store s)) as [db' r].
    cbn [fst] in Hj. inversion Hstep; subst s'. split; cbn [store awaiting].
    + destruct Hcases as [[data ->] | [[e ->] | (data & e & ->)]];
        (eapply allJobs_insert; [exact Hdb | | | exact Hj]); try reflexivity.
      * apply completed_jobShape, Hent.
      * apply failed_jobShape, Hent.
      * apply failed_jobShape, completed_entityShape, Hent.
    + intros t Ht. apply Haw. eapply list_elem_of_delete_inv; eauto.
Qed.

Lemma run_shaped (evs : list Event) (s s' : System) :
  shapedSystem s -> run s evs = Some s' -> shapedSystem s'.
Proof.
  revert s. induction evs as [|ev rest IH]; intros s Hs Hrun; cbn in Hrun.
  - inversion Hrun; subst. exact Hs.
  - destruct (step s ev) as [s1|] eqn:Estep; [|discriminate].
    eapply IH; [|exact Hrun]. eapply step_shaped; eauto.
Qed.

Lemma reachable_shaped (s : System) : reachable s -> shapedSystem s.
Proof.
  intros (documents & users & evs & Hrun). eapply run_shaped; [|exact Hrun].
  split.
  - intros k j H. cbn in H. rewrite lookup_empty in H. discriminate.
  - intros task H. cbn in H. apply elem_of_nil in H. contradiction.
Qed.

(** X13. In every system reachable from the empty job table, every stored
    job sits under its own id, has [maxRetries = 3], a [retryCount]
    between 0 and 3 and a [progress] of 0 or 100, and carries the fields of
    its status: a PENDING job has no timestamps and no error; a PROCESSING
    job has [startedAt]; a COMPLETED job has both timestamps, a result and
    [progress = 100]; a FAILED job has both timestamps and an error
    message; a CANCELLED job has [completedAt]. A job retried three times
    cannot be retried again. *)
Theorem reachable_jobs_shape (s : System) (id : string) (job : IngestionJob) :
  reachable s ->
  ingestionJobRepository (store s) !! id = Some job ->
  J.id job = id /\
  J.maxRetries job = 3 /\ 0 <= J.retryCount job <= 3 /\
  (J.progress job = 0 \/ J.progress job = 100) /\
  (J.status job = PENDING ->
     J.startedAt job = None /\ J.completedAt job = None /\ J.errorMessage job = None) /\
  (J.status job = PROCESSING -> is_Some (J.startedAt job)) /\
  (J.status job = COMPLETED ->
     is_Some (J.startedAt job) /\ is_Some (J.completedAt job) /\
     J.progress job = 100 /\ is_Some (J.result job)) /\
  (J.status job = FAILED ->
     is_Some (J.startedAt job) /\ is_Some (J.completedAt job) /\
     is_Some (J.errorMessage job)) /\
  (J.status job = CANCELLED -> is_Some (J.completedAt job)) /\
  (J.retryCount job = 3 ->
     retry id (store s) = (store s, Throw (BadRequestException "Job cannot be retried"))).
Proof.
  intros Hreach Hfound.
  destruct (reachable_shaped s Hreach) as [Hdb _].
  destruct (Hdb _ _ Hfound) as [Hid [(Hm & Hrc & Hp) Hstatus]].
  split; [exact Hid|]. split; [exact Hm|]. split; [exact Hrc|]. split; [exact Hp|].
  do 5 (split; [intros Hs; rewrite Hs in Hstatus; exact Hstatus|]).
  intros H3. apply retry_refused with (job := job); [exact Hfound|]. lia.
Qed.

Lemma reachable_jobs_shape_witness :
  exists s job,
    run sample_initial sample_failed_then_retried = Some s /\
    ingestionJobRepository (store s) !! "job-1" = Some job /\
    J.maxRetries job = 3 /\ 0 <= J.retryCount job <= 3.
Proof.
  destruct (run sample_initial sample_failed_then_retried) as [s|] eqn:Erun;
    [|vm_compute in Erun; discriminate Erun].
  destruct (ingestionJobRepository (store s) !! "job-1") as [job|] eqn:Ejob.
  2:{ vm_compute in Erun. inversion Erun; subst s. vm_compute in Ejob. discriminate Ejob. }
  exists s, job. split; [reflexivity|]. split; [exact Ejob|].
  destruct (reachable_jobs_shape s "job-1" job) as (_ & Hm & Hrc & _);
    [|exact Ejob|split; assumption].
  exists {[ "doc-1" := sample_document UPLOADED ]}, {[ "user-1" ]},
    sample_failed_then_retried.
  exact Erun.
Defined.

Lemma elem_of_completedJobs (db : Db) (j : IngestionJob) :
  j ∈ completedJobs db ->
  exists k, ingestionJobRepository db !! k = Some j /\ J.status j = COMPLETED.
Proof.
  unfold completedJobs, rows. intros H.
  apply list_elem_of_In, filter_In in H as [Hin Hc].
  apply list_elem_of_In, list_elem_of_fmap in Hin as ([k x] & -> & Hkx).
  apply elem_of_map_to_list in Hkx. exists k. split; [exact Hkx|].
  apply andb_prop in Hc as [Hc _].
  unfold isCompleted in Hc. apply bool_decide_eq_true in Hc. exact Hc.
Qed.

(** X14. On the store of a reachable system every COMPLETED job has both
    timestamps, so [averageDuration] there is the mean of
    [completedAt - startedAt] over the COMPLETED jobs, in seconds, rounded
    down — the divisor never counts a job that the sum skipped. *)
Theorem reachable_averageDuration (s : System) :
  reachable s ->
  (forall j, j ∈ completedJobs (store s) -> is_Some (duration j)) /\
  averageDuration (getIngestionStats (store s)) = Qfloor (averageDuration_spec (store s)).
Proof.
  intros Hreach. destruct (reachable_shaped s Hreach) as [Hdb _].
  assert (Htimed : forall j, j ∈ completedJobs (store s) -> is_Some (duration j)).
  { intros j Hj. destruct (elem_of_completedJobs _ _ Hj) as (k & Hk & Hs).
    destruct (Hdb _ _ Hk) as [_ [_ Hstatus]]. rewrite Hs in Hstatus.
    destruct Hstatus as ([st Hst] & [c Hc] & _). unfold duration. rewrite Hst, Hc. eauto. }
  split; [exact Htimed|].
  rewrite averageDuration_general. unfold averageDuration_spec, timedJobs.
  rewrite filter_all.
  2:{ intros j Hj. apply bool_decide_eq_true. apply Htimed, Hj. }
  destruct (completedJobs (store s)) as [|j rest]; reflexivity.
Qed.

Lemma reachable_averageDuration_witness :
  exists s,
    run sample_initial sample_completed_run = Some s /\
    averageDuration (getIngestionStats (store s)) = Qfloor (averageDuration_spec (store s)) /\
    averageDuration (getIngestionStats (store s)) = 5.
Proof.
  destruct (run sample_initial sample_completed_run) as [s|] eqn:Erun;
    [|vm_compute in Erun; discriminate Erun].
  exists s. split; [reflexivity|]. split.
  - apply reachable_averageDuration.
    exists {[ "doc-1" := sample_document UPLOADED ]}, {[ "user-1" ]}, sample_completed_run.
    exact Erun.
  - vm_compute in Erun. inversion Erun; subst s. vm_compute. reflexivity.
Defined.

(** ** End to end *)

Lemma run_app (evs1 evs2 : list Event) (s : System) :
  run s (evs1 ++ evs2)
  = match run s evs1 with
    | Some s1 => run s1 evs2
    | None => None
    end.
Proof.
  revert s. induction evs1 as [|ev rest IH]; intros s; cbn; [reflexivity|].
  destruct (step s ev); [apply IH | reflexivity].
Qed.

(** A valid single-document request, created and dispatched up to the
    backend call. *)
Lemma run_create_dispatch
      (documents : gmap string Document) (users : gset string)
      (dto : CreateIngestionJobDto) (userId newId d : string) (doc : Document) (c1 : Clock) :
  (forall k x, documents !! k = Some x -> D.id x = k) ->
  Dto.ingestionType dto = SINGLE_DOCUMENT ->
  Dto.documentId dto = Some d -> d <> "" ->
  documents !! d = Some doc -> userId ∈ users ->
  exists s payload,
    run (initial documents users) [Create dto userId newId; DispatchStarts 0 c1] = Some s /\
    ingestionJobRepository (store s) = {[ newId := started c1 (createdJob dto userId newId) ]} /\
    documentRepository (store s)
    = <[d := DocumentsService.assignStatus DOC_PROCESSING (at_processed c1) doc]> documents /\
    userRepository (store s) = users /\
    scheduled s = [] /\
    awaiting s = [(started c1 (createdJob dto userId newId), payload)].
Proof.
  intros Hpk Htype Hdoc Hne Hfound Huser.
  assert (Htruthy : truthy (Dto.documentId dto) = true).
  { rewrite Hdoc. cbn. apply String.eqb_neq in Hne. rewrite Hne. reflexivity. }
  assert (Hvalid : validateIngestionJobDto dto (mkDb ∅ documents users)
                   = (mkDb ∅ documents users, Ok tt)).
  { rewrite (validate_single _ _ Htype), Htruthy, Hdoc. cbn. rewrite Hfound. reflexivity. }
  cbn [run]. unfold step at 1. cbn [initial store scheduled awaiting].
  rewrite bool_decide_eq_false_2
    by (cbn; rewrite lookup_empty; intros [x Hx]; discriminate Hx).
  assert (Href : forall d0, Dto.documentId dto = Some d0 ->
                   is_Some (documentRepository (mkDb ∅ documents users) !! d0)).
  { intros d0 Hd0. rewrite Hdoc in Hd0. injection Hd0 as <-. cbn. eauto. }
  rewrite (create_valid _ _ newId _ Hvalid Huser Href).
  fold (createdJob dto userId newId).
  set (db0 := with_jobs (insert newId (createdJob dto userId newId)) (mkDb ∅ documents users)).
  unfold step. cbn [store scheduled awaiting app lookup list_lookup J.id createdJob].
  assert (Hrow : ingestionJobRepository db0 !! newId = Some (createdJob dto userId newId))
    by (cbn; apply lookup_insert_eq).
  destruct (startDispatch_reaches db0 newId (createdJob dto userId newId) c1 Hrow)
    as (db1 & payload & Hstart & Hjobs & _).
  { intros _. cbn. rewrite Hdoc. cbn. eauto. }
  destruct (startDispatch_awaiting_inv _ _ _ _ _ _ Hstart)
    as (job & Hjob & _ & _ & Hdocs & _).
  rewrite Hrow in Hjob. inversion Hjob; subst job; clear Hjob.
  destruct (Hdocs Htruthy) as (doc' & Hdoc' & Hdocs1).
  cbn in Hdoc'. rewrite Hdoc in Hdoc'. cbn in Hdoc'. rewrite Hfound in Hdoc'.
  inversion Hdoc'; subst doc'; clear Hdoc'.
  destruct (startDispatch_written db0 newId (createdJob dto userId newId) c1 Hrow)
    as [Husers _].
  rewrite Hstart in *. cbn [fst] in Husers.
  eexists. exists payload. split; [reflexivity|]. cbn [store scheduled awaiting].
  split; [rewrite Hjobs; cbn; rewrite insert_insert_eq; reflexivity|].
  split; [rewrite Hdocs1, (Hpk _ _ Hfound); reflexivity|].
  split; [exact Husers|]. split; reflexivity.
Qed.

(** X15. End to end, success: from an empty job table, a valid
    single-document request by a known user, the start of its dispatch and
    a successful backend answer leave exactly one job, COMPLETED, with
    [progress = 100], the backend response as [result], [startedAt] and
    [completedAt] the instants of the two halves and [retryCount = 0]; the
    document is PROCESSED with [lastProcessedAt] set, and no dispatch is
    left scheduled or awaiting. *)
Theorem end_to_end_success
        (documents : gmap string Document) (users : gset string)
        (dto : CreateIngestionJobDto) (userId newId d : string) (doc : Document)
        (c1 c2 : Clock) (data : string) :
  (forall k x, documents !! k = Some x -> D.id x = k) ->
  Dto.ingestionType dto = SINGLE_DOCUMENT ->
  Dto.documentId dto = Some d -> d <> "" ->
  documents !! d = Some doc -> userId ∈ users ->
  exists s job doc',
    run (initial documents users)
      [Create dto userId newId; DispatchStarts 0 c1; BackendAnswers 0 (Ok data) c2]
    = Some s /\
    ingestionJobRepository (store s) = {[ newId := job ]} /\
    J.status job = COMPLETED /\ J.progress job = 100 /\ J.result job = Some data /\
    J.startedAt job = Some (at_start c1) /\ J.completedAt job = Some (at_success c2) /\
    J.retryCount job = 0 /\ J.triggeredById job = Some userId /\
    documentRepository (store s) !! d = Some doc' /\
    D.status doc' = PROCESSED /\ D.lastProcessedAt doc' = Some (at_processed c2) /\
    scheduled s = [] /\ awaiting s = [].
Proof.
  intros Hpk Htype Hdoc Hne Hfound Huser.
  destruct (run_create_dispatch documents users dto userId newId d doc c1
              Hpk Htype Hdoc Hne Hfound Huser)
    as (s1 & payload & Hrun & Hjobs & Hdocs & Husers & Hsched & Hawait).
  change [Create dto userId newId; DispatchStarts 0 c1; BackendAnswers 0 (Ok data) c2]
    with ([Create dto userId newId; DispatchStarts 0 c1]
            ++ [BackendAnswers 0 (Ok data) c2])%list.
  rewrite run_app, Hrun. cbn [run]. unfold step. rewrite Hawait. cbn [lookup list_lookup fst].
  assert (Hd1 : documentRepository (store s1)
                  !! default "" (J.documentId (started c1 (createdJob dto userId newId)))
                = Some (DocumentsService.assignStatus DOC_PROCESSING (at_processed c1) doc)).
  { cbn. rewrite Hdoc, Hdocs. cbn. apply lookup_insert_eq. }
  assert (Htruthy : truthy (J.documentId (started c1 (createdJob dto userId newId))) = true).
  { cbn. rewrite Hdoc. cbn. apply String.eqb_neq in Hne. rewrite Hne. reflexivity. }
  destruct (completeDispatch_success (store s1) (started c1 (createdJob dto userId newId))
              data c2) as (db2 & Hdone & Hjobs2 & _ & Hdb2); [eauto|].
  rewrite Hdone. rewrite (Hdb2 _ Htruthy Hd1).
  do 3 eexists. split; [reflexivity|]. cbn [store scheduled awaiting].
  split; [cbn; rewrite Hjobs; apply insert_singleton_eq|].
  repeat (split; [reflexivity|]).
  split; [cbn; rewrite (Hpk _ _ Hfound); apply lookup_insert_eq|].
  split; [reflexivity|]. split; [reflexivity|]. split; [exact Hsched | reflexivity].
Qed.

Lemma end_to_end_success_witness :
  exists s job doc',
    run sample_initial sample_completed_run = Some s /\
    ingestionJobRepository (store s) = {[ "job-1" := job ]} /\
    J.status job = COMPLETED /\ J.result job = Some "accepted" /\
    documentRepository (store s) !! "doc-1" = Some doc' /\ D.status doc' = PROCESSED.
Proof.
  destruct (end_to_end_success {[ "doc-1" := sample_document UPLOADED ]} {[ "user-1" ]}
              sample_dto "user-1" "job-1" "doc-1" (sample_document UPLOADED)
              sample_clock sample_clock "accepted")
    as (s & job & doc' & Hrun & Hjobs & Hs & _ & Hr & _ & _ & _ & _ & Hd & Hds & _).
  - intros k x H. apply lookup_singleton_Some in H as [<- <-]. reflexivity.
  - reflexivity.
  - reflexivity.
  - discriminate.
  - reflexivity.
  - vm_compute. reflexivity.
  - exists s, job, doc'. repeat (split; [assumption|]). exact Hds.
Defined.

(** X16. End to end, failure and retry: when the backend call of the first
    dispatch throws and the job is then retried, the one job is PENDING
    again with [retryCount = 1] and error and timestamps cleared, and a new
    dispatch of it is scheduled; the document stays in status ERROR until
    that dispatch starts. *)
Theorem end_to_end_failure_then_retry
        (documents : gmap string Document) (users : gset string)
        (dto : CreateIngestionJobDto) (userId newId d : string) (doc : Document)
        (c1 c2 : Clock) (e : Exception) :
  (forall k x, documents !! k = Some x -> D.id x = k) ->
  Dto.ingestionType dto = SINGLE_DOCUMENT ->
  Dto.documentId dto = Some d -> d <> "" ->
  documents !! d = Some doc -> userId ∈ users ->
  exists s job doc',
    run (initial documents users)
      [Create dto userId newId; DispatchStarts 0 c1; BackendAnswers 0 (Throw e) c2;
       Retry newId]
    = Some s /\
    ingestionJobRepository (store s) = {[ newId := job ]} /\
    J.status job = PENDING /\ J.retryCount job = 1 /\ J.maxRetries job = 3 /\
    J.errorMessage job = None /\ J.startedAt job = None /\ J.completedAt job = None /\
    J.progress job = 0 /\
    documentRepository (store s) !! d = Some doc' /\ D.status doc' = ERROR /\
    scheduled s = [newId] /\ awaiting s = [].
Proof.
  intros Hpk Htype Hdoc Hne Hfound Huser.
  destruct (run_create_dispatch documents users dto userId newId d doc c1
              Hpk Htype Hdoc Hne Hfound Huser)
    as (s1 & payload & Hrun & Hjobs & Hdocs & Husers & Hsched & Hawait).
  change [Create dto userId newId; DispatchStarts 0 c1; BackendAnswers 0 (Throw e) c2;
          Retry newId]
    with ([Create dto userId newId; DispatchStarts 0 c1]
            ++ [BackendAnswers 0 (Throw e) c2; Retry newId])%list.
  rewrite run_app, Hrun. cbn [run]. unfold step at 1.
  rewrite Hawait. cbn [lookup list_lookup fst].
  assert (Hd1 : documentRepository (store s1)
                  !! default "" (J.documentId (started c1 (createdJob dto userId newId)))
                = Some (DocumentsService.assignStatus DOC_PROCESSING (at_processed c1) doc)).
  { cbn. rewrite Hdoc, Hdocs. cbn. apply lookup_insert_eq. }
  assert (Htruthy : truthy (J.documentId (started c1 (createdJob dto userId newId))) = true).
  { cbn. rewrite Hdoc. cbn. apply String.eqb_neq in Hne. rewrite Hne. reflexivity. }
  destruct (completeDispatch_failure (store s1) (started c1 (createdJob dto userId newId))
              e c2) as (db2 & Hdone & _ & Hdb2); [eauto|].
  rewrite Hdone. rewrite (Hdb2 _ Htruthy Hd1).
  unfold step. cbn [store scheduled awaiting].
  erewrite retry_permitted;
    [| cbn; apply lookup_insert_eq | reflexivity | cbn; lia].
  do 3 eexists. split; [reflexivity|]. cbn [store scheduled awaiting].
  split; [cbn; rewrite insert_insert_eq, Hjobs; apply insert_singleton_eq|].
  repeat (split; [reflexivity|]).
  split; [cbn; rewrite (Hpk _ _ Hfound); apply lookup_insert_eq|].
  split; [reflexivity|]. split; [rewrite Hsched; reflexivity | reflexivity].
Qed.

Lemma end_to_end_failure_then_retry_witness :
  exists s job,
    run sample_initial sample_failed_then_retried = Some s /\
    ingestionJobRepository (store s) = {[ "job-1" := job ]} /\
    J.status job = PENDING /\ J.retryCount job = 1 /\ scheduled s = ["job-1"].
Proof.
  destruct (end_to_end_failure_then_retry
              {[ "doc-1" := sample_document UPLOADED ]} {[ "user-1" ]}
              sample_dto "user-1" "job-1" "doc-1" (sample_document UPLOADED)
              sample_clock sample_clock (AxiosError "timeout of 30000ms exceeded"))
    as (s & job & doc' & Hrun & Hjobs & Hs & Hrc & _ & _ & _ & _ & _ & _ & _ & Hsched & _).
  - intros k x H. apply lookup_singleton_Some in H as [<- <-]. reflexivity.
  - reflexivity.
  - reflexivity.
  - discriminate.
  - reflexivity.
  - vm_compute. reflexivity.
  - exists s, job. repeat (split; [assumption|]). exact Hsched.
Defined.

(** * Further properties of the demo controller *)

Lemma js_slice_window {A} (l : list A) (start n : Z) :
  0 <= start -> 0 <= n ->
  js_slice l start (start + n) = take (Z.to_nat n) (drop (Z.to_nat start) l).
Proof.
  intros Hs Hn. unfold js_slice.
  rewrite (proj2 (Z.ltb_ge start 0)) by lia.
  rewrite (proj2 (Z.ltb_ge (start + n) 0)) by lia.
  destruct (Z.le_gt_cases (Z.of_nat (length l)) start) as [Hbig | Hsmall].
  - rewrite Z.min_r by lia.
    rewrite !drop_ge by lia. rewrite !take_nil. reflexivity.
  - rewrite (Z.min_l start) by lia.
    destruct (Z.le_gt_cases (start + n) (Z.of_nat (length l))) as [Hin | Hout].
    + rewrite Z.min_l by lia. f_equal. lia.
    + rewrite Z.min_r by lia.
      rewrite !take_ge; [reflexivity | rewrite length_drop; lia | rewrite length_drop; lia].
Qed.

Lemma js_slice_page_zero {A} (l : list A) (limit : Z) :
  0 <= limit -> js_slice l (- limit) 0 = [].
Proof.
  intros Hl. unfold js_slice. cbn [Z.ltb Z.compare].
  rewrite Z.min_l by lia.
  destruct (- limit <? 0) eqn:E.
  - replace (Z.to_nat (0 - Z.max (Z.of_nat (length l) + - limit) 0)) with 0%nat by lia.
    reflexivity.
  - apply Z.ltb_ge in E. replace limit with 0 by lia. cbn.
    rewrite Z.min_l by lia. reflexivity.
Qed.

Lemma demo_filtered_elem (status ingestionType userId : option string)
      (jobs : list IngestionJob) (j : IngestionJob) :
  j ∈ demo_filtered status ingestionType userId jobs <->
  j ∈ jobs /\
  (truthy status = true -> Some (IngestionStatus_value (J.status j)) = status) /\
  (truthy ingestionType = true ->
     Some (IngestionType_value (J.ingestionType j)) = ingestionType) /\
  (truthy userId = true -> J.triggeredById j = userId).
Proof.
  unfold demo_filtered.
  destruct (truthy status), (truthy ingestionType), (truthy userId);
    rewrite ?list_elem_of_In, ?filter_In, ?bool_decide_eq_true, <- ?list_elem_of_In;
    intuition discriminate.
Qed.

(** X17. The demo controller's [findAll], for a page number of at least 1
    and a non-negative limit, returns the jobs that pass every given
    filter, in their order, from position [(page - 1) * limit] on and at
    most [limit] of them; [total] counts all the jobs that pass the
    filters, whatever the page. Page 0 is always empty. *)
Theorem demo_findAll_page
        (page limit : Z) (status ingestionType userId : option string)
        (jobs : list IngestionJob) :
  0 <= limit ->
  (1 <= page ->
     page_jobs (demo_findAll page limit status ingestionType userId jobs)
     = take (Z.to_nat limit)
         (drop (Z.to_nat ((page - 1) * limit))
            (demo_filtered status ingestionType userId jobs)) /\
     (length (page_jobs (demo_findAll page limit status ingestionType userId jobs))
      <= Z.to_nat limit)%nat /\
     forall j,
       j ∈ page_jobs (demo_findAll page limit status ingestionType userId jobs) ->
       j ∈ jobs /\
       (truthy status = true -> Some (IngestionStatus_value (J.status j)) = status) /\
       (truthy ingestionType = true ->
          Some (IngestionType_value (J.ingestionType j)) = ingestionType) /\
       (truthy userId = true -> J.triggeredById j = userId)) /\
  page_total (demo_findAll page limit status ingestionType userId jobs)
  = length (demo_filtered status ingestionType userId jobs) /\
  page_jobs (demo_findAll 0 limit status ingestionType userId jobs) = [].
Proof.
  intros Hlimit. split; [|split; [reflexivity|]].
  - intros Hpage.
    assert (E : page_jobs (demo_findAll page limit status ingestionType userId jobs)
                = take (Z.to_nat limit)
                    (drop (Z.to_nat ((page - 1) * limit))
                       (demo_filtered status ingestionType userId jobs))).
    { unfold demo_findAll. cbn [page_jobs]. apply js_slice_window; [nia | exact Hlimit]. }
    rewrite E. split; [reflexivity|]. split.
    + rewrite length_take. lia.
    + intros j Hj. apply demo_filtered_elem.
      apply subseteq_take, subseteq_drop in Hj. exact Hj.
  - unfold demo_findAll. cbn [page_jobs].
    replace ((0 - 1) * limit) with (- limit) by lia.
    replace (- limit + limit) with 0 by lia.
    apply js_slice_page_zero. exact Hlimit.
Qed.

Lemma demo_findAll_page_witness :
  page_jobs (demo_findAll 2 1 (Some "completed") None None
               [timed_job "job-1" 0 1; sample_job FAILED 0 0; timed_job "job-3" 0 2])
  = [timed_job "job-3" 0 2] /\
  page_total (demo_findAll 2 1 (Some "completed") None None
                [timed_job "job-1" 0 1; sample_job FAILED 0 0; timed_job "job-3" 0 2])
  = 2%nat.
Proof.
  split; [|reflexivity].
  rewrite (proj1 (proj1 (demo_findAll_page 2 1 (Some "completed") None None
                    [timed_job "job-1" 0 1; sample_job FAILED 0 0; timed_job "job-3" 0 2]
                    ltac:(lia)) ltac:(lia))).
  reflexivity.
Defined.

(** X18. The demo controller's [cancel] changes the array exactly when the
    first job with the given id is PENDING or PROCESSING: it then replaces
    that one element, in place, by the job with status CANCELLED and
    [completedAt] set, and leaves the length and every other element —
    also later elements with the same id — as they were. In every other
    case it answers with an error object and the array is unchanged. *)
Theorem demo_cancel_in_place
        (id : string) (now : Z) (jobs : list IngestionJob) :
  (forall i job,
     list_find (fun j => J.id j = id) jobs = Some (i, job) ->
     J.status job = PENDING \/ J.status job = PROCESSING ->
     fst (IngestionDemoController.cancel id now jobs)
     = <[i := set_completedAt (Some now) (set_status CANCELLED job)]> jobs /\
     length (fst (IngestionDemoController.cancel id now jobs)) = length jobs /\
     (forall k, k <> i ->
        fst (IngestionDemoController.cancel id now jobs) !! k = jobs !! k)) /\
  ((forall i job,
      list_find (fun j => J.id j = id) jobs = Some (i, job) ->
      J.status job <> PENDING /\ J.status job <> PROCESSING) ->
   exists message error statusCode,
     IngestionDemoController.cancel id now jobs
     = (jobs, DemoError message error statusCode)).
Proof.
  split.
  - intros i job Hfind Hs. unfold IngestionDemoController.cancel. rewrite Hfind.
    assert (E : bool_decide (J.status job = COMPLETED) || bool_decide (J.status job = FAILED)
                || bool_decide (J.status job = CANCELLED) = false)
      by (destruct Hs as [-> | ->]; reflexivity).
    rewrite E. cbn [fst]. split; [reflexivity|].
    split; [apply length_insert|].
    intros k Hk. apply list_lookup_insert_ne. congruence.
  - intros Hnot. unfold IngestionDemoController.cancel.
    destruct (list_find (fun j => J.id j = id) jobs) as [[i job]|] eqn:Hfind.
    + destruct (Hnot i job eq_refl) as [H1 H2].
      destruct (J.status job); try congruence; cbn; eauto.
    + eauto.
Qed.

Lemma demo_cancel_in_place_witness :
  fst (IngestionDemoController.cancel "job-1" 9000
         [timed_job "job-0" 0 1; sample_job PROCESSING 0 0; sample_job PENDING 0 0])
  = [timed_job "job-0" 0 1;
     set_completedAt (Some 9000) (set_status CANCELLED (sample_job PROCESSING 0 0));
     sample_job PENDING 0 0].
Proof.
  rewrite (proj1 (proj1 (demo_cancel_in_place "job-1" 9000
                    [timed_job "job-0" 0 1; sample_job PROCESSING 0 0; sample_job PENDING 0 0])
                    1%nat (sample_job PROCESSING 0 0) eq_refl
                    (or_intror eq_refl))).
  reflexivity.
Defined.

(** * Jobs are never deleted and keep their identity *)

Lemma sameIdentity_refl (a : IngestionJob) : sameIdentity a a.
Proof. repeat split. Qed.

Lemma sameIdentity_sym (a b : IngestionJob) : sameIdentity a b -> sameIdentity b a.
Proof. unfold sameIdentity. intuition congruence. Qed.

Lemma sameIdentity_trans (a b c : IngestionJob) :
  sameIdentity a b -> sameIdentity b c -> sameIdentity a c.
Proof. unfold sameIdentity. intuition congruence. Qed.

(** Writing a row of the same identity under its id keeps everything. *)
Lemma update_keeps_identity (s s' : System) (k : string) (x : IngestionJob) :
  identifiedSystem s ->
  J.id x = k ->
  (forall old, ingestionJobRepository (store s) !! k = Some old -> sameIdentity old x) ->
  ingestionJobRepository (store s') = <[k := x]> (ingestionJobRepository (store s)) ->
  (forall task, task ∈ awaiting s' ->
     task ∈ awaiting s \/ fst task = x) ->
  identifiedSystem s' /\ keepsJobs s s'.
Proof.
  intros [Hpk Haw] Hk Hold E Haw'. split; [split|].
  - intros k' j. rewrite E, lookup_insert.
    case_decide; [intros [= <-]; congruence | apply Hpk].
  - intros task Ht. rewrite E. destruct (Haw' task Ht) as [Hin | Hx].
    + destruct (Haw task Hin) as (stored & Hs & Hsame).
      rewrite lookup_insert. case_decide as Hkey.
      * exists x. split; [reflexivity|].
        apply sameIdentity_trans with stored; [|exact Hsame].
        apply sameIdentity_sym, Hold. rewrite Hkey. exact Hs.
      * exists stored. split; assumption.
    + rewrite Hx, Hk, lookup_insert_eq. exists x. split; [reflexivity|].
      apply sameIdentity_refl.
  - intros id job Hfound. rewrite E, lookup_insert. case_decide as Hkey.
    + exists x. split; [reflexivity|]. apply Hold. rewrite Hkey. exact Hfound.
    + exists job. split; [exact Hfound | apply sameIdentity_refl].
Qed.

Lemma unchanged_keeps_identity (s s' : System) :
  identifiedSystem s ->
  store s' = store s ->
  (forall task, task ∈ awaiting s' -> task ∈ awaiting s) ->
  identifiedSystem s' /\ keepsJobs s s'.
Proof.
  intros [Hpk Haw] E Haw'. split; [split|].
  - rewrite E. exact Hpk.
  - intros task Ht. rewrite E. apply Haw, Haw', Ht.
  - intros id job Hfound. rewrite E. exists job. split; [exact Hfound|].
    apply sameIdentity_refl.
Qed.

Lemma step_keeps_identity (s s' : System) (ev : Event) :
  identifiedSystem s -> step s ev = Some s' -> identifiedSystem s' /\ keepsJobs s s'.
Proof.
  intros Hs Hstep. pose proof Hs as [Hpk Haw].
  destruct ev as [dto u newId|id|id now|k clock|k answer clock]; cbn in Hstep.
  - case_bool_decide as Hfresh; [discriminate|].
    destruct (create_cases dto u newId (store s)) as [Hsame | (job & Hc & Hid & _)].
    + destruct (create dto u newId (store s)) as [db' [job|e]]; cbn in Hsame; subst db';
        inversion Hstep; subst s'; apply unchanged_keeps_identity; auto.
    + rewrite Hc in Hstep. inversion Hstep; subst s'.
      apply (update_keeps_identity s _ newId job); auto.
      intros old Hold. exfalso. apply Hfresh. eauto.
  - destruct (retry_cases id (store s))
      as [Hsame | (job & job' & Hfound & _ & _ & Hjob' & Hr)].
    + destruct (retry id (store s)) as [db' [job|e]]; cbn in Hsame; subst db';
        inversion Hstep; subst s'; apply unchanged_keeps_identity; auto.
    + rewrite Hr in Hstep. inversion Hstep; subst s'.
      pose proof (Hpk _ _ Hfound) as Hid.
      apply (update_keeps_identity s _ (J.id job) job'); auto.
      * subst job'. reflexivity.
      * intros old Hold. rewrite Hid, Hfound in Hold. inversion Hold; subst old.
        subst job'. repeat split.
  - destruct (cancel_cases id now (store s)) as [Hsame | (job & Hfound & Hc)].
    + destruct (cancel id now (store s)) as [db' r]; cbn in Hsame; subst db'.
      inversion Hstep; subst s'; apply unchanged_keeps_identity; auto.
    + rewrite Hc in Hstep. inversion Hstep; subst s'.
      pose proof (Hpk _ _ Hfound) as Hid.
      apply (update_keeps_identity s _ (J.id job)
               (set_completedAt (Some now) (set_status CANCELLED job))); auto.
      intros old Hold. rewrite Hid, Hfound in Hold. inversion Hold; subst old.
      repeat split.
  - destruct (scheduled s !! k) as [jobId|]; [|discriminate].
    destruct (ingestionJobRepository (store s) !! jobId) as [job|] eqn:Hfound.
    + pose proof (Hpk _ _ Hfound) as Hid.
      destruct (startDispatch_written (store s) jobId job clock Hfound)
        as [_ [(payload & Hsnd & Hj) | (r & e & Hsnd & Hj)]];
        destruct (startDispatch jobId clock (store s)) as [db' x];
        cbn [fst snd] in *; subst x; inversion Hstep; subst s'.
      * apply (update_keeps_identity s _ (J.id job) (started clock job)); auto.
        -- intros old Hold. rewrite Hid, Hfound in Hold. inversion Hold; subst old.
           repeat split.
        -- cbn [awaiting]. intros t Ht. apply elem_of_app in Ht as [Ht|Ht]; [left; exact Ht|].
           apply list_elem_of_singleton in Ht as ->. right. reflexivity.
      * apply (update_keeps_identity s _ (J.id job) (failed clock e (started clock job)));
          auto.
        intros old Hold. rewrite Hid, Hfound in Hold. inversion Hold; subst old.
        repeat split.
    + unfold startDispatch in Hstep. rewrite (findById_missing _ _ Hfound) in Hstep.
      inversion Hstep; subst s'. apply unchanged_keeps_identity; auto.
  - destruct (awaiting s !! k) as [task|] eqn:Ek; [|discriminate].
    assert (Hin : task ∈ awaiting s) by (eapply list_elem_of_lookup_2; eauto).
    destruct (Haw task Hin) as (stored & Hstored & Hsame).
    destruct (completeDispatch_written (store s) (fst task) answer clock)
      as (job' & Hj & _ & Hcases).
    destruct (completeDispatch (fst task) answer clock (store s)) as [db' r].
    cbn [fst] in Hj. inversion Hstep; subst s'.
    assert (Hnew : sameIdentity (fst task) job')
      by (destruct Hcases as [[data ->] | [[e ->] | (data & e & ->)]]; repeat split).
    apply (update_keeps_identity s _ (J.id (fst task)) job'); auto.
    + symmetry. apply Hnew.
    + intros old Hold. rewrite Hstored in Hold. inversion Hold; subst old.
      apply sameIdentity_trans with (fst task); assumption.
    + cbn [awaiting]. intros t Ht. left. eapply list_elem_of_delete_inv; eauto.
Qed.

Lemma run_keeps_identity (evs : list Event) (s s' : System) :
  identifiedSystem s -> run s evs = Some s' -> identifiedSystem s' /\ keepsJobs s s'.
Proof.
  revert s. induction evs as [|ev rest IH]; intros s Hs Hrun; cbn in Hrun.
  - inversion Hrun; subst. split; [exact Hs|].
    intros id job H. exists job. split; [exact H | apply sameIdentity_refl].
  - destruct (step s ev) as [s1|] eqn:Estep; [|discriminate].
    destruct (step_keeps_identity _ _ _ Hs Estep) as [Hs1 Hk1].
    destruct (IH _ Hs1 Hrun) as [Hs' Hk']. split; [exact Hs'|].
    intros id job H. destruct (Hk1 _ _ H) as (j1 & H1 & Hsame1).
    destruct (Hk' _ _ H1) as (j2 & H2 & Hsame2).
    exists j2. split; [exact H2|]. apply sameIdentity_trans with j1; assumption.
Qed.

Lemma reachable_identified (s : System) : reachable s -> identifiedSystem s.
Proof.
  intros (documents & users & evs & Hrun).
  apply (run_keeps_identity evs (initial documents users)); [|exact Hrun].
  split.
  - intros k j H. cbn in H. rewrite lookup_empty in H. discriminate.
  - intros task H. cbn in H. apply elem_of_nil in H. contradiction.
Qed.

(** X19. No request and no dispatch ever deletes a job or changes what it
    is: along any run from a reachable system, every stored job is still
    stored under its id afterwards, with the same [id], [name],
    [description], [ingestionType], [configuration], [maxRetries],
    [triggeredBy], [documentId] and [logs] — a completion written from a
    stale in-memory entity included. *)
Theorem jobs_keep_identity (s s' : System) (evs : list Event) (id : string) (job : IngestionJob) :
  reachable s ->
  run s evs = Some s' ->
  ingestionJobRepository (store s) !! id = Some job ->
  exists job',
    ingestionJobRepository (store s') !! id = Some job' /\
    J.id job' = id /\ J.name job' = J.name job /\ J.description job' = J.description job /\
    J.ingestionType job' = J.ingestionType job /\
    J.configuration job' = J.configuration job /\
    J.maxRetries job' = J.maxRetries job /\
    J.triggeredById job' = J.triggeredById job /\
    J.documentId job' = J.documentId job /\ J.logs job' = J.logs job.
Proof.
  intros Hreach Hrun Hfound.
  pose proof (reachable_identified s Hreach) as Hs.
  destruct (run_keeps_identity evs s s' Hs Hrun) as [[Hpk' _] Hkeeps].
  destruct (Hkeeps _ _ Hfound) as (job' & Hfound' & Hsame).
  exists job'. split; [exact Hfound'|]. split; [apply Hpk'; exact Hfound'|].
  unfold sameIdentity in Hsame. intuition congruence.
Qed.

Lemma jobs_keep_identity_witness :
  exists s s' job job',
    run sample_initial [Create sample_dto "user-1" "job-1"] = Some s /\
    run s [DispatchStarts 0 sample_clock; Cancel "job-1" 2000;
           BackendAnswers 0 (Ok "accepted") sample_clock] = Some s' /\
    ingestionJobRepository (store s) !! "job-1" = Some job /\
    ingestionJobRepository (store s') !! "job-1" = Some job' /\
    J.ingestionType job' = J.ingestionType job /\ J.documentId job' = J.documentId job.
Proof.
  destruct (run sample_initial [Create sample_dto "user-1" "job-1"]) as [s|] eqn:Es;
    [|vm_compute in Es; discriminate Es].
  destruct (run s [DispatchStarts 0 sample_clock; Cancel "job-1" 2000;
                   BackendAnswers 0 (Ok "accepted") sample_clock]) as [s'|] eqn:Es'.
  2:{ vm_compute in Es. inversion Es; subst s. vm_compute in Es'. discriminate Es'. }
  destruct (ingestionJobRepository (store s) !! "job-1") as [job|] eqn:Ejob.
  2:{ vm_compute in Es. inversion Es; subst s. vm_compute in Ejob. discriminate Ejob. }
  assert (Hreach : reachable s).
  { exists {[ "doc-1" := sample_document UPLOADED ]}, {[ "user-1" ]},
      [Create sample_dto "user-1" "job-1"]. exact Es. }
  destruct (jobs_keep_identity s s' _ "job-1" job Hreach Es' Ejob)
    as (job' & Hfound & _ & _ & _ & Htype & _ & _ & _ & Hdoc & _).
  exists s, s', job, job'. repeat split; assumption.
Defined.

(** * Requests for a job that does not exist *)

(** X20. Every operation addressed to an id with no stored job — lookup,
    retry, cancel and the dispatch itself — throws
    NotFoundException('Ingestion job not found') and leaves the whole store
    as it was; the dispatch does not reach the backend, whose answer is
    irrelevant. *)
Theorem unknown_job_is_not_found (db : Db) (id : string) (now : Z)
    (backend : Backend) (clock : Clock) :
  ingestionJobRepository db !! id = None ->
  let notFound := NotFoundException "Ingestion job not found" in
  findById id db = (db, Throw notFound) /\
  retry id db = (db, Throw notFound) /\
  cancel id now db = (db, Throw notFound) /\
  triggerIngestion id backend clock db = (db, Throw notFound).
Proof.
  intros Hmissing notFound. pose proof (findById_missing db id Hmissing) as E.
  repeat split.
  - exact E.
  - unfold retry, bind. rewrite E. reflexivity.
  - unfold cancel, bind. rewrite E. reflexivity.
  - unfold triggerIngestion, bind. rewrite E. reflexivity.
Qed.

Lemma unknown_job_is_not_found_witness :
  ingestionJobRepository (sample_db PENDING 0 0) !! "job-404" = None /\
  triggerIngestion "job-404" (fun _ => Ok "accepted") sample_clock (sample_db PENDING 0 0)
  = (sample_db PENDING 0 0, Throw (NotFoundException "Ingestion job not found")).
Proof.
  assert (H : ingestionJobRepository (sample_db PENDING 0 0) !! "job-404" = None) by reflexivity.
  split; [exact H|].
  apply (unknown_job_is_not_found (sample_db PENDING 0 0) "job-404" 0 (fun _ => Ok "accepted") sample_clock H).
Defined.

(** * Referential integrity of the job table *)

Lemma create_referenced (dto : CreateIngestionJobDto) (userId newId : string)
      (db db' : Db) (job : IngestionJob) :
  create dto userId newId db = (db', Ok job) ->
  references (documentRepository db) job.
Proof.
  unfold create, bind. pose proof (validateIngestionJobDto_state dto db) as Hv.
  destruct (validateIngestionJobDto dto db) as [db0 [u|e0]]; cbn in Hv; subst db0;
    [|discriminate].
  unfold gets. destruct (negb (bool_decide (userId ∈ userRepository db)));
    [discriminate|].
  match goal with |- context [insertJob ?j db] =>
    destruct (insertJob_cases j db) as [(d & _ & _ & ->) | [Href ->]] end;
    [discriminate|].
  intros [= _ <-]. exact Href.
Qed.

Section DocumentsKept.
Variable docs0 : gmap string Document.

Lemma assign_kept (f : IngestionJob -> IngestionJob) :
  preserves (documentsKept docs0) (assign f).
Proof. intros [db job] H. exact H. Qed.

Lemma saveLocal_kept : preserves (documentsKept docs0) saveLocal.
Proof. intros [db job] H. exact H. Qed.

Lemma mirror_kept (status : DocumentStatus) (now : Z) :
  preserves (documentsKept docs0) (mirror status now).
Proof.
  intros [db job] H.
  destruct (truthy (J.documentId job)) eqn:Ht.
  - destruct (documentRepository db !! default "" (J.documentId job)) as [doc|] eqn:Hdoc.
    + rewrite (mirror_found _ _ _ _ doc) by assumption.
      intros d Hd. cbn. rewrite lookup_insert. case_decide; [eauto | apply H, Hd].
    + rewrite mirror_missing by assumption. exact H.
  - rewrite mirror_no_document by assumption. exact H.
Qed.

Lemma prepare_kept :
  preserves (documentsKept docs0) (let* job := this_job in liftDb (prepareIngestionPayload job)).
Proof.
  intros [db job] H. unfold bind, this_job, gets, liftDb. cbn [fst snd].
  pose proof (prepareIngestionPayload_state job db) as Hp.
  destruct (prepareIngestionPayload job db) as [d' r]. cbn in *. subst d'. exact H.
Qed.

Lemma beforePost_kept (clock : Clock) : preserves (documentsKept docs0) (beforePost clock).
Proof.
  unfold beforePost.
  repeat (apply preserves_bind;
          [first [apply assign_kept | apply saveLocal_kept | apply mirror_kept]
          | intros _]).
  apply prepare_kept.
Qed.

Lemma afterPost_kept (clock : Clock) (data : string) :
  preserves (documentsKept docs0) (afterPost clock data).
Proof.
  unfold afterPost.
  repeat (apply preserves_bind; [apply assign_kept | intros _]).
  apply mirror_kept.
Qed.

Lemma onError_kept (clock : Clock) (e : Exception) :
  preserves (documentsKept docs0) (onError clock e).
Proof.
  unfold onError.
  repeat (apply preserves_bind; [apply assign_kept | intros _]).
  apply mirror_kept.
Qed.

End DocumentsKept.

(** Neither half of a dispatch removes a document. *)
Lemma startDispatch_kept (jobId : string) (clock : Clock) (db : Db) (d : string) :
  is_Some (documentRepository db !! d) ->
  is_Some (documentRepository (fst (startDispatch jobId clock db)) !! d).
Proof.
  intros Hd. unfold startDispatch.
  destruct (findById jobId db) as [db0 [job|e]] eqn:Efind.
  2:{ unfold findById, bind, gets in Efind.
      destruct (ingestionJobRepository db !! jobId); inversion Efind; subst. exact Hd. }
  apply findById_inv in Efind as [-> Hfound].
  assert (Hlocal : documentsKept (documentRepository db) (db, job))
    by (intros d' Hd'; exact Hd').
  pose proof (beforePost_kept _ clock _ Hlocal) as H1.
  destruct (beforePost clock (db, job)) as [s1 [payload|e]]; cbn [fst snd] in *.
  - apply H1, Hd.
  - assert (H2 : preserves (documentsKept (documentRepository db))
                   (try_finally (onError clock e) saveLocal))
      by (apply preserves_try_finally; [apply onError_kept | apply saveLocal_kept]).
    specialize (H2 s1 H1).
    destruct (try_finally (onError clock e) saveLocal s1) as [s2 r]; cbn [fst snd] in *.
    apply H2, Hd.
Qed.

Lemma completeDispatch_kept (job : IngestionJob) (answer : Result string)
      (clock : Clock) (db : Db) (d : string) :
  is_Some (documentRepository db !! d) ->
  is_Some (documentRepository (fst (completeDispatch job answer clock db)) !! d).
Proof.
  intros Hd. unfold completeDispatch, withLocal.
  assert (H : preserves (documentsKept (documentRepository db))
                (try_finally
                   (try_catch
                      (let* data := (fun s : Local => (s, answer)) in afterPost clock data)
                      (onError clock))
                   saveLocal)).
  { apply preserves_try_finally; [|apply saveLocal_kept].
    apply preserves_try_catch; [|apply onError_kept].
    apply preserves_bind; [intros s Hs; exact Hs | apply afterPost_kept]. }
  assert (Hlocal : documentsKept (documentRepository db) (db, job))
    by (intros d' Hd'; exact Hd').
  specialize (H (db, job) Hlocal).
  match goal with |- context [match ?m with _ => _ end] => destruct m as [s' r] end.
  apply H, Hd.
Qed.

(** Writing a row that references as an earlier one did keeps the
    integrity, when no document goes away. *)
Lemma update_integral (s s' : System) (k : string) (x : IngestionJob) :
  integralSystem s ->
  (forall d, is_Some (documentRepository (store s) !! d) ->
             is_Some (documentRepository (store s') !! d)) ->
  ingestionJobRepository (store s') = <[k := x]> (ingestionJobRepository (store s)) ->
  references (documentRepository (store s)) x ->
  (forall task, task ∈ awaiting s' ->
     task ∈ awaiting s \/ J.documentId (fst task) = J.documentId x) ->
  integralSystem s'.
Proof.
  intros [Hjobs Haw] Hkept E Hx Haw'. split.
  - intros k' job. rewrite E, lookup_insert. case_decide.
    + intros [= <-] d Hd. apply Hkept, (Hx d Hd).
    + intros Hfound d Hd. apply Hkept, (Hjobs _ _ Hfound d Hd).
  - intros task Ht d Hd. apply Hkept. destruct (Haw' task Ht) as [Hin | Hsame].
    + apply (Haw task Hin d Hd).
    + apply Hx. rewrite <- Hsame. exact Hd.
Qed.

Lemma unchanged_integral (s s' : System) :
  integralSystem s ->
  store s' = store s ->
  (forall task, task ∈ awaiting s' -> task ∈ awaiting s) ->
  integralSystem s'.
Proof.
  intros [Hjobs Haw] E Haw'. split.
  - rewrite E. exact Hjobs.
  - intros task Ht. rewrite E. apply Haw, Haw', Ht.
Qed.

Lemma step_integral (s s' : System) (ev : Event) :
  integralSystem s -> step s ev = Some s' -> integralSystem s'.
Proof.
  intros Hs Hstep. pose proof Hs as [Hjobs Haw].
  destruct ev as [dto u newId|id|id now|k clock|k answer clock]; cbn in Hstep.
  - case_bool_decide as Hfresh; [discriminate|].
    destruct (create_cases dto u newId (store s)) as [Hsame | (job & Hc & Hid & _)].
    + destruct (create dto u newId (store s)) as [db' [job|e]]; cbn in Hsame; subst db';
        inversion Hstep; subst s'; apply (unchanged_integral s); auto.
    + pose proof (create_referenced _ _ _ _ _ _ Hc) as Href.
      rewrite Hc in Hstep. inversion Hstep; subst s'.
      apply (update_integral s _ newId job); auto.
  - destruct (retry_cases id (store s))
      as [Hsame | (job & job' & Hfound & _ & _ & Hjob' & Hr)].
    + destruct (retry id (store s)) as [db' [job|e]]; cbn in Hsame; subst db';
        inversion Hstep; subst s'; apply (unchanged_integral s); auto.
    + rewrite Hr in Hstep. inversion Hstep; subst s'.
      apply (update_integral s _ (J.id job) job'); auto.
      subst job'. exact (Hjobs _ _ Hfound).
  - destruct (cancel_cases id now (store s)) as [Hsame | (job & Hfound & Hc)].
    + destruct (cancel id now (store s)) as [db' r]; cbn in Hsame; subst db'.
      inversion Hstep; subst s'; apply (unchanged_integral s); auto.
    + rewrite Hc in Hstep. inversion Hstep; subst s'.
      apply (update_integral s _ (J.id job)
               (set_completedAt (Some now) (set_status CANCELLED job))); auto.
      exact (Hjobs _ _ Hfound).
  - destruct (scheduled s !! k) as [jobId|]; [|discriminate].
    pose proof (startDispatch_kept jobId clock (store s)) as Hkept.
    destruct (ingestionJobRepository (store s) !! jobId) as [job|] eqn:Hfound.
    + destruct (startDispatch_written (store s) jobId job clock Hfound)
        as [_ [(payload & Hsnd & Hj) | (r & e & Hsnd & Hj)]];
        destruct (startDispatch jobId clock (store s)) as [db' x];
        cbn [fst snd] in *; subst x; inversion Hstep; subst s'.
      * apply (update_integral s _ (J.id job) (started clock job)); auto.
        -- exact (Hjobs _ _ Hfound).
        -- cbn [awaiting]. intros t Ht. apply elem_of_app in Ht as [Ht|Ht]; [left; exact Ht|].
           apply list_elem_of_singleton in Ht as ->. right. reflexivity.
      * apply (update_integral s _ (J.id job) (failed clock e (started clock job))); auto.
        exact (Hjobs _ _ Hfound).
    + unfold startDispatch in Hstep. rewrite (findById_missing _ _ Hfound) in Hstep.
      inversion Hstep; subst s'. apply (unchanged_integral s); auto.
  - destruct (awaiting s !! k) as [task|] eqn:Ek; [|discriminate].
    assert (Hin : task ∈ awaiting s) by (eapply list_elem_of_lookup_2; eauto).
    pose proof (completeDispatch_kept (fst task) answer clock (store s)) as Hkept.
    destruct (completeDispatch_written (store s) (fst task) answer clock)
      as (job' & Hj & _ & Hcases).
    destruct (completeDispatch (fst task) answer clock (store s)) as [db' r].
    cbn [fst] in Hj, Hkept. inversion Hstep; subst s'.
    assert (Hnew : J.documentId job' = J.documentId (fst task))
      by (destruct Hcases as [[data ->] | [[e ->] | (data & e & ->)]]; reflexivity).
    apply (update_integral s _ (J.id (fst task)) job'); auto.
    + intros d Hd. rewrite Hnew in Hd. apply (Haw task Hin d Hd).
    + cbn [awaiting]. intros t Ht. left. eapply list_elem_of_delete_inv; eauto.
Qed.

Lemma reachable_integral (s : System) : reachable s -> integralSystem s.
Proof.
  intros (documents & users & evs & Hrun).
  assert (Hinit : integralSystem (initial documents users)).
  { split.
    - intros k j H. cbn in H. rewrite lookup_empty in H. discriminate.
    - intros task H. cbn in H. apply elem_of_nil in H. contradiction. }
  revert Hinit Hrun. generalize (initial documents users).
  induction evs as [|ev rest IH]; intros s0 Hs0 Hrun; cbn in Hrun.
  - inversion Hrun; subst. exact Hs0.
  - destruct (step s0 ev) as [s1|] eqn:Estep; [|discriminate].
    apply (IH s1); [eapply step_integral; eauto | exact Hrun].
Qed.

(** X2. The job table keeps its foreign key: in every state reachable by
    create, retry, cancel and interleaved dispatches, the [documentId] of
    each stored job, when set, is the id of a stored document ([create]
    is refused by the store otherwise, and no operation assigns
    [documentId] or removes a document). So the dispatch of a stored job
    never fails on its document: it gets to the backend call, and
    [triggerIngestion] ends normally whatever the backend answers. *)
Theorem reachable_referential_integrity
        (s : System) (jobId : string) (job : IngestionJob) :
  reachable s ->
  ingestionJobRepository (store s) !! jobId = Some job ->
  (forall d, J.documentId job = Some d -> is_Some (documentRepository (store s) !! d)) /\
  (forall clock, exists db1 payload,
     startDispatch jobId clock (store s) = (db1, inr (started clock job, payload))) /\
  (forall backend clock,
     snd (triggerIngestion jobId backend clock (store s)) = Ok tt).
Proof.
  intros Hreach Hfound.
  destruct (reachable_integral s Hreach) as [Hjobs _].
  pose proof (Hjobs _ _ Hfound) as Href.
  assert (Hdoc : truthy (J.documentId job) = true ->
                 is_Some (documentRepository (store s) !! default "" (J.documentId job))).
  { destruct (J.documentId job) as [d|] eqn:Ed; intros Ht; [|discriminate Ht].
    cbn. apply Href. exact Ed. }
  split; [exact Href|]. split.
  - intros clock.
    destruct (startDispatch_reaches (store s) jobId job clock Hfound Hdoc)
      as (db1 & payload & Hstart & _).
    exists db1, payload. exact Hstart.
  - intros backend clock. rewrite triggerIngestion_split.
    destruct (startDispatch_reaches (store s) jobId job clock Hfound Hdoc)
      as (db1 & payload & Hstart & _).
    pose proof (startDispatch_kept jobId clock (store s)
                  (default "" (J.documentId job))) as Hkept.
    rewrite Hstart in *. cbn [fst] in Hkept.
    assert (Hdoc1 : truthy (J.documentId (started clock job)) = true ->
              is_Some (documentRepository db1
                         !! default "" (J.documentId (started clock job)))).
    { intros Ht. apply Hkept, Hdoc, Ht. }
    destruct (backend payload) as [data|e].
    + destruct (completeDispatch_success db1 (started clock job) data clock Hdoc1)
        as (db2 & -> & _). reflexivity.
    + destruct (completeDispatch_failure db1 (started clock job) e clock Hdoc1)
        as (db2 & -> & _). reflexivity.
Qed.

Lemma reachable_referential_integrity_witness :
  exists s job,
    run sample_initial [Create sample_dto "user-1" "job-1"] = Some s /\
    ingestionJobRepository (store s) !! "job-1" = Some job /\
    snd (triggerIngestion "job-1"
           (fun _ => Throw (AxiosError "timeout of 30000ms exceeded")) sample_clock
           (store s)) = Ok tt.
Proof.
  destruct (run sample_initial [Create sample_dto "user-1" "job-1"]) as [s|] eqn:Es;
    [|vm_compute in Es; discriminate Es].
  destruct (ingestionJobRepository (store s) !! "job-1") as [job|] eqn:Ejob.
  2:{ vm_compute in Es. inversion Es; subst s. vm_compute in Ejob. discriminate Ejob. }
  assert (Hreach : reachable s).
  { exists {[ "doc-1" := sample_document UPLOADED ]}, {[ "user-1" ]},
      [Create sample_dto "user-1" "job-1"]. exact Es. }
  exists s, job. split; [reflexivity|]. split; [exact Ejob|].
  apply (reachable_referential_integrity s "job-1" job Hreach Ejob).
Defined.
